(** * HeartChain frontend: campaign creation, local index and browse list

    A shallow embedding of
    - [frontend/lib/api.ts]            (module [Api]),
    - [frontend/app/create/page.tsx]   (module [Create]),
    - [frontend/app/campaigns/page.tsx] (module [Campaigns]),
    together with the part of the JavaScript run time these files rely on
    (module [JS]), followed by the notions of the specification (module
    [Spec]), sample data (module [Examples]) and the properties.

    What the client does to its surroundings is explicit: a computation is a
    function of the world ([Api.World.t]: the browser storage, the clock,
    the answers of the backend and the log of the requests sent) that
    returns a value or throws, together with the world it leaves
    ([Api.M]).  The React state of the creation page is a record
    ([Create.Page.t]) that the event handlers transform. *)

From Stdlib Require Import ZArith QArith Qround Qreduction Qabs Bool List String Ascii Lia Lqa.
From Stdlib Require Import Sorting.Permutation Sorting.Sorted.
Import ListNotations.

Local Open Scope string_scope.
Local Open Scope Z_scope.

(* ================================================================== *)
(** * The JavaScript run time used by the sources *)
(* ================================================================== *)

Module JS.

(** ** Numbers

    A value held by a field or variable of TypeScript type [number].  Finite
    values are kept as rationals: [Num q] stands for the double [q], and
    every [Num] built below is in lowest terms.  A decimal literal is
    rounded to the nearest double when it is read ([binary64], used by
    [parseFloat] and [parseInt]): a text such as "1e-400" reads as 0 and
    "1e400" as an infinity.  The arithmetic operations are the exact ones:
    they give what JavaScript gives whenever the exact result is a double,
    which is the case for the sums, differences and products of whole
    numbers below 2^53 that the dates of the sources are made of; the sign
    of a difference of doubles, which is all that a comparison function
    passes on, is the exact one as well.  The sign of zero is not
    represented.  [Null] is the JSON [null] that [JSON.stringify] writes for
    a number that is not finite and that [JSON.parse] reads back into the
    same field. *)
Inductive number : Type :=
| Null
| NaN
| Inf (negative : bool)
| Num (q : Q).

Definition num (z : Z) : number := Num (inject_Z z).

(** ToNumber on such a value: [null] is [+0]. *)
Definition ToNumber (v : number) : number :=
  match v with
  | Null => Num 0
  | _ => v
  end.

Definition Qneg_b (q : Q) : bool :=
  match (q ?= 0)%Q with Lt => true | _ => false end.

Definition Qzero_b (q : Q) : bool :=
  match (q ?= 0)%Q with Eq => true | _ => false end.

(** [a < b]; false as soon as one side is NaN. *)
Definition lt (a b : number) : bool :=
  match ToNumber a, ToNumber b with
  | Inf n1, Inf n2 => n1 && negb n2
  | Inf n, Num _ => n
  | Num _, Inf n => negb n
  | Num p, Num q => match (p ?= q)%Q with Lt => true | _ => false end
  | _, _ => false
  end.

(** [a <= b]; false as soon as one side is NaN. *)
Definition le (a b : number) : bool :=
  match ToNumber a, ToNumber b with
  | Inf n1, Inf n2 => n1 || negb n2
  | Inf n, Num _ => n
  | Num _, Inf n => negb n
  | Num p, Num q => match (p ?= q)%Q with Gt => false | _ => true end
  | _, _ => false
  end.

Definition gt (a b : number) : bool := lt b a.

Definition neg (a : number) : number :=
  match ToNumber a with
  | Inf n => Inf (negb n)
  | Num q => Num (Qred (- q))
  | v => v
  end.

Definition add (a b : number) : number :=
  match ToNumber a, ToNumber b with
  | Inf n1, Inf n2 => if Bool.eqb n1 n2 then Inf n1 else NaN
  | Inf n, Num _ => Inf n
  | Num _, Inf n => Inf n
  | Num p, Num q => Num (Qred (p + q))
  | _, _ => NaN
  end.

Definition sub (a b : number) : number := add a (neg b).

Definition mul (a b : number) : number :=
  match ToNumber a, ToNumber b with
  | Inf n1, Inf n2 => Inf (xorb n1 n2)
  | Inf n, Num q | Num q, Inf n =>
      if Qzero_b q then NaN else Inf (xorb n (Qneg_b q))
  | Num p, Num q => Num (Qred (p * q))
  | _, _ => NaN
  end.

(** Division.  A zero divisor is taken as [+0]. *)
Definition div (a b : number) : number :=
  match ToNumber a, ToNumber b with
  | Inf n1, Inf n2 => NaN
  | Inf n, Num q => Inf (xorb n (Qneg_b q))
  | Num _, Inf _ => Num 0
  | Num p, Num q =>
      if Qzero_b q then (if Qzero_b p then NaN else Inf (Qneg_b p))
      else Num (Qred (p / q))
  | _, _ => NaN
  end.

Module Math.

Definition ceil (a : number) : number :=
  match ToNumber a with
  | Num q => num (Qceiling q)
  | v => v
  end.

Definition floor (a : number) : number :=
  match ToNumber a with
  | Num q => num (Qfloor q)
  | v => v
  end.

(** [Math.max] of two arguments: NaN when one of them is. *)
Definition max (a b : number) : number :=
  match ToNumber a, ToNumber b with
  | NaN, _ | _, NaN => NaN
  | x, y => if lt x y then y else x
  end.

End Math.

(** *** Rounding to binary64 *)

(** [2 ^ e] for an integer [e]. *)
Definition pow2 (e : Z) : Q :=
  if 0 <=? e then inject_Z (2 ^ e) else 1 # Z.to_pos (2 ^ (- e)).

(** The integer nearest to [x], the even one when two are as near. *)
Definition round_half_even (x : Q) : Z :=
  let f := Qfloor x in
  match (x - inject_Z f ?= 1 # 2)%Q with
  | Lt => f
  | Gt => f + 1
  | Eq => if Z.even f then f else f + 1
  end.

(** For a positive [q], the exponent [e] with [2^e <= q < 2^(e+1)]. *)
Definition binade (q : Q) : Z :=
  let e := Z.log2 (Qnum q) - Z.log2 (Zpos (Qden q)) in
  if Qle_bool (pow2 e) q then e else e - 1.

(** The Number value for [q]: the binary64 value nearest to it, the one
    with an even significand when two are as near.  A binary64 value has 53
    significant bits and an exponent from -1022 to 1023; below [2^-1022]
    the values are 2^-1074 apart, so that a magnitude of 2^-1075 or less is
    rounded to 0; a magnitude that rounds to 2^1024 is an infinity. *)
Definition binary64 (q : Q) : number :=
  if Qzero_b q then Num 0
  else
    let a := Qabs q in
    let ulp := pow2 (Z.max (binade a) (-1022) - 52) in
    let r := (inject_Z (round_half_even (a / ulp)) * ulp)%Q in
    if Qle_bool (pow2 1024) r then Inf (Qneg_b q)
    else Num (Qred (if Qneg_b q then - r else r)).

(** What [JSON.parse (JSON.stringify v)] gives back for a number. *)
Definition JSON_number (v : number) : number :=
  match v with
  | Num q => Num q
  | _ => Null
  end.

(** ** Strings

    A [string] is a JavaScript string whose code units are below 256; an
    [ascii] is one code unit, so [String.length] is the [length] property. *)

Definition code (c : ascii) : nat := nat_of_ascii c.

(** WhiteSpace and LineTerminator code units (below 256): TAB, LF, VT, FF,
    CR, SP and NBSP. *)
Definition is_white_space (c : ascii) : bool :=
  let n := code c in
  ((9 <=? n) && (n <=? 13) || (n =? 32) || (n =? 160))%nat.

Fixpoint trimStart (s : string) : string :=
  match s with
  | EmptyString => EmptyString
  | String c s' => if is_white_space c then trimStart s' else s
  end.

Fixpoint trimEnd (s : string) : string :=
  match s with
  | EmptyString => EmptyString
  | String c s' =>
      match trimEnd s' with
      | EmptyString => if is_white_space c then EmptyString else String c EmptyString
      | t => String c t
      end
  end.

Definition trim (s : string) : string := trimEnd (trimStart s).

(** ToBoolean of a string: the empty string is the only falsy one. *)
Definition truthy (s : string) : bool :=
  match s with
  | EmptyString => false
  | _ => true
  end.

(** [a || b] on strings. *)
Definition or_else (a b : string) : string := if truthy a then a else b.

(** [a || b] where [a] may be [undefined] or [null]. *)
Definition opt_or_else (a : option string) (b : string) : string :=
  match a with
  | Some s => or_else s b
  | None => b
  end.

(** [toLowerCase] on code units below 256: A-Z and the Latin-1 capitals. *)
Definition lower (c : ascii) : ascii :=
  let n := code c in
  if ((65 <=? n) && (n <=? 90) || (192 <=? n) && (n <=? 222) && negb (n =? 215))%nat
  then ascii_of_nat (n + 32) else c.

Fixpoint toLowerCase (s : string) : string :=
  match s with
  | EmptyString => EmptyString
  | String c s' => String (lower c) (toLowerCase s')
  end.

(** [s.includes(q)]. *)
Fixpoint includes (s q : string) : bool :=
  String.prefix q s ||
  match s with
  | EmptyString => false
  | String _ s' => includes s' q
  end.

(** [s.replace(p, r)] with a string pattern: the first occurrence only. *)
Fixpoint replace (s p r : string) : string :=
  if String.prefix p s then r ++ String.substring (String.length p) (String.length s) s
  else match s with
       | EmptyString => EmptyString
       | String c s' => String c (replace s' p r)
       end.

(** ** Number literals *)

Definition is_digit (c : ascii) : bool :=
  let n := code c in ((48 <=? n) && (n <=? 57))%nat.

Definition digit_value (c : ascii) : Z := Z.of_nat (code c) - 48.

Definition hex_value (c : ascii) : option Z :=
  let n := code c in
  if ((48 <=? n) && (n <=? 57))%nat then Some (Z.of_nat n - 48)
  else if ((97 <=? n) && (n <=? 102))%nat then Some (Z.of_nat n - 87)
  else if ((65 <=? n) && (n <=? 70))%nat then Some (Z.of_nat n - 55)
  else None.

(** The longest run of decimal digits at the front of [s]: their value, how
    many there are, and what follows. *)
Fixpoint digits (acc : Z) (count : nat) (s : string) : Z * nat * string :=
  match s with
  | String c s' =>
      if is_digit c then digits (10 * acc + digit_value c) (S count) s'
      else (acc, count, s)
  | EmptyString => (acc, count, s)
  end.

Fixpoint hex_digits (acc : Z) (count : nat) (s : string) : Z * nat * string :=
  match s with
  | String c s' =>
      match hex_value c with
      | Some d => hex_digits (16 * acc + d) (S count) s'
      | None => (acc, count, s)
      end
  | EmptyString => (acc, count, s)
  end.

(** An optional sign: [true] for a minus. *)
Definition sign (s : string) : bool * string :=
  match s with
  | String c s' =>
      if Ascii.eqb c "-" then (true, s')
      else if Ascii.eqb c "+" then (false, s')
      else (false, s)
  | EmptyString => (false, s)
  end.

(** The ExponentPart in front of [s], if there is a complete one. *)
Definition exponent (s : string) : Z :=
  match s with
  | String c s' =>
      if (code c =? 101)%nat || (code c =? 69)%nat then
        let (negative, s'') := sign s' in
        match digits 0 0 s'' with
        | (_, O, _) => 0
        | (e, _, _) => if negative then - e else e
        end
      else 0
  | EmptyString => 0
  end.

Definition scale (negative : bool) (m e : Z) : Q :=
  let v := if 0 <=? e then inject_Z (m * 10 ^ e)
           else Qred (Qmake m (Z.to_pos (10 ^ (- e)))) in
  if negative then Qred (- v) else v.

(** A point and the digits after it, if [s] starts with a point: the
    value of the digits read so far ([ip] and the new ones), how many new
    ones there are, and what follows. *)
Definition fraction (ip : Z) (s : string) : Z * nat * string :=
  match s with
  | String c s' => if Ascii.eqb c "." then digits ip 0 s' else (ip, O, s)
  | EmptyString => (ip, O, s)
  end.

(** [parseFloat]: leading white space is skipped, then the longest prefix
    that is a StrDecimalLiteral is read, and its value rounded to a
    double; NaN when there is none. *)
Definition parseFloat (s : string) : number :=
  let (negative, s1) := sign (trimStart s) in
  if String.prefix "Infinity" s1 then Inf negative
  else
    let '(ip, ni, s2) := digits 0 0 s1 in
    let '(fp, nf, s3) := fraction ip s2 in
    match ni, nf with
    | O, O => NaN
    | _, _ => binary64 (scale negative fp (exponent s3 - Z.of_nat nf))
    end.

(** What follows a [0x] or [0X] at the front of [s], if there is one. *)
Definition hex_prefix (s : string) : option string :=
  match s with
  | String c (String x s') =>
      if Ascii.eqb c "0" && ((code x =? 120)%nat || (code x =? 88)%nat)
      then Some s' else None
  | _ => None
  end.

(** [parseInt] without a radix: leading white space is skipped, a [0x]
    prefix selects base 16, and the whole number read is rounded to a
    double; NaN when no digit follows. *)
Definition parseInt (s : string) : number :=
  let (negative, s1) := sign (trimStart s) in
  let '(v, n, _) :=
    match hex_prefix s1 with
    | Some s2 => hex_digits 0 0 s2
    | None => digits 0 0 s1
    end in
  match n with
  | O => NaN
  | _ => binary64 (inject_Z (if negative then - v else v))
  end.

(** Decimal text of an integer, as [String(n)] gives it below 10^21. *)
Fixpoint pos_digits (fuel : nat) (n : Z) (acc : string) : string :=
  match fuel with
  | O => acc
  | S fuel' =>
      let acc' := String (ascii_of_nat (48 + Z.to_nat (n mod 10))) acc in
      if n <? 10 then acc' else pos_digits fuel' (n / 10) acc'
  end.

Definition int_to_string (n : Z) : string :=
  if n <? 0 then "-" ++ pos_digits (S (Z.to_nat (Z.log2 (- n)))) (- n) ""
  else pos_digits (S (Z.to_nat (Z.log2 n))) n "".

(** ** Dates

    A Date object is its time value: a whole number of milliseconds since
    the epoch, or NaN for an invalid date. *)

(** TimeClip, applied by [new Date(t)] to a number. *)
Definition TimeClip (t : number) : number :=
  match ToNumber t with
  | Num q =>
      if Qle_bool (Qabs q) (inject_Z 8640000000000000)
      then num (if Qneg_b q then Qceiling q else Qfloor q)
      else NaN
  | _ => NaN
  end.

Definition is_leap (y : Z) : bool :=
  ((y mod 4 =? 0) && negb (y mod 100 =? 0)) || (y mod 400 =? 0).

Definition days_in_month (y m : Z) : Z :=
  if m =? 2 then (if is_leap y then 29 else 28)
  else if (m =? 4) || (m =? 6) || (m =? 9) || (m =? 11) then 30 else 31.

(** Days from 1970-01-01 to the civil date [y]-[m]-[d]. *)
Definition days_from_civil (y m d : Z) : Z :=
  let y' := if m <=? 2 then y - 1 else y in
  let era := y' / 400 in
  let yoe := y' - era * 400 in
  let doy := (153 * (if 2 <? m then m - 3 else m + 9) + 2) / 5 + d - 1 in
  let doe := yoe * 365 + yoe / 4 - yoe / 100 + doy in
  era * 146097 + doe - 719468.

(** Exactly [n] decimal digits at the front of [s]. *)
Fixpoint fixed_digits (n : nat) (acc : Z) (s : string) : option (Z * string) :=
  match n, s with
  | O, _ => Some (acc, s)
  | S n', String c s' =>
      if is_digit c then fixed_digits n' (10 * acc + digit_value c) s' else None
  | S _, EmptyString => None
  end.

Definition expect (c : ascii) (s : string) : option string :=
  match s with
  | String c' s' => if Ascii.eqb c c' then Some s' else None
  | EmptyString => None
  end.

(** [Date.parse] on the format that [toISOString] writes,
    [YYYY-MM-DDTHH:mm:ss.sssZ]; any other text, and a day past the end of
    its month, is read as invalid here.
    (ECMAScript leaves the reading of other formats to the host; the
    sources are embedded over an arbitrary [Date_parse], of which this is
    one instance.) *)
Definition Date_parse_ISO (s : string) : number :=
  let bind {A B} (o : option A) (k : A -> option B) : option B :=
    match o with Some a => k a | None => None end in
  let r :=
    bind (fixed_digits 4 0 s) (fun '(y, s) =>
    bind (expect "-" s) (fun s =>
    bind (fixed_digits 2 0 s) (fun '(mo, s) =>
    bind (expect "-" s) (fun s =>
    bind (fixed_digits 2 0 s) (fun '(d, s) =>
    bind (expect "T" s) (fun s =>
    bind (fixed_digits 2 0 s) (fun '(h, s) =>
    bind (expect ":" s) (fun s =>
    bind (fixed_digits 2 0 s) (fun '(mi, s) =>
    bind (expect ":" s) (fun s =>
    bind (fixed_digits 2 0 s) (fun '(sec, s) =>
    bind (expect "." s) (fun s =>
    bind (fixed_digits 3 0 s) (fun '(ms, s) =>
    match s with
    | "Z" =>
        if (1 <=? mo) && (mo <=? 12) && (1 <=? d) && (d <=? days_in_month y mo)
           && ((h <=? 23) || (h =? 24) && (mi =? 0) && (sec =? 0) && (ms =? 0))
           && (mi <=? 59) && (sec <=? 59)
        then Some (days_from_civil y mo d * 86400000
                   + h * 3600000 + mi * 60000 + sec * 1000 + ms)
        else None
    | _ => None
    end))))))))))))) in
  match r with
  | Some t => num t
  | None => NaN
  end.

(** ** Array.prototype.sort

    The comparator's result goes through SortCompare: a NaN counts as +0.
    The sort is stable (ECMAScript 2019); the order it gives for a
    consistent comparator is the one of this insertion sort, which puts an
    element after those of the already sorted rest that it compares greater
    than. *)
Section Sort.
Context {A : Type}.
Variable comparefn : A -> A -> number.

Definition SortCompare (x y : A) : number :=
  match ToNumber (comparefn x y) with
  | NaN => num 0
  | v => v
  end.

Fixpoint insert (x : A) (l : list A) : list A :=
  match l with
  | [] => [x]
  | y :: l' => if gt (SortCompare x y) (num 0) then y :: insert x l' else x :: l
  end.

Definition sort (l : list A) : list A := fold_right insert [] l.
End Sort.

End JS.


(* ================================================================== *)
(** * frontend/lib/api.ts *)
(* ================================================================== *)

Module Api.
Import JS.

(** ** Types *)

Inductive CampaignType : Type := individual | charity.
Inductive PriorityLevel : Type := urgent | normal.
Inductive CampaignStatus : Type := active | completed.

Inductive DocumentType : Type :=
| medical_bill | doctor_prescription | hospital_letter | id_proof
| ngo_certificate | license | trust_deed | other.

Module CampaignDocument.
Record t : Type := {
  ipfs_hash : string;
  document_type : DocumentType;
  filename : string;
  mime_type : string;
  uploaded_at : option string
}.
End CampaignDocument.

(** An optional property is an [option]: [None] is [undefined] (or [null]
    where the interface allows it). *)
Module IndividualCampaignCreateRequest.
Record t : Type := {
  title : string;
  description : string;
  target_amount : number;
  duration_days : number;
  category : string;
  priority : option PriorityLevel;
  image_url : option string;
  beneficiary_name : string;
  phone_number : string;
  residential_address : string;
  verification_notes : option string;
  documents : option (list CampaignDocument.t)
}.

(** The property names that [JSON.stringify] writes for the request. *)
Definition keys (d : t) : list string :=
  let opt {A} (o : option A) (k : string) := match o with Some _ => [k] | None => [] end in
  ["title"; "description"; "target_amount"; "duration_days"; "category"]
  ++ opt (priority d) "priority" ++ opt (image_url d) "image_url"
  ++ ["beneficiary_name"; "phone_number"; "residential_address"]
  ++ opt (verification_notes d) "verification_notes" ++ opt (documents d) "documents".
End IndividualCampaignCreateRequest.

Module CharityCampaignCreateRequest.
Record t : Type := {
  title : string;
  description : string;
  target_amount : number;
  duration_days : number;
  category : string;
  priority : option PriorityLevel;
  image_url : option string;
  organization_name : string;
  contact_person_name : string;
  contact_phone_number : string;
  official_address : string;
  verification_notes : option string;
  documents : option (list CampaignDocument.t)
}.

(** The property names that [JSON.stringify] writes for the request. *)
Definition keys (d : t) : list string :=
  let opt {A} (o : option A) (k : string) := match o with Some _ => [k] | None => [] end in
  ["title"; "description"; "target_amount"; "duration_days"; "category"]
  ++ opt (priority d) "priority" ++ opt (image_url d) "image_url"
  ++ ["organization_name"; "contact_person_name"; "contact_phone_number";
      "official_address"]
  ++ opt (verification_notes d) "verification_notes" ++ opt (documents d) "documents".
End CharityCampaignCreateRequest.

Module CreateResponse.
Record t : Type := {
  tx_hash : string;
  cid : string;
  status : string
}.
End CreateResponse.

Module MockCampaign.
Record t : Type := {
  id : string;
  _id : option string;
  cid : string;
  campaign_type : CampaignType;
  title : string;
  description : string;
  target_amount : number;
  raised_amount : number;
  duration_days : number;
  category : string;
  priority : PriorityLevel;
  status : CampaignStatus;
  image_url : option string;
  organization_name : option string;
  created_at : string;
  end_date : option string;
  blockchain_tx_hash : option string;
  on_chain_id : option string;
  documents_count : option number
}.

(** The own property names of the object, in the order of the interface:
    what [JSON.stringify] writes.  A property that is [undefined] is not
    written; [image_url] and [blockchain_tx_hash] are written as [null]
    when they hold no string. *)
Definition keys (c : t) : list string :=
  let opt {A} (o : option A) (k : string) := match o with Some _ => [k] | None => [] end in
  ["id"] ++ opt (_id c) "_id" ++
  ["cid"; "campaign_type"; "title"; "description"; "target_amount";
   "raised_amount"; "duration_days"; "category"; "priority"; "status";
   "image_url"] ++ opt (organization_name c) "organization_name" ++
  ["created_at"] ++ opt (end_date c) "end_date" ++
  ["blockchain_tx_hash"] ++ opt (on_chain_id c) "on_chain_id" ++
  opt (documents_count c) "documents_count".
End MockCampaign.

(** A browser [File]: what the sources read of it. *)
Module File.
Record t : Type := {
  name : string;
  size : Z
}.
End File.

(** ** The environment: JSON bodies, errors, network and storage *)

#[local] Set Warnings "-register-all".

(** A decoded JSON value.  A number carries the text that [String] gives
    for it. *)
Inductive json : Type :=
| JNull
| JBool (b : bool)
| JNumber (value : Q) (text : string)
| JString (s : string)
| JArray (items : list json)
| JObject (properties : list (string * json)).

(** ToBoolean. *)
Definition json_truthy (v : json) : bool :=
  match v with
  | JNull => false
  | JBool b => b
  | JNumber q _ => negb (Qzero_b q)
  | JString s => truthy s
  | JArray _ | JObject _ => true
  end.

(** ToString; an array joins its items with commas, [null] items being
    empty. *)
Fixpoint ToString (v : json) : string :=
  match v with
  | JNull => "null"
  | JBool true => "true"
  | JBool false => "false"
  | JNumber _ text => text
  | JString s => s
  | JArray items =>
      let item x := match x with JNull => "" | _ => ToString x end in
      (fix join (l : list json) : string :=
         match l with
         | [] => ""
         | [x] => item x
         | x :: l' => item x ++ "," ++ join l'
         end) items
  | JObject _ => "[object Object]"
  end.

Fixpoint assoc (k : string) (l : list (string * json)) : option json :=
  match l with
  | [] => None
  | (k', v) :: l' => if String.eqb k k' then Some v else assoc k l'
  end.

(** A thrown value: every one in these sources is an [Error] instance. *)
Inductive exn : Type :=
| Error (message : string)
| TypeError (message : string)
| SyntaxError (message : string).

Definition message (e : exn) : string :=
  match e with
  | Error m | TypeError m | SyntaxError m => m
  end.

(** The message of the TypeError raised by reading [detail] of [null]
    (the wording is V8's). *)
Definition null_detail_message : string :=
  "Cannot read properties of null (reading 'detail')".

(** What [response.json()] settles to: the decoded body, or a rejection
    with the engine's SyntaxError message. *)
Inductive Body (T : Type) : Type :=
| Parsed (v : T)
| Unparsable (message : string).
Arguments Parsed {T} v.
Arguments Unparsable {T} message.

(** A [Response]: [response.ok] with a body of the endpoint's declared
    type, or not ok with a status and any body. *)
Inductive Response (T : Type) : Type :=
| Ok (body : Body T)
| NotOk (status : Z) (body : Body json).
Arguments Ok {T} body.
Arguments NotOk {T} status body.

(** What [fetch] settles to: a rejection (network failure) or a response. *)
Inductive FetchResult (T : Type) : Type :=
| Rejected (message : string)
| Responded (r : Response T).
Arguments Rejected {T} message.
Arguments Responded {T} r.

Inductive Request : Type :=
| POST_campaigns_individual (data : IndividualCampaignCreateRequest.t)
| POST_campaigns_charity (data : CharityCampaignCreateRequest.t)
| POST_documents_upload (document : File.t) (document_type : DocumentType).

(** The world the client runs in.
    - [window]: whether [typeof window !== 'undefined'];
    - [localStorage]: the item [heartchain_campaigns], decoded; [None] when
      [getItem] returns [null].  The item is only ever written by
      [saveToLocalIndex], so it is held as the array it decodes to;
    - [now]: what [new Date().toISOString()] returns;
    - [create_backend], [upload_backend]: how the backend settles the
      [n]-th request ([n] counts the requests sent before);
    - [sent]: the requests sent so far, oldest first. *)
Module World.
Record t : Type := {
  window : bool;
  localStorage : option (list MockCampaign.t);
  now : string;
  create_backend : nat -> Request -> FetchResult CreateResponse.t;
  upload_backend : nat -> Request -> FetchResult CampaignDocument.t;
  sent : list Request
}.

Definition setItem (v : list MockCampaign.t) (w : t) : t :=
  {| window := window w; localStorage := Some v; now := now w;
     create_backend := create_backend w; upload_backend := upload_backend w;
     sent := sent w |}.

(** [localStorage.removeItem]/[clear], done from outside the client. *)
Definition clear (w : t) : t :=
  {| window := window w; localStorage := None; now := now w;
     create_backend := create_backend w; upload_backend := upload_backend w;
     sent := sent w |}.

Definition send (r : Request) (w : t) : t :=
  {| window := window w; localStorage := localStorage w; now := now w;
     create_backend := create_backend w; upload_backend := upload_backend w;
     sent := sent w ++ [r] |}.

(** Time passing: the clock reads [time] from now on. *)
Definition at_time (time : string) (w : t) : t :=
  {| window := window w; localStorage := localStorage w; now := time;
     create_backend := create_backend w; upload_backend := upload_backend w;
     sent := sent w |}.
End World.

(** ** Computations: a state and exception monad over the world *)

Inductive Result (A : Type) : Type :=
| Returned (a : A)
| Thrown (e : exn).
Arguments Returned {A} a.
Arguments Thrown {A} e.

Definition M (A : Type) : Type := World.t -> Result A * World.t.

Definition ret {A} (a : A) : M A := fun w => (Returned a, w).

Definition throw {A} (e : exn) : M A := fun w => (Thrown e, w).

Definition bind {A B} (m : M A) (k : A -> M B) : M B :=
  fun w =>
    match m w with
    | (Returned a, w') => k a w'
    | (Thrown e, w') => (Thrown e, w')
    end.

(** [try { m } catch (err) { handler err }]. *)
Definition try_catch {A} (m : M A) (handler : exn -> M A) : M A :=
  fun w =>
    match m w with
    | (Returned a, w') => (Returned a, w')
    | (Thrown e, w') => handler e w'
    end.

Declare Scope js_scope.
Delimit Scope js_scope with js.
Notation "x <- m ;; k" := (bind m (fun x => k))
  (at level 61, m at next level, right associativity) : js_scope.
Notation "m ;; k" := (bind m (fun _ => k))
  (at level 61, right associativity) : js_scope.
Local Open Scope js_scope.

Definition fetch_create (r : Request) : M (FetchResult CreateResponse.t) :=
  fun w => (Returned (World.create_backend w (List.length (World.sent w)) r), World.send r w).

Definition fetch_upload (r : Request) : M (FetchResult CampaignDocument.t) :=
  fun w => (Returned (World.upload_backend w (List.length (World.sent w)) r), World.send r w).

(** [new Date().toISOString()]. *)
Definition Date_now_toISOString : M string :=
  fun w => (Returned (World.now w), w).

(** [response.json()]. *)
Definition json_of {T} (b : Body T) : M T :=
  match b with
  | Parsed v => ret v
  | Unparsable m => throw (SyntaxError m)
  end.

(** [error.detail]: reading the property throws on [null]; only an object
    can have it. *)
Definition detail (error : json) : M (option json) :=
  match error with
  | JNull => throw (TypeError null_detail_message)
  | JObject properties => ret (assoc "detail" properties)
  | _ => ret None
  end.

(** ** class ApiClient *)

(** [request<T>(endpoint, options)], for the two POST endpoints that use
    it. *)
Definition request (r : Request) : M CreateResponse.t :=
  response <- fetch_create r ;;
  match response with
  | Rejected m => throw (TypeError m)
  | Responded (NotOk status body) =>
      error <- try_catch (json_of body)
                 (fun _ => ret (JObject [("detail", JString "An error occurred")])) ;;
      d <- detail error ;;
      throw (Error (match d with
                    | Some v => if json_truthy v then ToString v
                                else "HTTP " ++ int_to_string status
                    | None => "HTTP " ++ int_to_string status
                    end))
  | Responded (Ok body) => json_of body
  end.

(** [JSON.parse (JSON.stringify campaign)]: a number that is not finite
    comes back as [null]. *)
Definition JSON_roundtrip (c : MockCampaign.t) : MockCampaign.t :=
  {| MockCampaign.id := MockCampaign.id c;
     MockCampaign._id := MockCampaign._id c;
     MockCampaign.cid := MockCampaign.cid c;
     MockCampaign.campaign_type := MockCampaign.campaign_type c;
     MockCampaign.title := MockCampaign.title c;
     MockCampaign.description := MockCampaign.description c;
     MockCampaign.target_amount := JSON_number (MockCampaign.target_amount c);
     MockCampaign.raised_amount := JSON_number (MockCampaign.raised_amount c);
     MockCampaign.duration_days := JSON_number (MockCampaign.duration_days c);
     MockCampaign.category := MockCampaign.category c;
     MockCampaign.priority := MockCampaign.priority c;
     MockCampaign.status := MockCampaign.status c;
     MockCampaign.image_url := MockCampaign.image_url c;
     MockCampaign.organization_name := MockCampaign.organization_name c;
     MockCampaign.created_at := MockCampaign.created_at c;
     MockCampaign.end_date := MockCampaign.end_date c;
     MockCampaign.blockchain_tx_hash := MockCampaign.blockchain_tx_hash c;
     MockCampaign.on_chain_id := MockCampaign.on_chain_id c;
     MockCampaign.documents_count := option_map JSON_number (MockCampaign.documents_count c) |}.

(** [JSON.parse(localStorage.getItem('heartchain_campaigns') || '[]')]. *)
Definition read_index (w : World.t) : list MockCampaign.t :=
  match World.localStorage w with
  | Some l => l
  | None => []
  end.

Definition saveToLocalIndex (campaign : MockCampaign.t) : M unit :=
  fun w =>
    if World.window w then
      let existing := read_index w in
      let existing := campaign :: existing in
      (Returned tt, World.setItem (map JSON_roundtrip existing) w)
    else (Returned tt, w).

(** [data.priority || 'normal']: both levels are non-empty strings. *)
Definition priority_or_normal (p : option PriorityLevel) : PriorityLevel :=
  match p with
  | Some l => l
  | None => normal
  end.

(** [data.image_url || null]. *)
Definition image_url_or_null (u : option string) : option string :=
  match u with
  | Some s => if truthy s then Some s else None
  | None => None
  end.

(** The record that [createIndividualCampaign] hands to
    [saveToLocalIndex]. *)
Definition individual_record (data : IndividualCampaignCreateRequest.t)
    (res : CreateResponse.t) (created_at : string) : MockCampaign.t :=
  {| MockCampaign.id := CreateResponse.cid res;
     MockCampaign._id := None;
     MockCampaign.cid := CreateResponse.cid res;
     MockCampaign.campaign_type := individual;
     MockCampaign.title := IndividualCampaignCreateRequest.title data;
     MockCampaign.description := IndividualCampaignCreateRequest.description data;
     MockCampaign.target_amount := IndividualCampaignCreateRequest.target_amount data;
     MockCampaign.raised_amount := num 0;
     MockCampaign.duration_days := IndividualCampaignCreateRequest.duration_days data;
     MockCampaign.category := IndividualCampaignCreateRequest.category data;
     MockCampaign.priority :=
       priority_or_normal (IndividualCampaignCreateRequest.priority data);
     MockCampaign.status := active;
     MockCampaign.image_url :=
       image_url_or_null (IndividualCampaignCreateRequest.image_url data);
     MockCampaign.organization_name := None;
     MockCampaign.created_at := created_at;
     MockCampaign.end_date := None;
     MockCampaign.blockchain_tx_hash := Some (CreateResponse.tx_hash res);
     MockCampaign.on_chain_id := None;
     MockCampaign.documents_count := None |}.

Definition createIndividualCampaign (data : IndividualCampaignCreateRequest.t)
  : M CreateResponse.t :=
  res <- request (POST_campaigns_individual data) ;;
  created_at <- Date_now_toISOString ;;
  saveToLocalIndex (individual_record data res created_at) ;;
  ret res.

(** The record that [createCharityCampaign] hands to [saveToLocalIndex]. *)
Definition charity_record (data : CharityCampaignCreateRequest.t)
    (res : CreateResponse.t) (created_at : string) : MockCampaign.t :=
  {| MockCampaign.id := CreateResponse.cid res;
     MockCampaign._id := None;
     MockCampaign.cid := CreateResponse.cid res;
     MockCampaign.campaign_type := charity;
     MockCampaign.title := CharityCampaignCreateRequest.title data;
     MockCampaign.description := CharityCampaignCreateRequest.description data;
     MockCampaign.target_amount := CharityCampaignCreateRequest.target_amount data;
     MockCampaign.raised_amount := num 0;
     MockCampaign.duration_days := CharityCampaignCreateRequest.duration_days data;
     MockCampaign.category := CharityCampaignCreateRequest.category data;
     MockCampaign.priority :=
       priority_or_normal (CharityCampaignCreateRequest.priority data);
     MockCampaign.status := active;
     MockCampaign.image_url :=
       image_url_or_null (CharityCampaignCreateRequest.image_url data);
     MockCampaign.organization_name :=
       Some (CharityCampaignCreateRequest.organization_name data);
     MockCampaign.created_at := created_at;
     MockCampaign.end_date := None;
     MockCampaign.blockchain_tx_hash := Some (CreateResponse.tx_hash res);
     MockCampaign.on_chain_id := None;
     MockCampaign.documents_count := None |}.

Definition createCharityCampaign (data : CharityCampaignCreateRequest.t)
  : M CreateResponse.t :=
  res <- request (POST_campaigns_charity data) ;;
  created_at <- Date_now_toISOString ;;
  saveToLocalIndex (charity_record data res created_at) ;;
  ret res.

(** The [params] that [getCampaigns] looks at. *)
Module Params.
Record t : Type := {
  campaign_type : option CampaignType;
  category : option string;
  limit : option number
}.
End Params.

Definition CampaignType_eqb (a b : CampaignType) : bool :=
  match a, b with
  | individual, individual | charity, charity => true
  | _, _ => false
  end.

Definition getCampaigns (params : option Params.t) : M (list MockCampaign.t) :=
  fun w =>
    if World.window w then
      let campaigns := read_index w in
      let campaigns :=
        match params with
        | Some {| Params.campaign_type := Some ty |} =>
            filter (fun c => CampaignType_eqb (MockCampaign.campaign_type c) ty) campaigns
        | _ => campaigns
        end in
      let campaigns :=
        match params with
        | Some {| Params.category := Some cat |} =>
            if truthy cat
            then filter (fun c => String.eqb (MockCampaign.category c) cat) campaigns
            else campaigns
        | _ => campaigns
        end in
      (Returned campaigns, w)
    else (Returned [], w).

(** [campaigns.find(c => c.id === id) || null]. *)
Definition getCampaign (id : string) : M (option MockCampaign.t) :=
  fun w =>
    if World.window w then
      let campaigns := read_index w in
      (Returned (find (fun c => String.eqb (MockCampaign.id c) id) campaigns), w)
    else (Returned None, w).

Definition uploadDocument (file : File.t) (documentType : DocumentType)
  : M CampaignDocument.t :=
  response <- fetch_upload (POST_documents_upload file documentType) ;;
  match response with
  | Rejected m => throw (TypeError m)
  | Responded (NotOk _ _) => throw (Error "Upload failed")
  | Responded (Ok body) => json_of body
  end.

End Api.

(* ================================================================== *)
(** * frontend/app/create/page.tsx *)
(* ================================================================== *)

Module Create.
Import JS Api.
Local Open Scope js_scope.

Module FormData.
Record t : Type := {
  campaignType : option CampaignType;   (* [None] is [''] *)
  title : string;
  category : string;
  targetAmount : string;
  durationDays : string;
  description : string;
  imageUrl : string;
  impactPlan : string;
  beneficiaryName : string;
  phoneNumber : string;
  residentialAddress : string;
  organizationName : string;
  contactPersonName : string;
  contactPhoneNumber : string;
  officialAddress : string;
  documents : list File.t;
  documentTypes : list DocumentType
}.
End FormData.

(** The component state: the [useState] cells, and the routes pushed on
    the router (oldest first). *)
Module Page.
Record t : Type := {
  currentStep : nat;
  isSubmitting : bool;
  error : option string;
  createdCampaignId : option string;
  formData : FormData.t;
  pushed : list string
}.
End Page.

Definition initialFormData : FormData.t :=
  {| FormData.campaignType := None;
     FormData.title := "";
     FormData.category := "";
     FormData.targetAmount := "";
     FormData.durationDays := "90";
     FormData.description := "";
     FormData.imageUrl := "";
     FormData.impactPlan := "";
     FormData.beneficiaryName := "";
     FormData.phoneNumber := "";
     FormData.residentialAddress := "";
     FormData.organizationName := "";
     FormData.contactPersonName := "";
     FormData.contactPhoneNumber := "";
     FormData.officialAddress := "";
     FormData.documents := [];
     FormData.documentTypes := [] |}.

Definition initialPage : Page.t :=
  {| Page.currentStep := 1%nat;
     Page.isSubmitting := false;
     Page.error := None;
     Page.createdCampaignId := None;
     Page.formData := initialFormData;
     Page.pushed := [] |}.

Definition setCurrentStep (n : nat) (p : Page.t) : Page.t :=
  {| Page.currentStep := n; Page.isSubmitting := Page.isSubmitting p;
     Page.error := Page.error p; Page.createdCampaignId := Page.createdCampaignId p;
     Page.formData := Page.formData p; Page.pushed := Page.pushed p |}.

Definition setIsSubmitting (b : bool) (p : Page.t) : Page.t :=
  {| Page.currentStep := Page.currentStep p; Page.isSubmitting := b;
     Page.error := Page.error p; Page.createdCampaignId := Page.createdCampaignId p;
     Page.formData := Page.formData p; Page.pushed := Page.pushed p |}.

Definition setError (e : option string) (p : Page.t) : Page.t :=
  {| Page.currentStep := Page.currentStep p; Page.isSubmitting := Page.isSubmitting p;
     Page.error := e; Page.createdCampaignId := Page.createdCampaignId p;
     Page.formData := Page.formData p; Page.pushed := Page.pushed p |}.

Definition setCreatedCampaignId (c : option string) (p : Page.t) : Page.t :=
  {| Page.currentStep := Page.currentStep p; Page.isSubmitting := Page.isSubmitting p;
     Page.error := Page.error p; Page.createdCampaignId := c;
     Page.formData := Page.formData p; Page.pushed := Page.pushed p |}.

Definition setFormData (f : FormData.t) (p : Page.t) : Page.t :=
  {| Page.currentStep := Page.currentStep p; Page.isSubmitting := Page.isSubmitting p;
     Page.error := Page.error p; Page.createdCampaignId := Page.createdCampaignId p;
     Page.formData := f; Page.pushed := Page.pushed p |}.

Definition router_push (url : string) (p : Page.t) : Page.t :=
  {| Page.currentStep := Page.currentStep p; Page.isSubmitting := Page.isSubmitting p;
     Page.error := Page.error p; Page.createdCampaignId := Page.createdCampaignId p;
     Page.formData := Page.formData p; Page.pushed := Page.pushed p ++ [url] |}.

(** A key of [FormData] together with a value of its type. *)
Inductive Field : Type :=
| campaignType (v : CampaignType)
| title (v : string)
| category (v : string)
| targetAmount (v : string)
| durationDays (v : string)
| description (v : string)
| imageUrl (v : string)
| impactPlan (v : string)
| beneficiaryName (v : string)
| phoneNumber (v : string)
| residentialAddress (v : string)
| organizationName (v : string)
| contactPersonName (v : string)
| contactPhoneNumber (v : string)
| officialAddress (v : string)
| documents (v : list File.t)
| documentTypes (v : list DocumentType).

(** [{ ...prev, [field]: value }]. *)
Definition assign (u : Field) (f : FormData.t) : FormData.t :=
  let pick {A} (sel : Field -> option A) (old : FormData.t -> A) : A :=
    match sel u with Some v => v | None => old f end in
  {| FormData.campaignType :=
       pick (fun u => match u with campaignType v => Some (Some v) | _ => None end)
            FormData.campaignType;
     FormData.title :=
       pick (fun u => match u with title v => Some v | _ => None end) FormData.title;
     FormData.category :=
       pick (fun u => match u with category v => Some v | _ => None end) FormData.category;
     FormData.targetAmount :=
       pick (fun u => match u with targetAmount v => Some v | _ => None end)
            FormData.targetAmount;
     FormData.durationDays :=
       pick (fun u => match u with durationDays v => Some v | _ => None end)
            FormData.durationDays;
     FormData.description :=
       pick (fun u => match u with description v => Some v | _ => None end)
            FormData.description;
     FormData.imageUrl :=
       pick (fun u => match u with imageUrl v => Some v | _ => None end) FormData.imageUrl;
     FormData.impactPlan :=
       pick (fun u => match u with impactPlan v => Some v | _ => None end)
            FormData.impactPlan;
     FormData.beneficiaryName :=
       pick (fun u => match u with beneficiaryName v => Some v | _ => None end)
            FormData.beneficiaryName;
     FormData.phoneNumber :=
       pick (fun u => match u with phoneNumber v => Some v | _ => None end)
            FormData.phoneNumber;
     FormData.residentialAddress :=
       pick (fun u => match u with residentialAddress v => Some v | _ => None end)
            FormData.residentialAddress;
     FormData.organizationName :=
       pick (fun u => match u with organizationName v => Some v | _ => None end)
            FormData.organizationName;
     FormData.contactPersonName :=
       pick (fun u => match u with contactPersonName v => Some v | _ => None end)
            FormData.contactPersonName;
     FormData.contactPhoneNumber :=
       pick (fun u => match u with contactPhoneNumber v => Some v | _ => None end)
            FormData.contactPhoneNumber;
     FormData.officialAddress :=
       pick (fun u => match u with officialAddress v => Some v | _ => None end)
            FormData.officialAddress;
     FormData.documents :=
       pick (fun u => match u with documents v => Some v | _ => None end)
            FormData.documents;
     FormData.documentTypes :=
       pick (fun u => match u with documentTypes v => Some v | _ => None end)
            FormData.documentTypes |}.

Definition updateField (u : Field) (p : Page.t) : Page.t :=
  setError None (setFormData (assign u (Page.formData p)) p).

(** [validateStep]: the verdict, and the page after the [setError] call if
    there is one. *)
Definition validateStep (step : nat) (p : Page.t) : bool * Page.t :=
  let formData := Page.formData p in
  let fail (m : string) := (false, setError (Some m) p) in
  let len := String.length in
  match step with
  | 1%nat =>
      match FormData.campaignType formData with
      | None => fail "Please select a campaign type"
      | Some ty =>
          if negb (truthy (trim (FormData.title formData)))
             || (len (FormData.title formData) <? 3)%nat
          then fail "Title must be at least 3 characters"
          else if negb (truthy (FormData.category formData))
          then fail "Please select a category"
          else if negb (truthy (FormData.targetAmount formData))
                  || le (parseFloat (FormData.targetAmount formData)) (num 0)
          then fail "Please enter a valid target amount"
          else
            match ty with
            | individual =>
                if negb (truthy (trim (FormData.beneficiaryName formData)))
                then fail "Beneficiary name is required"
                else if negb (truthy (trim (FormData.phoneNumber formData)))
                        || (len (FormData.phoneNumber formData) <? 10)%nat
                        || (20 <? len (FormData.phoneNumber formData))%nat
                then fail "Phone number must be between 10 and 20 characters"
                else if negb (truthy (trim (FormData.residentialAddress formData)))
                        || (len (FormData.residentialAddress formData) <? 5)%nat
                then fail "Residential address must be at least 5 characters"
                else (true, p)
            | charity =>
                if negb (truthy (trim (FormData.organizationName formData)))
                then fail "Organization name is required"
                else if negb (truthy (trim (FormData.contactPersonName formData)))
                then fail "Contact person name is required"
                else if negb (truthy (trim (FormData.contactPhoneNumber formData)))
                        || (len (FormData.contactPhoneNumber formData) <? 10)%nat
                        || (20 <? len (FormData.contactPhoneNumber formData))%nat
                then fail "Phone number must be between 10 and 20 characters"
                else if negb (truthy (trim (FormData.officialAddress formData)))
                        || (len (FormData.officialAddress formData) <? 5)%nat
                then fail "Official address must be at least 5 characters"
                else (true, p)
            end
      end
  | 2%nat =>
      if negb (truthy (trim (FormData.description formData)))
         || (len (FormData.description formData) <? 10)%nat
      then fail "Description must be at least 10 characters"
      else (true, p)
  | 3%nat => (true, p)
  | 4%nat => (true, p)
  | _ => (true, p)
  end.

Definition nextStep (p : Page.t) : Page.t :=
  let (ok, p') := validateStep (Page.currentStep p) p in
  if ok then
    if (Page.currentStep p <? 5)%nat then setCurrentStep (Page.currentStep p + 1) p'
    else p'
  else p'.

Definition prevStep (p : Page.t) : Page.t :=
  let p' := if (1 <? Page.currentStep p)%nat
            then setCurrentStep (Page.currentStep p - 1) p else p in
  setError None p'.

Definition LF : string := String (ascii_of_nat 10) EmptyString.

(** The upload loop of [handleSubmit], from index [i] on: [rest] is what is
    left of [formData.documents] there. *)
Fixpoint upload_from (i : nat) (rest : list File.t) (documentTypes : list DocumentType)
    (uploadedDocs : list CampaignDocument.t) : M (list CampaignDocument.t) :=
  match rest with
  | [] => ret uploadedDocs
  | file :: rest' =>
      let docType := nth i documentTypes other in
      docRes <- try_catch (uploadDocument file docType)
                  (fun _ => throw (Error ("Failed to upload document: " ++ File.name file))) ;;
      upload_from (S i) rest' documentTypes (uploadedDocs ++ [docRes])
  end.

(** [formData.imageUrl || undefined]. *)
Definition or_undefined (s : string) : option string :=
  if truthy s then Some s else None.

Definition individual_payload (formData : FormData.t) (fullDescription : string)
    (uploadedDocs : list CampaignDocument.t) : IndividualCampaignCreateRequest.t :=
  {| IndividualCampaignCreateRequest.title := FormData.title formData;
     IndividualCampaignCreateRequest.description := fullDescription;
     IndividualCampaignCreateRequest.target_amount :=
       parseFloat (FormData.targetAmount formData);
     IndividualCampaignCreateRequest.duration_days :=
       parseInt (FormData.durationDays formData);
     IndividualCampaignCreateRequest.category := FormData.category formData;
     IndividualCampaignCreateRequest.priority := Some normal;
     IndividualCampaignCreateRequest.image_url := or_undefined (FormData.imageUrl formData);
     IndividualCampaignCreateRequest.beneficiary_name := FormData.beneficiaryName formData;
     IndividualCampaignCreateRequest.phone_number := FormData.phoneNumber formData;
     IndividualCampaignCreateRequest.residential_address :=
       FormData.residentialAddress formData;
     IndividualCampaignCreateRequest.verification_notes := None;
     IndividualCampaignCreateRequest.documents := Some uploadedDocs |}.

Definition charity_payload (formData : FormData.t) (fullDescription : string)
    (uploadedDocs : list CampaignDocument.t) : CharityCampaignCreateRequest.t :=
  {| CharityCampaignCreateRequest.title := FormData.title formData;
     CharityCampaignCreateRequest.description := fullDescription;
     CharityCampaignCreateRequest.target_amount :=
       parseFloat (FormData.targetAmount formData);
     CharityCampaignCreateRequest.duration_days :=
       parseInt (FormData.durationDays formData);
     CharityCampaignCreateRequest.category := FormData.category formData;
     CharityCampaignCreateRequest.priority := Some normal;
     CharityCampaignCreateRequest.image_url := or_undefined (FormData.imageUrl formData);
     CharityCampaignCreateRequest.organization_name := FormData.organizationName formData;
     CharityCampaignCreateRequest.contact_person_name :=
       FormData.contactPersonName formData;
     CharityCampaignCreateRequest.contact_phone_number :=
       FormData.contactPhoneNumber formData;
     CharityCampaignCreateRequest.official_address := FormData.officialAddress formData;
     CharityCampaignCreateRequest.verification_notes := None;
     CharityCampaignCreateRequest.documents := Some uploadedDocs |}.

(** The body of the [try] block of [handleSubmit]. *)
Definition submit (p : Page.t) : M Page.t :=
  let formData := Page.formData p in
  uploadedDocs <- upload_from 0 (FormData.documents formData)
                    (FormData.documentTypes formData) [] ;;
  let fullDescription :=
    if truthy (FormData.impactPlan formData)
    then FormData.description formData ++ LF ++ LF ++ "---" ++ LF ++ LF
         ++ "**How Funds Will Be Used:**" ++ LF ++ FormData.impactPlan formData
    else FormData.description formData in
  response <-
    match FormData.campaignType formData with
    | Some individual =>
        createIndividualCampaign (individual_payload formData fullDescription uploadedDocs)
    | _ =>
        createCharityCampaign (charity_payload formData fullDescription uploadedDocs)
    end ;;
  let p := setCreatedCampaignId (Some (CreateResponse.cid response)) p in
  ret (router_push ("/campaigns/" ++ CreateResponse.cid response
                    ++ "?created=true&tx=" ++ CreateResponse.tx_hash response) p).

Definition handleSubmit (p : Page.t) : M Page.t :=
  let p := setIsSubmitting true p in
  let p := setError None p in
  p <- try_catch (submit p) (fun err => ret (setError (Some (message err)) p)) ;;
  ret (setIsSubmitting false p).

Definition handleFileChange (files : option (list File.t)) (p : Page.t) : Page.t :=
  match files with
  | Some fileArray =>
      let formData := Page.formData p in
      let docTypes := map (fun _ => other) fileArray in
      let p := updateField (documents (FormData.documents formData ++ fileArray)) p in
      updateField (documentTypes (FormData.documentTypes formData ++ docTypes)) p
  | None => p
  end.

(** [l.splice(index, 1)] on a copy. *)
Fixpoint splice1 {A} (index : nat) (l : list A) : list A :=
  match index, l with
  | _, [] => []
  | O, _ :: l' => l'
  | S i, x :: l' => x :: splice1 i l'
  end.

Definition removeDocument (index : nat) (p : Page.t) : Page.t :=
  let formData := Page.formData p in
  let newDocs := splice1 index (FormData.documents formData) in
  let newTypes := splice1 index (FormData.documentTypes formData) in
  updateField (documentTypes newTypes) (updateField (documents newDocs) p).

(** [newTypes[index] = type].  Past the end the array grows; the holes
    left before [index] read as [undefined], which [handleSubmit] takes as
    ['other'], and are kept as [other]. *)
Fixpoint set_nth (index : nat) (v : DocumentType) (l : list DocumentType)
  : list DocumentType :=
  match index, l with
  | O, [] => [v]
  | S i, [] => other :: set_nth i v []
  | O, _ :: l' => v :: l'
  | S i, x :: l' => x :: set_nth i v l'
  end.

Definition updateDocumentType (index : nat) (type : DocumentType) (p : Page.t) : Page.t :=
  let newTypes := set_nth index type (FormData.documentTypes (Page.formData p)) in
  updateField (documentTypes newTypes) p.

(** ** The controls of the page

    What the rendered page lets the user do: each event is what a control
    calls, and [enabled] tells whether [renderStep] and the navigation
    buttons show that control in the current state. *)

Definition CATEGORIES : list string :=
  ["Medical"; "Education"; "Disaster Relief"; "Community"; "Environment";
   "Emergency"; "Other"].

Definition INDIVIDUAL_DOCUMENT_TYPES : list DocumentType :=
  [medical_bill; doctor_prescription; hospital_letter; id_proof; other].

Definition CHARITY_DOCUMENT_TYPES : list DocumentType :=
  [ngo_certificate; license; trust_deed; other].

Definition documentTypeOptions (formData : FormData.t) : list DocumentType :=
  match FormData.campaignType formData with
  | Some individual => INDIVIDUAL_DOCUMENT_TYPES
  | _ => CHARITY_DOCUMENT_TYPES
  end.

Definition DocumentType_eqb (a b : DocumentType) : bool :=
  match a, b with
  | medical_bill, medical_bill | doctor_prescription, doctor_prescription
  | hospital_letter, hospital_letter | id_proof, id_proof
  | ngo_certificate, ngo_certificate | license, license
  | trust_deed, trust_deed | other, other => true
  | _, _ => false
  end.

(** The value of an [<input type="number">]: empty, or a valid
    floating-point number (an optional minus, digits and/or a point
    followed by digits, an optional exponent). *)
Definition number_input_value (v : string) : bool :=
  match v with
  | EmptyString => true
  | String c v' =>
      let s1 := if Ascii.eqb c "-" then v' else v in
      let '(_, ni, s2) := digits 0 0 s1 in
      let '(_, nf, s3) := fraction 0 s2 in
      let mantissa_ok :=
        match s2 with
        | String d _ => if Ascii.eqb d "." then (0 <? nf)%nat else (0 <? ni)%nat
        | EmptyString => (0 <? ni)%nat
        end in
      mantissa_ok &&
      match s3 with
      | EmptyString => true
      | String e s4 =>
          ((code e =? 101)%nat || (code e =? 69)%nat) &&
          match digits 0 0 (snd (sign s4)) with
          | (_, ne, EmptyString) => (0 <? ne)%nat
          | _ => false
          end
      end
  end.

Inductive Event : Type :=
| Input (u : Field)
| FileChange (files : option (list File.t))
| RemoveDocument (index : nat)
| UpdateDocumentType (index : nat) (type : DocumentType)
| NextStep
| PrevStep
| Submit.

Definition enabled (e : Event) (p : Page.t) : bool :=
  let step := Page.currentStep p in
  let formData := Page.formData p in
  let typed := match FormData.campaignType formData with Some _ => true | None => false end in
  let of_type ty := match FormData.campaignType formData with
               | Some ty' => CampaignType_eqb ty ty'
               | None => false
               end in
  match e with
  | Input u =>
      match u with
      | campaignType _ => (step =? 1)%nat
      | title _ => (step =? 1)%nat && typed
      | category v =>
          (step =? 1)%nat && typed && existsb (String.eqb v) ("" :: CATEGORIES)
      | targetAmount v | durationDays v =>
          (step =? 1)%nat && typed && number_input_value v
      | beneficiaryName _ | phoneNumber _ | residentialAddress _ =>
          (step =? 1)%nat && of_type individual
      | organizationName _ | contactPersonName _ | contactPhoneNumber _
      | officialAddress _ =>
          (step =? 1)%nat && of_type charity
      | description _ | imageUrl _ => (step =? 2)%nat
      | impactPlan _ => (step =? 3)%nat
      | documents _ | documentTypes _ => false
      end
  | FileChange _ => (step =? 4)%nat
  | RemoveDocument index =>
      (step =? 4)%nat && (index <? List.length (FormData.documents formData))%nat
  | UpdateDocumentType index type =>
      (step =? 4)%nat && (index <? List.length (FormData.documents formData))%nat
      && existsb (DocumentType_eqb type) (documentTypeOptions formData)
  | NextStep => (step <? 5)%nat
  | PrevStep => negb (step =? 1)%nat
  | Submit => negb (step <? 5)%nat && negb (Page.isSubmitting p)
  end.

Definition handle (e : Event) (p : Page.t) : M Page.t :=
  if enabled e p then
    match e with
    | Input u => ret (updateField u p)
    | FileChange files => ret (handleFileChange files p)
    | RemoveDocument index => ret (removeDocument index p)
    | UpdateDocumentType index type => ret (updateDocumentType index type p)
    | NextStep => ret (nextStep p)
    | PrevStep => ret (prevStep p)
    | Submit => handleSubmit p
    end
  else ret p.

Fixpoint run (events : list Event) (p : Page.t) : M Page.t :=
  match events with
  | [] => ret p
  | e :: events' => p' <- handle e p ;; run events' p'
  end.

End Create.

(* ================================================================== *)
(** * frontend/app/campaigns/page.tsx *)
(* ================================================================== *)

Module Campaigns.
Import JS Api.

Inductive SortOption : Type := newest | ending | funded | priority.

(** The frontend [Campaign].  Its declaration is in [@/data/mockData]; the
    fields are those of the object that [apiToFrontendCampaign] builds.
    [updates], [impactBreakdown] and [recentDonors], which it always sets to
    the empty array, are left out. *)
Module Campaign.
Record t : Type := {
  id : string;
  title : string;
  description : string;
  fullDescription : string;
  category : string;
  image : string;
  goal : number;
  raised : number;
  daysLeft : number;
  contributors : number;
  creatorName : string;
  creatorAvatar : string;
  isVerified : bool;
  isHighPriority : bool;
  createdAt : string
}.
End Campaign.

(** The [stats] of the page: the sum of the raised amounts ([reduce] from
    0), the number of high-priority campaigns and the number of
    campaigns. *)
Module Stats.
Record t : Type := {
  total : number;
  urgent : nat;
  count : nat
}.
End Stats.

Definition stats (campaigns : list Campaign.t) : Stats.t :=
  {| Stats.total := fold_left (fun sum c => add sum (Campaign.raised c)) campaigns (num 0);
     Stats.urgent := List.length (filter (fun c => Campaign.isHighPriority c) campaigns);
     Stats.count := List.length campaigns |}.

Section Host.

(** [Date.parse], as the host implements it. *)
Variable Date_parse : string -> number.

(** [new Date(s).getTime()] for a string. *)
Definition getTime_of_string (s : string) : number := TimeClip (Date_parse s).

(** [apiToFrontendCampaign], with the reading [now] of [Date.now()]. *)
Definition apiToFrontendCampaign (now : Z) (apiCampaign : MockCampaign.t) : Campaign.t :=
  let endDate : number :=
    match MockCampaign.end_date apiCampaign with
    | Some (String _ _ as end_date) => getTime_of_string end_date
    | _ =>
        TimeClip (add (getTime_of_string (MockCampaign.created_at apiCampaign))
                      (mul (MockCampaign.duration_days apiCampaign) (num 86400000)))
    end in
  let daysLeft :=
    Math.max (num 0)
      (Math.ceil (div (sub endDate (num now)) (num (1000 * 60 * 60 * 24)))) in
  {| Campaign.id := MockCampaign.id apiCampaign;
     Campaign.title := MockCampaign.title apiCampaign;
     Campaign.description := MockCampaign.description apiCampaign;
     Campaign.fullDescription := MockCampaign.description apiCampaign;
     Campaign.category :=
       or_else (replace (toLowerCase (MockCampaign.category apiCampaign)) " " "_")
               "community";
     Campaign.image := opt_or_else (MockCampaign.image_url apiCampaign) "/campaigns/default.jpg";
     Campaign.goal := MockCampaign.target_amount apiCampaign;
     Campaign.raised := MockCampaign.raised_amount apiCampaign;
     Campaign.daysLeft := daysLeft;
     Campaign.contributors :=
       Math.floor (div (MockCampaign.raised_amount apiCampaign) (num 50));
     Campaign.creatorName :=
       opt_or_else (MockCampaign.organization_name apiCampaign) "Campaign Creator";
     Campaign.creatorAvatar := "/avatars/default.jpg";
     Campaign.isVerified :=
       match MockCampaign.status apiCampaign with active => true | completed => false end;
     Campaign.isHighPriority :=
       match MockCampaign.priority apiCampaign with urgent => true | normal => false end;
     Campaign.createdAt := MockCampaign.created_at apiCampaign |}.

(** The comparators of the four orderings. *)
Definition compare_newest (a b : Campaign.t) : number :=
  sub (getTime_of_string (Campaign.createdAt b)) (getTime_of_string (Campaign.createdAt a)).

Definition compare_ending (a b : Campaign.t) : number :=
  sub (Campaign.daysLeft a) (Campaign.daysLeft b).

Definition compare_funded (a b : Campaign.t) : number :=
  sub (Campaign.raised b) (Campaign.raised a).

Definition compare_priority (a b : Campaign.t) : number :=
  if negb (Bool.eqb (Campaign.isHighPriority a) (Campaign.isHighPriority b))
  then (if Campaign.isHighPriority a then num (-1) else num 1)
  else sub (Campaign.daysLeft a) (Campaign.daysLeft b).

(** The ordering step of [filteredCampaigns]. *)
Definition sorting (sortBy : SortOption) (result : list Campaign.t) : list Campaign.t :=
  match sortBy with
  | newest => sort compare_newest result
  | ending => sort compare_ending result
  | funded => sort compare_funded result
  | priority => sort compare_priority result
  end.

(** The memoised [filteredCampaigns], as a function of its dependencies. *)
Definition filteredCampaigns (campaigns : list Campaign.t) (searchQuery : string)
    (categoryFilter : string) (sortBy : SortOption) (priorityOnly : bool)
  : list Campaign.t :=
  let result := campaigns in
  let result :=
    if truthy searchQuery then
      let query := toLowerCase searchQuery in
      filter (fun c => includes (toLowerCase (Campaign.title c)) query
                       || includes (toLowerCase (Campaign.description c)) query) result
    else result in
  let result :=
    if negb (String.eqb categoryFilter "all")
    then filter (fun c => String.eqb (Campaign.category c) categoryFilter) result
    else result in
  let result :=
    if priorityOnly then filter (fun c => Campaign.isHighPriority c) result else result in
  sorting sortBy result.

(** The campaigns that the page loads: [api.getCampaigns({ limit: 100 })]
    mapped through [apiToFrontendCampaign]. *)
Definition fetchCampaigns (now : Z) : M (list Campaign.t) :=
  bind (getCampaigns (Some {| Params.campaign_type := None; Params.category := None;
                              Params.limit := Some (num 100) |}))
       (fun response => ret (map (apiToFrontendCampaign now) response)).

End Host.

End Campaigns.

(* ================================================================== *)
(** * frontend/app/campaigns/page.tsx (second part): the page of a campaign *)
(* ================================================================== *)

Module CampaignDetail.
Import JS Api.

(** What reading a property of the object literal [categoryMap] gives: the
    value of one of its own properties, or what the name inherits from
    [Object.prototype]. *)
Inductive property_value : Type :=
| Own (category : string)
| Inherited (name : string).

Definition categoryMap : list (string * string) :=
  [ ("medical", "medical"); ("education", "education");
    ("disaster relief", "disaster"); ("community", "community");
    ("environment", "environment"); ("emergency", "emergency") ].

(** The property names of [Object.prototype]; each of them holds a function
    or an object, which is truthy. *)
Definition Object_prototype_names : list string :=
  [ "constructor"; "__defineGetter__"; "__defineSetter__"; "hasOwnProperty";
    "__lookupGetter__"; "__lookupSetter__"; "isPrototypeOf";
    "propertyIsEnumerable"; "toString"; "valueOf"; "__proto__"; "toLocaleString" ].

Fixpoint lookup (key : string) (l : list (string * string)) : option string :=
  match l with
  | [] => None
  | (k, v) :: l' => if String.eqb key k then Some v else lookup key l'
  end.

(** [categoryMap[key]]; [None] is [undefined]. *)
Definition categoryMap_get (key : string) : option property_value :=
  match lookup key categoryMap with
  | Some v => Some (Own v)
  | None =>
      if existsb (String.eqb key) Object_prototype_names then Some (Inherited key)
      else None
  end.

(** [s.split('\n')[0]]: what comes before the first line feed. *)
Fixpoint first_line (s : string) : string :=
  match s with
  | EmptyString => EmptyString
  | String c s' => if (code c =? 10)%nat then EmptyString else String c (first_line s')
  end.

Module ImpactItem.
Record t : Type := {
  label : string;
  percentage : number;
  amount : number
}.
End ImpactItem.

(** The frontend [Campaign] as this page builds it ([updates] and
    [recentDonors], always empty, are left out). *)
Module Campaign.
Record t : Type := {
  id : string;
  title : string;
  description : string;
  fullDescription : string;
  category : property_value;
  image : string;
  goal : number;
  raised : number;
  daysLeft : number;
  contributors : number;
  creatorName : string;
  creatorAvatar : string;
  isVerified : bool;
  isHighPriority : bool;
  createdAt : string;
  impactBreakdown : list ImpactItem.t
}.
End Campaign.

(** The state of the page that [fetchCampaign] writes. *)
Module Page.
Record t : Type := {
  campaign : option Campaign.t;
  apiCampaign : option MockCampaign.t;
  isLoading : bool;
  error : option string
}.
End Page.

Definition initialPage : Page.t :=
  {| Page.campaign := None; Page.apiCampaign := None;
     Page.isLoading := true; Page.error := None |}.

Section Host.

(** [Date.parse], as the host implements it. *)
Variable Date_parse : string -> number.

(** [getCampaignById] of [@/data/mockData]: the sample campaign with
    the identifier, if there is one. *)
Variable getCampaignById : string -> option Campaign.t.

(** [apiToFrontendCampaign] of this page, with the reading [now] of
    [Date.now()]. *)
Definition apiToFrontendCampaign (now : Z) (apiCampaign : MockCampaign.t) : Campaign.t :=
  let endDate : number :=
    match MockCampaign.end_date apiCampaign with
    | Some (String _ _ as end_date) => Campaigns.getTime_of_string Date_parse end_date
    | _ =>
        TimeClip (add (Campaigns.getTime_of_string Date_parse
                         (MockCampaign.created_at apiCampaign))
                      (mul (MockCampaign.duration_days apiCampaign) (num 86400000)))
    end in
  let daysLeft :=
    Math.max (num 0)
      (Math.ceil (div (sub endDate (num now)) (num (1000 * 60 * 60 * 24)))) in
  let category :=
    match categoryMap_get (toLowerCase (MockCampaign.category apiCampaign)) with
    | Some v => v
    | None => Own "community"
    end in
  {| Campaign.id := MockCampaign.id apiCampaign;
     Campaign.title := MockCampaign.title apiCampaign;
     Campaign.description := first_line (MockCampaign.description apiCampaign);
     Campaign.fullDescription := MockCampaign.description apiCampaign;
     Campaign.category := category;
     Campaign.image := opt_or_else (MockCampaign.image_url apiCampaign) "/campaigns/default.jpg";
     Campaign.goal := MockCampaign.target_amount apiCampaign;
     Campaign.raised := MockCampaign.raised_amount apiCampaign;
     Campaign.daysLeft := daysLeft;
     Campaign.contributors :=
       Math.floor (div (MockCampaign.raised_amount apiCampaign) (num 50));
     Campaign.creatorName :=
       opt_or_else (MockCampaign.organization_name apiCampaign) "Campaign Creator";
     Campaign.creatorAvatar := "/avatars/default.jpg";
     Campaign.isVerified :=
       match MockCampaign.status apiCampaign with active => true | completed => false end;
     Campaign.isHighPriority :=
       match MockCampaign.priority apiCampaign with urgent => true | normal => false end;
     Campaign.createdAt := MockCampaign.created_at apiCampaign;
     Campaign.impactBreakdown :=
       [ {| ImpactItem.label := "Campaign Goal";
            ImpactItem.percentage := num 100;
            ImpactItem.amount := MockCampaign.target_amount apiCampaign |} ] |}.

(** [fetchCampaign] of the effect, for the route parameter [id]. *)
Definition fetchCampaign (now : Z) (id : string) (p : Page.t) : M Page.t :=
  let p := {| Page.campaign := Page.campaign p; Page.apiCampaign := Page.apiCampaign p;
              Page.isLoading := true; Page.error := None |} in
  bind
    (try_catch
       (bind (getCampaign id) (fun response =>
          match response with
          | None => throw (Error "Campaign not found")
          | Some response =>
              ret {| Page.campaign := Some (apiToFrontendCampaign now response);
                     Page.apiCampaign := Some response;
                     Page.isLoading := Page.isLoading p;
                     Page.error := Page.error p |}
          end))
       (fun _ =>
          match getCampaignById id with
          | Some mockCampaign =>
              ret {| Page.campaign := Some mockCampaign;
                     Page.apiCampaign := Page.apiCampaign p;
                     Page.isLoading := Page.isLoading p;
                     Page.error := Page.error p |}
          | None =>
              ret {| Page.campaign := Page.campaign p;
                     Page.apiCampaign := Page.apiCampaign p;
                     Page.isLoading := Page.isLoading p;
                     Page.error := Some "Campaign not found" |}
          end))
    (fun p' =>
       ret {| Page.campaign := Page.campaign p'; Page.apiCampaign := Page.apiCampaign p';
              Page.isLoading := false; Page.error := Page.error p' |}).

End Host.

End CampaignDetail.

(* ================================================================== *)
(** * The contract HeartChain (Solidity, after blockchain/hardhat.config.js) *)
(* ================================================================== *)

Module Contract.

(** A [uint256] is an integer from 0 to [MAX]; arithmetic is checked
    (Solidity 0.8): a result out of this range reverts with a panic. *)
Definition MAX : Z := 2 ^ 256 - 1.

(** An [address], as a number; 0 is [address(0)]. *)
Definition address : Type := Z.

Module Campaign.
Record t : Type := {
  creator : address;
  goal : Z;
  raised : Z;
  completed : bool;
  metadataCID : string
}.
End Campaign.

(** The value of a mapping slot that was never written. *)
Definition empty : Campaign.t :=
  {| Campaign.creator := 0; Campaign.goal := 0; Campaign.raised := 0;
     Campaign.completed := false; Campaign.metadataCID := "" |}.

Inductive Event : Type :=
| CampaignCreated (id : Z) (creator : address) (goal : Z) (metadataCID : string)
| DonationReceived (id : Z) (donor : address) (amount : Z)
| CampaignCompleted (id : Z).

(** The contract: its storage, its balance and the events it has emitted
    (oldest first).  The balance is the ether that calls of its functions
    have paid in: the contract has no [receive] and no [fallback], and
    sends no ether. *)
Module State.
Record t : Type := {
  campaigns : Z -> Campaign.t;
  campaignCount : Z;
  balance : Z;
  events : list Event
}.
End State.

(** The contract as deployed. *)
Definition deployed : State.t :=
  {| State.campaigns := fun _ => empty;
     State.campaignCount := 0;
     State.balance := 0;
     State.events := [] |}.

(** [msg]. *)
Module Msg.
Record t : Type := {
  sender : address;
  value : Z
}.
End Msg.

(** Why a call reverts: a failed [require] with its text, a panic with its
    code (0x11 is an arithmetic overflow), or ether sent to a function that
    is not payable. *)
Inductive Reason : Type :=
| Error (text : string)
| Panic (code : Z)
| NotPayable.

(** A call either succeeds, leaving a new state, or reverts, leaving the
    state as it was. *)
Inductive Outcome : Type :=
| Success (s : State.t)
| Revert (r : Reason).

Definition set (id : Z) (c : Campaign.t) (campaigns : Z -> Campaign.t) : Z -> Campaign.t :=
  fun id' => if id' =? id then c else campaigns id'.

Definition createCampaign (_goal : Z) (_metadataCID : string) (msg : Msg.t) (s : State.t)
  : Outcome :=
  if negb (Msg.value msg =? 0) then Revert NotPayable
  else if negb (0 <? _goal) then Revert (Error "Goal must be greater than 0")
  else if MAX <? State.campaignCount s + 1 then Revert (Panic 17)
  else
    let campaignCount := State.campaignCount s + 1 in
    Success
      {| State.campaigns :=
           set campaignCount
             {| Campaign.creator := Msg.sender msg;
                Campaign.goal := _goal;
                Campaign.raised := 0;
                Campaign.completed := false;
                Campaign.metadataCID := _metadataCID |}
             (State.campaigns s);
         State.campaignCount := campaignCount;
         State.balance := State.balance s;
         State.events :=
           State.events s
           ++ [CampaignCreated campaignCount (Msg.sender msg) _goal _metadataCID] |}.

Definition donate (_id : Z) (msg : Msg.t) (s : State.t) : Outcome :=
  if negb ((0 <? _id) && (_id <=? State.campaignCount s))
  then Revert (Error "Invalid campaign ID")
  else
    let campaign := State.campaigns s _id in
    if Campaign.completed campaign then Revert (Error "Campaign is closed")
    else if MAX <? Campaign.raised campaign + Msg.value msg then Revert (Panic 17)
    else
      Success
        {| State.campaigns :=
             set _id
               {| Campaign.creator := Campaign.creator campaign;
                  Campaign.goal := Campaign.goal campaign;
                  Campaign.raised := Campaign.raised campaign + Msg.value msg;
                  Campaign.completed := Campaign.completed campaign;
                  Campaign.metadataCID := Campaign.metadataCID campaign |}
               (State.campaigns s);
           State.campaignCount := State.campaignCount s;
           State.balance := State.balance s + Msg.value msg;
           State.events :=
             State.events s ++ [DonationReceived _id (Msg.sender msg) (Msg.value msg)] |}.

Definition completeCampaign (_id : Z) (msg : Msg.t) (s : State.t) : Outcome :=
  if negb (Msg.value msg =? 0) then Revert NotPayable
  else
    let campaign := State.campaigns s _id in
    if negb (Msg.sender msg =? Campaign.creator campaign)
    then Revert (Error "Only creator can complete")
    else
      Success
        {| State.campaigns :=
             set _id
               {| Campaign.creator := Campaign.creator campaign;
                  Campaign.goal := Campaign.goal campaign;
                  Campaign.raised := Campaign.raised campaign;
                  Campaign.completed := true;
                  Campaign.metadataCID := Campaign.metadataCID campaign |}
               (State.campaigns s);
           State.campaignCount := State.campaignCount s;
           State.balance := State.balance s;
           State.events := State.events s ++ [CampaignCompleted _id] |}.

(** A transaction: who sends it, with how much ether, to which function. *)
Inductive Call : Type :=
| call_createCampaign (_goal : Z) (_metadataCID : string)
| call_donate (_id : Z)
| call_completeCampaign (_id : Z).

Definition call (msg : Msg.t) (c : Call) (s : State.t) : Outcome :=
  match c with
  | call_createCampaign _goal _metadataCID => createCampaign _goal _metadataCID msg s
  | call_donate _id => donate _id msg s
  | call_completeCampaign _id => completeCampaign _id msg s
  end.

(** The state after a transaction: a reverted one changes nothing. *)
Definition after (msg : Msg.t) (c : Call) (s : State.t) : State.t :=
  match call msg c s with
  | Success s' => s'
  | Revert _ => s
  end.

(** The state after the transactions of a list, in order. *)
Definition after_all (txs : list (Msg.t * Call)) (s : State.t) : State.t :=
  fold_left (fun s tx => after (fst tx) (snd tx) s) txs s.

End Contract.

(* ================================================================== *)
(** * blockchain/scripts/deploy.js *)
(* ================================================================== *)

Module Deploy.
Import JS.

(** A line terminator, which [.] of a regular expression does not match. *)
Definition is_line_terminator (c : ascii) : bool :=
  (code c =? 10)%nat || (code c =? 13)%nat.

(** The longest run of characters that [.*] matches at the front of [s],
    and what follows. *)
Fixpoint rest_of_line (s : string) : string * string :=
  match s with
  | EmptyString => (EmptyString, EmptyString)
  | String c s' =>
      if is_line_terminator c then (EmptyString, s)
      else let (line, after) := rest_of_line s' in (String c line, after)
  end.

(** The first match of [/CONTRACT_ADDRESS=.*/] in [s]: what precedes it,
    the match, and what follows. *)
Fixpoint first_match (s : string) : option (string * string * string) :=
  if String.prefix "CONTRACT_ADDRESS=" s then
    let (line, after) := rest_of_line (String.substring 17 (String.length s) s) in
    Some (EmptyString, "CONTRACT_ADDRESS=" ++ line, after)
  else
    match s with
    | EmptyString => None
    | String c s' =>
        match first_match s' with
        | Some (before, matched, after) => Some (String c before, matched, after)
        | None => None
        end
    end.

(** GetSubstitution for a pattern without capture groups: in the
    replacement text [$$] is a dollar, [$&] the match, [$`] what precedes
    it and [$'] what follows it; any other dollar stands for itself. *)
Fixpoint substitution (replacement matched before after : string) : string :=
  match replacement with
  | EmptyString => EmptyString
  | String d tail =>
      if Ascii.eqb d "$" then
        match tail with
        | String c tail' =>
            if Ascii.eqb c "$" then String "$" (substitution tail' matched before after)
            else if Ascii.eqb c "&" then matched ++ substitution tail' matched before after
            else if Ascii.eqb c "`" then before ++ substitution tail' matched before after
            else if Ascii.eqb c "'" then after ++ substitution tail' matched before after
            else String "$" (substitution tail matched before after)
        | EmptyString => String "$" EmptyString
        end
      else String d (substitution tail matched before after)
  end.

(** [envContent.replace(/CONTRACT_ADDRESS=.*/, replacement)]. *)
Definition replace_address (envContent replacement : string) : string :=
  match first_match envContent with
  | Some (before, matched, after) =>
      before ++ substitution replacement matched before after ++ after
  | None => envContent
  end.

Definition LF : string := String (ascii_of_nat 10) EmptyString.

(** The new content that [updateEnvFile] computes. *)
Definition newContent (envContent address : string) : string :=
  if includes envContent "CONTRACT_ADDRESS="
  then replace_address envContent ("CONTRACT_ADDRESS=" ++ address)
  else envContent ++ LF ++ "CONTRACT_ADDRESS=" ++ address.

(** [updateEnvFile(address)] on the file [../../.env], [None] when there is
    no such file: [readFileSync] then throws and nothing is written. *)
Definition updateEnvFile (address : string) (env : option string) : option string :=
  match env with
  | Some envContent => Some (newContent envContent address)
  | None => None
  end.

End Deploy.

(* ================================================================== *)
(** * The specification's notions *)
(* ================================================================== *)

Module Spec.
Import JS Api Create.

(** ** Validation (specification, section 4.1) *)

(** A rule: whether it holds, and the message shown when it does not. *)
Definition rule : Type := (bool * string)%type.

(** The message of the first rule that does not hold, if any. *)
Fixpoint first_violation (rules : list rule) : option string :=
  match rules with
  | [] => None
  | (holds, m) :: rules' => if holds then first_violation rules' else Some m
  end.

(** What a validation step does given its rules: show the message of the
    first violated one and refuse, or accept and leave the page as it is. *)
Definition outcome (rules : list rule) (p : Page.t) : bool * Page.t :=
  match first_violation rules with
  | Some m => (false, setError (Some m) p)
  | None => (true, p)
  end.

Definition non_empty (s : string) : bool := negb (String.eqb s "").

Definition length_at_least (n : nat) (s : string) : bool := (n <=? String.length s)%nat.

Definition length_between (lo hi : nat) (s : string) : bool :=
  ((lo <=? String.length s) && (String.length s <=? hi))%nat.

(** The text parses to a number, and that number is positive. *)
Definition parseable_positive (s : string) : bool :=
  match parseFloat s with
  | NaN => false
  | v => lt (num 0) v
  end.

(** Some character of the text is not white space. *)
Fixpoint has_text (s : string) : bool :=
  match s with
  | EmptyString => false
  | String c s' => negb (is_white_space c) || has_text s'
  end.

(** The rules of the step "basic info" in the words of the specification. *)
Definition basic_info_rules_as_stated (f : FormData.t) : list rule :=
  [ (match FormData.campaignType f with Some _ => true | None => false end,
     "Please select a campaign type");
    (length_at_least 3 (FormData.title f), "Title must be at least 3 characters");
    (non_empty (FormData.category f), "Please select a category");
    (parseable_positive (FormData.targetAmount f), "Please enter a valid target amount") ]
  ++ match FormData.campaignType f with
     | Some individual =>
         [ (non_empty (FormData.beneficiaryName f), "Beneficiary name is required");
           (length_between 10 20 (FormData.phoneNumber f),
            "Phone number must be between 10 and 20 characters");
           (length_at_least 5 (FormData.residentialAddress f),
            "Residential address must be at least 5 characters") ]
     | Some charity =>
         [ (non_empty (FormData.organizationName f), "Organization name is required");
           (non_empty (FormData.contactPersonName f), "Contact person name is required");
           (length_between 10 20 (FormData.contactPhoneNumber f),
            "Phone number must be between 10 and 20 characters");
           (length_at_least 5 (FormData.officialAddress f),
            "Official address must be at least 5 characters") ]
     | None => []
     end.

(** The same rules with what the code asks of a text field on top of its
    length: that it is not blank. *)
Definition basic_info_rules (f : FormData.t) : list rule :=
  [ (match FormData.campaignType f with Some _ => true | None => false end,
     "Please select a campaign type");
    (has_text (FormData.title f) && length_at_least 3 (FormData.title f),
     "Title must be at least 3 characters");
    (non_empty (FormData.category f), "Please select a category");
    (parseable_positive (FormData.targetAmount f), "Please enter a valid target amount") ]
  ++ match FormData.campaignType f with
     | Some individual =>
         [ (has_text (FormData.beneficiaryName f), "Beneficiary name is required");
           (has_text (FormData.phoneNumber f)
            && length_between 10 20 (FormData.phoneNumber f),
            "Phone number must be between 10 and 20 characters");
           (has_text (FormData.residentialAddress f)
            && length_at_least 5 (FormData.residentialAddress f),
            "Residential address must be at least 5 characters") ]
     | Some charity =>
         [ (has_text (FormData.organizationName f), "Organization name is required");
           (has_text (FormData.contactPersonName f), "Contact person name is required");
           (has_text (FormData.contactPhoneNumber f)
            && length_between 10 20 (FormData.contactPhoneNumber f),
            "Phone number must be between 10 and 20 characters");
           (has_text (FormData.officialAddress f)
            && length_at_least 5 (FormData.officialAddress f),
            "Official address must be at least 5 characters") ]
     | None => []
     end.

(** ** The local index (specification, sections 3 and 4.2) *)

(** A record as [JSON.parse] gives it: writing it out and reading it back
    changes nothing.  Every record of a stored index is one. *)
Definition JSON_value (c : MockCampaign.t) : Prop := JSON_roundtrip c = c.

Definition well_formed (w : World.t) : Prop := Forall JSON_value (read_index w).

(** Appending the campaigns of [cs] one after the other. *)
Fixpoint save_all (cs : list MockCampaign.t) : M unit :=
  match cs with
  | [] => ret tt
  | c :: cs' => bind (saveToLocalIndex c) (fun _ => save_all cs')
  end.

(** The two groups of identity fields. *)
Definition individual_group : list string :=
  ["beneficiary_name"; "phone_number"; "residential_address"].

Definition charity_group : list string :=
  ["organization_name"; "contact_person_name"; "contact_phone_number";
   "official_address"].

Definition has_key (keys : list string) (k : string) : bool :=
  existsb (String.eqb k) keys.

(** Some field of the group is among the properties [keys] of a record. *)
Definition populated (group keys : list string) : bool :=
  existsb (has_key keys) group.

(** All fields of the group are. *)
Definition fully_populated (group keys : list string) : bool :=
  forallb (has_key keys) group.

Definition exactly_one_group (keys : list string) : bool :=
  xorb (populated individual_group keys) (populated charity_group keys).

(** The failure message that [request] builds from a response that is not
    ok, in the words of the specification: the detail text of the error
    object, or a generic message. *)
Definition generic_message (status : Z) (body : Body json) : string :=
  match body with
  | Unparsable _ => "An error occurred"
  | Parsed _ => "HTTP " ++ int_to_string status
  end.

(** The detail of an error object, when it has one to show. *)
Definition error_detail (body : Body json) : option json :=
  match body with
  | Parsed (JObject properties) =>
      match assoc "detail" properties with
      | Some v => if json_truthy v then Some v else None
      | None => None
      end
  | _ => None
  end.

(** What a creation throws when the response is not ok: the error carries
    the detail of the error object or else a generic message; reading the
    detail of a body that is [null] is itself a TypeError. *)
Definition failure (status : Z) (body : Body json) : exn :=
  match body with
  | Parsed JNull => TypeError null_detail_message
  | _ => Error (match error_detail body with
                | Some v => ToString v
                | None => generic_message status body
                end)
  end.

(** What the specification says of the record that a creation stores. *)
Definition newly_stored (c : MockCampaign.t) (w : World.t) (res : CreateResponse.t)
    (type : CampaignType) : Prop :=
  MockCampaign.raised_amount c = num 0
  /\ MockCampaign.status c = active
  /\ MockCampaign.created_at c = World.now w
  /\ MockCampaign.id c = CreateResponse.cid res
  /\ MockCampaign.campaign_type c = type.

(** ** Submission (specification, section 5) *)

(** The document that an upload yields when it succeeds; any other
    settlement of the request is a failure of the upload. *)
Definition uploaded (r : FetchResult CampaignDocument.t) : option CampaignDocument.t :=
  match r with
  | Responded (Ok (Parsed d)) => Some d
  | _ => None
  end.

(** The upload requests for the documents [files], which start at index
    [i] of the form's list, each with its type from [documentTypes]. *)
Fixpoint upload_requests (documentTypes : list DocumentType) (i : nat)
    (files : list File.t) : list Request :=
  match files with
  | [] => []
  | file :: files' =>
      POST_documents_upload file (nth i documentTypes other)
      :: upload_requests documentTypes (S i) files'
  end.

(** The world once the requests [rs] have been sent, one after the other. *)
Definition after_sending (rs : list Request) (w : World.t) : World.t :=
  fold_left (fun w r => World.send r w) rs w.

Definition is_upload (r : Request) : Prop :=
  match r with
  | POST_documents_upload _ _ => True
  | _ => False
  end.

(** A creation request asks for the priority "normal". *)
Definition asks_normal_priority (r : Request) : Prop :=
  match r with
  | POST_campaigns_individual data =>
      IndividualCampaignCreateRequest.priority data = Some normal
  | POST_campaigns_charity data =>
      CharityCampaignCreateRequest.priority data = Some normal
  | POST_documents_upload _ _ => True
  end.

(** The index after a step is the one before, or the one before with one
    record of priority "normal" in front. *)
Definition index_grows_normal (w w' : World.t) : Prop :=
  World.localStorage w' = World.localStorage w
  \/ exists c, read_index w' = c :: map JSON_roundtrip (read_index w)
               /\ MockCampaign.priority c = normal.

(** ** The list engine (specification, section 4.3) *)

(** The value is a finite number ([null] counting as 0). *)
Definition finite (v : number) : Prop := exists q, ToNumber v = Num q.

Section Orders.
Import Campaigns.
Variable Date_parse : string -> number.

Definition created (c : Campaign.t) : number :=
  getTime_of_string Date_parse (Campaign.createdAt c).

(** [a] may come before [b] when sorting by [created_at] descending. *)
Definition newest_first (a b : Campaign.t) : Prop := le (created b) (created a) = true.

(** ... by [raised_amount] descending. *)
Definition most_funded_first (a b : Campaign.t) : Prop :=
  le (Campaign.raised b) (Campaign.raised a) = true.

(** ... by days remaining ascending. *)
Definition ending_first (a b : Campaign.t) : Prop :=
  le (Campaign.daysLeft a) (Campaign.daysLeft b) = true.

(** ... with high-priority entries first, then by days remaining ascending
    within each tier. *)
Definition priority_first (a b : Campaign.t) : Prop :=
  (Campaign.isHighPriority a = true /\ Campaign.isHighPriority b = false)
  \/ (Campaign.isHighPriority a = Campaign.isHighPriority b /\ ending_first a b).
End Orders.

(** One day, in milliseconds. *)
Definition one_day : Z := 86400000.

(** The days remaining from [now] to [end_time] (both in milliseconds since
    the epoch): the ceiling of the difference divided by one day, floored
    at 0. *)
Definition days_remaining (end_time now : Z) : Z :=
  Z.max 0 (Qceiling (inject_Z (end_time - now) / inject_Z one_day)).

(** The target amount of the form is what an [<input type="number">]
    gives. *)
Definition number_inputs (p : Page.t) : Prop :=
  number_input_value (FormData.targetAmount (Page.formData p)) = true.

(** ** Listing *)

(** The campaign passes the filters of [getCampaigns]: the type, when one
    is asked for, and the category, when one that is not empty is. *)
Definition matches (params : option Params.t) (c : MockCampaign.t) : bool :=
  match params with
  | Some q =>
      match Params.campaign_type q with
      | Some ty => CampaignType_eqb (MockCampaign.campaign_type c) ty
      | None => true
      end
      && match Params.category q with
         | Some cat => if truthy cat then String.eqb (MockCampaign.category c) cat else true
         | None => true
         end
  | None => true
  end.

(** A record as a creation stores it: nothing raised, active, of normal
    priority. *)
Definition newly_created (c : MockCampaign.t) : Prop :=
  MockCampaign.raised_amount c = num 0
  /\ MockCampaign.status c = active
  /\ MockCampaign.priority c = normal.

(** ** What the list shows *)

(** The campaign passes the search, the category filter and the
    high-priority-only filter of the list. *)
Definition shown (searchQuery categoryFilter : string) (priorityOnly : bool)
    (c : Campaigns.Campaign.t) : bool :=
  (if truthy searchQuery
   then includes (toLowerCase (Campaigns.Campaign.title c)) (toLowerCase searchQuery)
        || includes (toLowerCase (Campaigns.Campaign.description c))
             (toLowerCase searchQuery)
   else true)
  && (if String.eqb categoryFilter "all" then true
      else String.eqb (Campaigns.Campaign.category c) categoryFilter)
  && (if priorityOnly then Campaigns.Campaign.isHighPriority c else true).

(** A campaign of the list that nobody has given to: nothing raised, no
    contributor, shown as verified and not as urgent. *)
Definition untouched (c : Campaigns.Campaign.t) : Prop :=
  Campaigns.Campaign.raised c = num 0
  /\ Campaigns.Campaign.contributors c = num 0
  /\ Campaigns.Campaign.isVerified c = true
  /\ Campaigns.Campaign.isHighPriority c = false.

(** ** The wizard *)

(** The rule of the step "story". *)
Definition story_rules (f : FormData.t) : list rule :=
  [ (has_text (FormData.description f) && length_at_least 10 (FormData.description f),
     "Description must be at least 10 characters") ].

(** The page is at one of its five steps, every document has its type,
    the target amount is what its input gives, and the steps before the
    current one were passed: their rules hold of the form. *)
Definition guarded (p : Page.t) : Prop :=
  let f := Page.formData p in
  (1 <= Page.currentStep p <= 5)%nat
  /\ List.length (FormData.documents f) = List.length (FormData.documentTypes f)
  /\ number_input_value (FormData.targetAmount f) = true
  /\ ((2 <= Page.currentStep p)%nat -> first_violation (basic_info_rules f) = None)
  /\ ((3 <= Page.currentStep p)%nat -> first_violation (story_rules f) = None).

(** The description that [handleSubmit] sends. *)
Definition full_description (f : FormData.t) : string :=
  if truthy (FormData.impactPlan f)
  then FormData.description f ++ LF ++ LF ++ "---" ++ LF ++ LF
       ++ "**How Funds Will Be Used:**" ++ LF ++ FormData.impactPlan f
  else FormData.description f.

(** The creation request that [handleSubmit] sends for the form [f] once
    the documents are uploaded. *)
Definition creation_request (f : FormData.t) (uploadedDocs : list CampaignDocument.t)
  : Request :=
  match FormData.campaignType f with
  | Some individual =>
      POST_campaigns_individual (individual_payload f (full_description f) uploadedDocs)
  | _ => POST_campaigns_charity (charity_payload f (full_description f) uploadedDocs)
  end.

(** What the steps "basic info" and "story" ask, read on a request: a
    creation request has a title, a category, a target amount above 0, a
    description of 10 characters at least, and the identity fields of its
    variant. *)
Definition validated (r : Request) : bool :=
  match r with
  | POST_campaigns_individual d =>
      has_text (IndividualCampaignCreateRequest.title d)
      && length_at_least 3 (IndividualCampaignCreateRequest.title d)
      && non_empty (IndividualCampaignCreateRequest.category d)
      && lt (num 0) (IndividualCampaignCreateRequest.target_amount d)
      && has_text (IndividualCampaignCreateRequest.description d)
      && length_at_least 10 (IndividualCampaignCreateRequest.description d)
      && has_text (IndividualCampaignCreateRequest.beneficiary_name d)
      && has_text (IndividualCampaignCreateRequest.phone_number d)
      && length_between 10 20 (IndividualCampaignCreateRequest.phone_number d)
      && has_text (IndividualCampaignCreateRequest.residential_address d)
      && length_at_least 5 (IndividualCampaignCreateRequest.residential_address d)
  | POST_campaigns_charity d =>
      has_text (CharityCampaignCreateRequest.title d)
      && length_at_least 3 (CharityCampaignCreateRequest.title d)
      && non_empty (CharityCampaignCreateRequest.category d)
      && lt (num 0) (CharityCampaignCreateRequest.target_amount d)
      && has_text (CharityCampaignCreateRequest.description d)
      && length_at_least 10 (CharityCampaignCreateRequest.description d)
      && has_text (CharityCampaignCreateRequest.organization_name d)
      && has_text (CharityCampaignCreateRequest.contact_person_name d)
      && has_text (CharityCampaignCreateRequest.contact_phone_number d)
      && length_between 10 20 (CharityCampaignCreateRequest.contact_phone_number d)
      && has_text (CharityCampaignCreateRequest.official_address d)
      && length_at_least 5 (CharityCampaignCreateRequest.official_address d)
  | POST_documents_upload _ _ => true
  end.

(** The documents of the form, each with its type. *)
Definition typed_documents (p : Page.t) : list (File.t * DocumentType) :=
  combine (FormData.documents (Page.formData p)) (FormData.documentTypes (Page.formData p)).

(** What a creation throws for the answer of the backend to its request,
    when it throws for it: a TypeError when the request was rejected, the
    error of [failure] when the status is not a success, a SyntaxError when
    the body of a success cannot be read. *)
Definition creation_error (answer : FetchResult CreateResponse.t) : option exn :=
  match answer with
  | Rejected m => Some (TypeError m)
  | Responded (NotOk status body) => Some (failure status body)
  | Responded (Ok (Unparsable m)) => Some (SyntaxError m)
  | Responded (Ok (Parsed _)) => None
  end.

(** The answers of the backend to the uploads [rs], the first of which is
    the [n]-th request it gets: the document of each upload that succeeds,
    [None] for one that fails. *)
Fixpoint upload_answers (w : World.t) (n : nat) (rs : list Request)
  : list (option CampaignDocument.t) :=
  match rs with
  | [] => []
  | r :: rs' => uploaded (World.upload_backend w n r) :: upload_answers w (S n) rs'
  end.

(** The route that a successful creation leads to. *)
Definition created_route (res : CreateResponse.t) : string :=
  "/campaigns/" ++ CreateResponse.cid res ++ "?created=true&tx="
  ++ CreateResponse.tx_hash res.

(** ** The contract *)

Section ContractNotions.
Import Contract.

(** The identifier is one of the campaigns created so far. *)
Definition existing (s : State.t) (id : Z) : Prop := 1 <= id <= State.campaignCount s.

(** The raised amounts of the campaigns 1 to [n], added up. *)
Fixpoint raised_up_to (campaigns : Z -> Campaign.t) (n : nat) : Z :=
  match n with
  | O => 0
  | S n' => raised_up_to campaigns n' + Campaign.raised (campaigns (Z.of_nat n))
  end.

Definition total_raised (s : State.t) : Z :=
  raised_up_to (State.campaigns s) (Z.to_nat (State.campaignCount s)).

(** The amounts of the donations that the events record, added up. *)
Fixpoint donated (events : list Event) : Z :=
  match events with
  | [] => 0
  | DonationReceived _ _ amount :: events' => amount + donated events'
  | _ :: events' => donated events'
  end.

(** The identifiers that the events record as created, oldest first. *)
Fixpoint created_ids (events : list Event) : list Z :=
  match events with
  | [] => []
  | CampaignCreated id _ _ _ :: events' => id :: created_ids events'
  | _ :: events' => created_ids events'
  end.

(** A message as the chain delivers it: a payment that is a [uint256], from
    an account, which is never [address(0)]. *)
Definition delivered (msg : Msg.t) : Prop :=
  0 <= Msg.value msg <= MAX /\ Msg.sender msg <> 0.

(** The campaign [id] of [s'] is the one of [s], with possibly more raised
    and possibly completed since. *)
Definition advanced (s s' : State.t) (id : Z) : Prop :=
  let c := State.campaigns s id in
  let c' := State.campaigns s' id in
  Campaign.creator c' = Campaign.creator c
  /\ Campaign.goal c' = Campaign.goal c
  /\ Campaign.metadataCID c' = Campaign.metadataCID c
  /\ Campaign.raised c <= Campaign.raised c'
  /\ (Campaign.completed c = true -> Campaign.completed c' = true).

(** The books balance: the ether held is what the campaigns have raised and
    what the events record as donated; nothing is raised beyond the last
    identifier. *)
Definition accounted (s : State.t) : Prop :=
  0 <= State.campaignCount s
  /\ (forall id, State.campaignCount s < id -> Campaign.raised (State.campaigns s id) = 0)
  /\ State.balance s = total_raised s
  /\ State.balance s = donated (State.events s).

(** The campaigns are numbered from 1 to [campaignCount] in the order of
    their creation, each with a positive goal and a creator; no other slot
    of the mapping was ever written. *)
Definition numbered (s : State.t) : Prop :=
  0 <= State.campaignCount s
  /\ created_ids (State.events s)
     = map Z.of_nat (seq 1 (Z.to_nat (State.campaignCount s)))
  /\ (forall id, existing s id ->
        0 < Campaign.goal (State.campaigns s id)
        /\ Campaign.creator (State.campaigns s id) <> 0)
  /\ (forall id, ~ existing s id -> State.campaigns s id = empty).
End ContractNotions.

(** ** The deployment script *)

(** The text has no dollar sign and no line terminator, as the hexadecimal
    address of a contract has none. *)
Fixpoint plain (s : string) : bool :=
  match s with
  | EmptyString => true
  | String c s' => negb (Ascii.eqb c "$") && negb (Deploy.is_line_terminator c) && plain s'
  end.

End Spec.

(* ================================================================== *)
(** * Sample data *)
(* ================================================================== *)

Module Examples.
Import JS Api Create Campaigns.

Definition receipt : CreateResponse.t :=
  {| CreateResponse.tx_hash := "0xabc";
     CreateResponse.cid := "QmMaria";
     CreateResponse.status := "created" |}.

Definition stored_document (file : File.t) (type : DocumentType) : CampaignDocument.t :=
  {| CampaignDocument.ipfs_hash := "QmDoc";
     CampaignDocument.document_type := type;
     CampaignDocument.filename := File.name file;
     CampaignDocument.mime_type := "application/pdf";
     CampaignDocument.uploaded_at := None |}.

Definition accepting_uploads (n : nat) (r : Request) : FetchResult CampaignDocument.t :=
  match r with
  | POST_documents_upload file type => Responded (Ok (Parsed (stored_document file type)))
  | _ => Rejected "Failed to fetch"
  end.

(** A browser with an empty storage, in front of a backend that accepts
    everything and answers every creation with [receipt]. *)
Definition browser : World.t :=
  {| World.window := true;
     World.localStorage := None;
     World.now := "2026-11-03T00:00:00.000Z";
     World.create_backend := fun _ _ => Responded (Ok (Parsed receipt));
     World.upload_backend := accepting_uploads;
     World.sent := [] |}.

(** The same without a [window]. *)
Definition no_window : World.t :=
  {| World.window := false;
     World.localStorage := None;
     World.now := "2026-11-03T00:00:00.000Z";
     World.create_backend := fun _ _ => Responded (Ok (Parsed receipt));
     World.upload_backend := accepting_uploads;
     World.sent := [] |}.


(** A backend whose second answer to an upload is an error. *)
Definition second_upload_fails : World.t :=
  {| World.window := true;
     World.localStorage := None;
     World.now := "2026-11-03T00:00:00.000Z";
     World.create_backend := fun _ _ => Responded (Ok (Parsed receipt));
     World.upload_backend :=
       fun n r => if (n =? 1)%nat
                  then Responded (NotOk 500 (Unparsable "Unexpected token"))
                  else accepting_uploads n r;
     World.sent := [] |}.

Definition maria : FormData.t :=
  {| FormData.campaignType := Some individual;
     FormData.title := "Help Maria";
     FormData.category := "Medical";
     FormData.targetAmount := "1000";
     FormData.durationDays := "30";
     FormData.description := "Maria needs surgery.";
     FormData.imageUrl := "";
     FormData.impactPlan := "";
     FormData.beneficiaryName := "Maria Lopez";
     FormData.phoneNumber := "5551234567";
     FormData.residentialAddress := "123 Main St";
     FormData.organizationName := "";
     FormData.contactPersonName := "";
     FormData.contactPhoneNumber := "";
     FormData.officialAddress := "";
     FormData.documents := [];
     FormData.documentTypes := [] |}.

Definition helping_hands : FormData.t :=
  assign (officialAddress "1 Charity Row")
    (assign (contactPhoneNumber "5557654321")
       (assign (contactPersonName "Ana Ruiz")
          (assign (organizationName "Helping Hands")
             (assign (campaignType charity) maria)))).

(** The page on the step [step] with the form [f]. *)
Definition page (step : nat) (f : FormData.t) : Page.t :=
  setCurrentStep step (setFormData f initialPage).

Definition maria_request : IndividualCampaignCreateRequest.t :=
  individual_payload maria (FormData.description maria) [].

Definition helping_hands_request : CharityCampaignCreateRequest.t :=
  charity_payload helping_hands (FormData.description helping_hands) [].

(** The form of Maria with a title of three spaces. *)
Definition blank_title : FormData.t := assign (title "   ") maria.

Definition bill : File.t := {| File.name := "bill.pdf"; File.size := 1024 |}.
Definition letter : File.t := {| File.name := "letter.pdf"; File.size := 2048 |}.
Definition passport : File.t := {| File.name := "passport.jpg"; File.size := 4096 |}.

Definition three_documents : FormData.t :=
  assign (documentTypes [medical_bill; hospital_letter; id_proof])
    (assign (documents [bill; letter; passport]) maria).

(** A session with the wizard: the form of Maria with a duration of 1000
    days typed in, then through the steps to the submission. *)
Definition thousand_days : list Event :=
  [ Input (campaignType individual); Input (title "Help Maria");
    Input (category "Medical"); Input (targetAmount "1000");
    Input (durationDays "1000"); Input (beneficiaryName "Maria Lopez");
    Input (phoneNumber "5551234567"); Input (residentialAddress "123 Main St");
    NextStep; Input (description "Maria needs surgery."); NextStep; NextStep;
    NextStep; Submit ].

Definition stored (id created_at : string) (days : Z) (level : PriorityLevel)
  : MockCampaign.t :=
  {| MockCampaign.id := id;
     MockCampaign._id := None;
     MockCampaign.cid := id;
     MockCampaign.campaign_type := individual;
     MockCampaign.title := "Help Maria";
     MockCampaign.description := "Maria needs surgery.";
     MockCampaign.target_amount := num 1000;
     MockCampaign.raised_amount := num 0;
     MockCampaign.duration_days := num days;
     MockCampaign.category := "Medical";
     MockCampaign.priority := level;
     MockCampaign.status := active;
     MockCampaign.image_url := None;
     MockCampaign.organization_name := None;
     MockCampaign.created_at := created_at;
     MockCampaign.end_date := None;
     MockCampaign.blockchain_tx_hash := Some "0xabc";
     MockCampaign.on_chain_id := None;
     MockCampaign.documents_count := None |}.

(** 2026-11-03T00:00:00.000Z and the two days after, as [Date.now()]
    readings. *)
Definition day0 : Z := 1793664000000.
Definition day1 : Z := 1793750400000.
Definition day2 : Z := 1793836800000.

Definition campaign (id created_at : string) (raised days : Z) (high : bool) : Campaign.t :=
  {| Campaign.id := id;
     Campaign.title := "Help Maria";
     Campaign.description := "Maria needs surgery.";
     Campaign.fullDescription := "Maria needs surgery.";
     Campaign.category := "medical";
     Campaign.image := "/campaigns/default.jpg";
     Campaign.goal := num 1000;
     Campaign.raised := num raised;
     Campaign.daysLeft := num days;
     Campaign.contributors := num 0;
     Campaign.creatorName := "Campaign Creator";
     Campaign.creatorAvatar := "/avatars/default.jpg";
     Campaign.isVerified := true;
     Campaign.isHighPriority := high;
     Campaign.createdAt := created_at |}.


(** ** The contract *)

(** A message from [sender] with [value] wei. *)
Definition from (sender value : Z) : Contract.Msg.t :=
  {| Contract.Msg.sender := sender; Contract.Msg.value := value |}.

(** Account 1 opens a campaign, accounts 2 and 3 donate, account 2 tries to
    close it, account 1 closes it. *)
Definition fundraiser : list (Contract.Msg.t * Contract.Call) :=
  [ (from 1 0, Contract.call_createCampaign 1000 "cid123");
    (from 2 400, Contract.call_donate 1);
    (from 3 0, Contract.call_donate 1);
    (from 2 0, Contract.call_completeCampaign 1);
    (from 1 0, Contract.call_completeCampaign 1) ].

(** What arrives after the campaign is closed. *)
Definition latecomers : list (Contract.Msg.t * Contract.Call) :=
  [ (from 3 50, Contract.call_donate 1);
    (from 2 0, Contract.call_createCampaign 5 "cid456");
    (from 2 7, Contract.call_donate 2);
    (from 1 0, Contract.call_completeCampaign 1) ].

(** ** The deployment script *)

(** A [.env] file with an address from an earlier deployment, between two
    other settings. *)
Definition env_file : string :=
  "ADMIN_PRIVATE_KEY=0xabc" ++ Deploy.LF ++ "CONTRACT_ADDRESS=0x1111" ++ Deploy.LF
  ++ "RPC_URL=http://localhost:8545" ++ Deploy.LF.

(** ** A visitor who comes back *)

(** The browser of a visitor whose index holds an older campaign. *)
Definition returning : World.t :=
  {| World.window := true;
     World.localStorage := Some [stored "QmOld" "2026-10-01T00:00:00.000Z" 60 normal];
     World.now := "2026-11-03T00:00:00.000Z";
     World.create_backend := fun _ _ => Responded (Ok (Parsed receipt));
     World.upload_backend := accepting_uploads;
     World.sent := [] |}.

(** The medical campaigns of individuals. *)
Definition medical_individuals : option Params.t :=
  Some {| Params.campaign_type := Some individual;
          Params.category := Some "Medical";
          Params.limit := Some (num 100) |}.

(** The campaigns of charities. *)
Definition charities : option Params.t :=
  Some {| Params.campaign_type := Some charity;
          Params.category := None;
          Params.limit := None |}.

(** The sample data of a site without samples. *)
Definition no_samples (id : string) : option CampaignDetail.Campaign.t := None.

(** ** Durations out of range *)

(** The session of Maria with a duration of 21 digits typed in. *)
Definition forever : list Event :=
  [ Input (campaignType individual); Input (title "Help Maria");
    Input (category "Medical"); Input (targetAmount "1000");
    Input (durationDays "100000000000000000000");
    Input (beneficiaryName "Maria Lopez");
    Input (phoneNumber "5551234567"); Input (residentialAddress "123 Main St");
    NextStep; Input (description "Maria needs surgery."); NextStep; NextStep;
    NextStep; Submit ].

(** An index of three campaigns created at [day0] for 5 days, for 10^20
    days and for 3 days. *)
Definition three_durations : list MockCampaign.t :=
  [ stored "a" "2026-11-03T00:00:00.000Z" 5 normal;
    stored "b" "2026-11-03T00:00:00.000Z" (10 ^ 20) normal;
    stored "c" "2026-11-03T00:00:00.000Z" 3 normal ].


End Examples.

(* ================================================================== *)
(** * Properties *)
(* ================================================================== *)

Import JS Api Create Campaigns Spec Examples.

(** ** The parsers on sample texts *)

Example parseFloat_examples :
  JS.parseFloat "1000" = JS.num 1000 /\
  JS.parseFloat "  12.50abc" = JS.Num (25 # 2) /\
  JS.parseFloat "-3" = JS.num (-3) /\
  JS.parseFloat "1e3" = JS.num 1000 /\
  JS.parseFloat ".5e1x" = JS.num 5 /\
  JS.parseFloat "5.e" = JS.num 5 /\
  JS.parseFloat "abc" = JS.NaN /\
  JS.parseFloat "." = JS.NaN /\
  JS.parseFloat "0" = JS.num 0.
Proof. repeat split; reflexivity. Qed.

(** A decimal text is read as the nearest double: a value too small for
    one is 0, a value too large an infinity. *)
Example parseFloat_rounds :
  JS.parseFloat "1e-400" = JS.num 0 /\
  JS.parseFloat "1e400" = JS.Inf false /\
  JS.parseFloat "-1e400" = JS.Inf true /\
  JS.parseFloat "0.1" = JS.Num (3602879701896397 # 36028797018963968) /\
  JS.parseFloat "5e-324" = JS.Num (JS.pow2 (-1074)) /\
  JS.parseFloat "2.4703282292062327e-324" = JS.num 0 /\
  JS.parseFloat "1.7976931348623157e308" = JS.num (2 ^ 1024 - 2 ^ 971) /\
  JS.parseFloat "1.7976931348623159e308" = JS.Inf false /\
  JS.parseInt "9007199254740993" = JS.num 9007199254740992 /\
  JS.parseInt "100000000000000000000" = JS.num (10 ^ 20).
Proof. repeat split; vm_compute; reflexivity. Qed.

Example parseInt_examples :
  JS.parseInt "90" = JS.num 90 /\
  JS.parseInt "1000" = JS.num 1000 /\
  JS.parseInt " 12.7" = JS.num 12 /\
  JS.parseInt "0x1F" = JS.num 31 /\
  JS.parseInt "-5" = JS.num (-5) /\
  JS.parseInt "" = JS.NaN /\
  JS.parseInt "1e3" = JS.num 1.
Proof. repeat split; reflexivity. Qed.

Example int_to_string_examples :
  JS.int_to_string 500 = "500" /\ JS.int_to_string 0 = "0" /\
  JS.int_to_string (-42) = "-42" /\ JS.int_to_string 1024 = "1024".
Proof. repeat split; reflexivity. Qed.

Example trim_examples :
  JS.trim "  Help Maria " = "Help Maria" /\ JS.trim "   " = "" /\ JS.trim "" = "".
Proof. repeat split; reflexivity. Qed.

Example Date_parse_ISO_examples :
  JS.Date_parse_ISO "1970-01-01T00:00:00.000Z" = JS.num 0 /\
  JS.Date_parse_ISO "2026-11-03T00:00:00.000Z" = JS.num day0 /\
  JS.Date_parse_ISO "2024-02-29T12:30:15.250Z" = JS.num 1709209815250 /\
  JS.Date_parse_ISO "2023-02-29T12:30:15.250Z" = JS.NaN /\
  JS.Date_parse_ISO "tomorrow" = JS.NaN.
Proof. repeat split; reflexivity. Qed.

Example number_input_value_examples :
  number_input_value "1000" = true /\ number_input_value "" = true /\
  number_input_value "-1.5E+3" = true /\ number_input_value ".5" = true /\
  number_input_value "5." = false /\ number_input_value "1e" = false /\
  number_input_value "abc" = false.
Proof. repeat split; reflexivity. Qed.

(** The duration that the form starts with. *)
Example default_duration :
  parseInt (FormData.durationDays (Page.formData initialPage)) = num 90.
Proof. reflexivity. Qed.

(** ** Strings and numbers *)

Lemma trimEnd_keeps_text (c : ascii) (s : string) :
  is_white_space c = false -> truthy (trimEnd (String c s)) = true.
Proof.
  intros Hc. simpl. destruct (trimEnd s); [rewrite Hc|]; reflexivity.
Qed.

Lemma truthy_trim (s : string) : truthy (trim s) = has_text s.
Proof.
  unfold trim. induction s as [|c s IH]; [reflexivity|].
  cbn [trimStart has_text]. destruct (is_white_space c) eqn:Hc.
  - exact IH.
  - rewrite (trimEnd_keeps_text c s Hc). reflexivity.
Qed.

Lemma truthy_non_empty (s : string) : truthy s = non_empty s.
Proof. destruct s; reflexivity. Qed.

(** Rounding gives a finite number or an infinity. *)
Lemma binary64_cases (q : Q) :
  (exists negative, binary64 q = Inf negative) \/ (exists r, binary64 q = Num r).
Proof.
  unfold binary64. destruct (Qzero_b q); [right; eexists; reflexivity|]. cbv zeta.
  destruct (Qle_bool _ _); [left|right]; eexists; reflexivity.
Qed.

Lemma binary64_not_Null (q : Q) : binary64 q <> Null.
Proof. destruct (binary64_cases q) as [[n ->]|[r ->]]; discriminate. Qed.

Lemma binary64_not_NaN (q : Q) : binary64 q <> NaN.
Proof. destruct (binary64_cases q) as [[n ->]|[r ->]]; discriminate. Qed.

(** [parseFloat] gives NaN, an infinity or a finite number. *)
Lemma parseFloat_not_Null (s : string) : parseFloat s <> Null.
Proof.
  unfold parseFloat. destruct (sign (trimStart s)) as [negative s1].
  destruct (String.prefix "Infinity" s1); [discriminate|].
  destruct (digits 0 0 s1) as [[ip ni] s2].
  destruct (fraction ip s2) as [[fp nf] s3].
  destruct ni, nf; try discriminate; apply binary64_not_Null.
Qed.

(** On a number, [v <= 0] is the negation of [0 < v]. *)
Lemma le_zero_not_positive (v : number) :
  v <> NaN -> v <> Null -> le v (num 0) = negb (lt (num 0) v).
Proof.
  intros HNaN HNull. destruct v as [| |n|q]; try congruence.
  - destruct n; reflexivity.
  - unfold le, lt, num. cbn [ToNumber].
    rewrite <- (Qcompare_antisym q (inject_Z 0)).
    destruct (q ?= inject_Z 0)%Q; reflexivity.
Qed.

Lemma target_amount_check (s : string) :
  s = "" \/ parseFloat s <> NaN ->
  negb (truthy s) || le (parseFloat s) (num 0) = negb (parseable_positive s).
Proof.
  intros [->|H]; [reflexivity|].
  destruct s as [|c s]; [exfalso; apply H; reflexivity|].
  cbn [truthy negb orb]. unfold parseable_positive.
  rewrite (le_zero_not_positive _ H (parseFloat_not_Null _)).
  destruct (parseFloat (String c s)); congruence.
Qed.

(** ** Validation *)

Lemma length_check (n : nat) (s : string) :
  (String.length s <? n)%nat = negb (length_at_least n s).
Proof. unfold length_at_least. apply Nat.ltb_antisym. Qed.

Lemma range_check (lo hi : nat) (s : string) :
  ((String.length s <? lo) || (hi <? String.length s))%nat = negb (length_between lo hi s).
Proof.
  unfold length_between. rewrite negb_andb, !Nat.ltb_antisym. reflexivity.
Qed.

Lemma text_check (s : string) (b : bool) :
  negb (truthy (trim s)) || negb b = negb (has_text s && b).
Proof. rewrite truthy_trim, negb_andb. reflexivity. Qed.

(** On such a form state the verdict of the step "basic info" and the
    message it shows are those of the rules, taken in order. *)
Lemma validateStep_follows_rules (p : Page.t) :
  FormData.targetAmount (Page.formData p) = ""
  \/ parseFloat (FormData.targetAmount (Page.formData p)) <> NaN ->
  validateStep 1 p = outcome (basic_info_rules (Page.formData p)) p.
Proof.
  intros Hamount. unfold validateStep, outcome, basic_info_rules. cbv zeta.
  destruct (FormData.campaignType (Page.formData p)) as [ty|]; [|reflexivity].
  cbn [app first_violation].
  rewrite (target_amount_check _ Hamount).
  rewrite <- !orb_assoc, !range_check, !length_check, !text_check.
  rewrite <- !truthy_non_empty, !truthy_trim.
  destruct (has_text (FormData.title (Page.formData p))
            && length_at_least 3 (FormData.title (Page.formData p))); [|reflexivity].
  destruct (truthy (FormData.category (Page.formData p))); [|reflexivity].
  destruct (parseable_positive (FormData.targetAmount (Page.formData p))); [|reflexivity].
  destruct ty; cbn [negb first_violation].
  - destruct (has_text (FormData.beneficiaryName (Page.formData p))); [|reflexivity].
    destruct (has_text (FormData.phoneNumber (Page.formData p)) && _); [|reflexivity].
    destruct (has_text (FormData.residentialAddress (Page.formData p)) && _); reflexivity.
  - destruct (has_text (FormData.organizationName (Page.formData p))); [|reflexivity].
    destruct (has_text (FormData.contactPersonName (Page.formData p))); [|reflexivity].
    destruct (has_text (FormData.contactPhoneNumber (Page.formData p)) && _); [|reflexivity].
    destruct (has_text (FormData.officialAddress (Page.formData p)) && _); reflexivity.
Qed.

(** C1 (as amended).  On a form state whose target amount is empty or
    parses to a number, the validation of the step "basic info" refuses
    with the message of the first violated rule of [basic_info_rules], taken
    in order, and accepts when none is violated; from step 1, [nextStep]
    moves to step 2 exactly when none is violated. *)
Theorem validateStep_basic_info (p : Page.t) :
  FormData.targetAmount (Page.formData p) = ""
  \/ parseFloat (FormData.targetAmount (Page.formData p)) <> NaN ->
  validateStep 1 p = outcome (basic_info_rules (Page.formData p)) p
  /\ (Page.currentStep p = 1%nat ->
      (Page.currentStep (nextStep p) = 2%nat
       <-> first_violation (basic_info_rules (Page.formData p)) = None)).
Proof.
  intros Hamount. assert (Hv := validateStep_follows_rules p Hamount).
  split; [exact Hv|].
  intros Hstep. unfold nextStep. rewrite Hstep, Hv. unfold outcome.
  destruct (first_violation (basic_info_rules (Page.formData p))) as [m|].
  - cbn. rewrite Hstep. split; discriminate.
  - cbn. split; reflexivity.
Qed.

(** ** Number inputs *)

(** The count of digits and the rest do not depend on the value read so
    far. *)
Lemma digits_rest (s : string) :
  forall acc acc' n,
    snd (fst (digits acc n s)) = snd (fst (digits acc' n s))
    /\ snd (digits acc n s) = snd (digits acc' n s).
Proof.
  induction s as [|c s IH]; intros acc acc' n; [split; reflexivity|].
  cbn [digits]. destruct (is_digit c); [apply IH|split; reflexivity].
Qed.

Lemma digits_no_digit (c : ascii) (s : string) (acc : Z) (n : nat) :
  is_digit c = false -> digits acc n (String c s) = (acc, n, String c s).
Proof. intros H. cbn [digits]. rewrite H. reflexivity. Qed.

(** What a number input hands over is empty or parses to a number. *)
Lemma number_input_parses (v : string) :
  number_input_value v = true -> v = "" \/ parseFloat v <> NaN.
Proof.
  destruct v as [|c v']; [left; reflexivity|]. intros H. right.
  unfold number_input_value in H.
  set (s1 := if Ascii.eqb c "-" then v' else String c v') in H.
  destruct (digits 0 0 s1) as [[ip ni] s2] eqn:Hd.
  destruct (fraction 0 s2) as [[fp0 nf] s3] eqn:Hf.
  apply andb_prop in H. destruct H as [Hm _].
  (* the text after the sign starts with a digit or a point *)
  assert (Hs1 : exists d s1', s1 = String d s1' /\ (is_digit d = true \/ d = "."%char)).
  { destruct s1 as [|d s1'].
    - cbn in Hd. injection Hd as <- <- <-. cbn in Hm. discriminate.
    - exists d, s1'. split; [reflexivity|].
      destruct (is_digit d) eqn:Ed; [left; reflexivity|right].
      rewrite (digits_no_digit d s1' 0 0 Ed) in Hd. injection Hd as <- <- <-.
      destruct (Ascii.eqb_spec d "."); [assumption|]. cbn in Hm. discriminate. }
  destruct Hs1 as (d & s1' & Es1 & Hd1).
  assert (Hws : forall x, is_digit x = true \/ x = "."%char \/ x = "-"%char ->
                          is_white_space x = false).
  { intros x [Hx|[->| ->]]; [|reflexivity|reflexivity].
    unfold is_digit, is_white_space in *. cbv zeta in *.
    destruct (9 <=? code x)%nat eqn:E1, (code x <=? 13)%nat eqn:E2,
             (code x =? 32)%nat eqn:E3, (code x =? 160)%nat eqn:E4; try reflexivity;
      apply andb_prop in Hx; destruct Hx as [Hx1 Hx2];
      apply Nat.leb_le in Hx1, Hx2;
      repeat match goal with
             | H : (_ <=? _)%nat = true |- _ => apply Nat.leb_le in H
             | H : (_ =? _)%nat = true |- _ => apply Nat.eqb_eq in H
             end; lia. }
  assert (Hsign : sign (trimStart (String c v')) = (Ascii.eqb c "-", s1)).
  { cbn [trimStart]. destruct (Ascii.eqb_spec c "-") as [->|Hc].
    - reflexivity.
    - unfold s1 in Es1. injection Es1 as -> ->. unfold s1.
      rewrite (Hws d) by tauto. cbn [sign].
      rewrite (proj2 (Ascii.eqb_neq _ _) Hc).
      destruct (Ascii.eqb_spec d "+") as [->|_]; [|reflexivity].
      destruct Hd1 as [Hd1|Hd1]; discriminate. }
  unfold parseFloat. rewrite Hsign.
  assert (Hinf : String.prefix "Infinity" s1 = false).
  { rewrite Es1. cbn [String.prefix].
    destruct (Ascii.ascii_dec "I" d) as [<-|_]; [|reflexivity].
    destruct Hd1 as [Hd1|Hd1]; discriminate. }
  rewrite Hinf, Hd.
  destruct (fraction ip s2) as [[fp nf'] s3'] eqn:Hf'.
  assert (nf' = nf).
  { unfold fraction in Hf, Hf'. destruct s2 as [|e s2'].
    - injection Hf as _ <- _. injection Hf' as _ <- _. reflexivity.
    - destruct (Ascii.eqb e ".").
      + destruct (digits_rest s2' ip 0 0) as [E _]. rewrite Hf, Hf' in E. cbn in E.
        congruence.
      + injection Hf as _ <- _. injection Hf' as _ <- _. reflexivity. }
  subst nf'.
  destruct ni as [|ni], nf as [|nf]; try apply binary64_not_NaN.
  exfalso. destruct s2 as [|e s2']; [cbn in Hm; discriminate|].
  destruct (Ascii.eqb e "."); cbn in Hm; discriminate.
Qed.

(** ** The form states that the page can be in *)

Lemma handleSubmit_returns (p : Page.t) (w : World.t) :
  exists p', fst (handleSubmit p w) = Returned p' /\ Page.formData p' = Page.formData p.
Proof.
  unfold handleSubmit, bind, try_catch.
  destruct (submit (setError None (setIsSubmitting true p)) w) as [[p1|e] w1] eqn:Hs.
  - eexists. split; [reflexivity|]. cbn [setIsSubmitting Page.formData].
    revert Hs. unfold submit, bind.
    destruct (upload_from 0 _ _ [] w) as [[docs|e] w2]; [|discriminate].
    match goal with
    | |- context [match ?m with _ => _ end] => destruct m as [[response|e] w3]
    end; [|discriminate].
    intros H. injection H as <- _. reflexivity.
  - eexists. split; reflexivity.
Qed.

(** No control of the page puts in the target amount anything but what a
    number input gives. *)
Lemma handle_keeps_number_inputs (e : Event) (p : Page.t) (w : World.t) :
  number_inputs p ->
  exists p', fst (handle e p w) = Returned p' /\ number_inputs p'.
Proof.
  intros Hp. unfold handle. destruct (enabled e p) eqn:He; [|exists p; split; trivial].
  destruct e as [u|files|index|index type| | |].
  - exists (updateField u p). split; [reflexivity|].
    unfold number_inputs. destruct u; try exact Hp.
    cbn in He |- *. apply andb_prop in He. apply He.
  - exists (handleFileChange files p). split; [reflexivity|].
    destruct files; exact Hp.
  - exists (removeDocument index p). split; [reflexivity|exact Hp].
  - exists (updateDocumentType index type p). split; [reflexivity|exact Hp].
  - exists (nextStep p). split; [reflexivity|].
    unfold number_inputs, nextStep.
    assert (Hv : Page.formData (snd (validateStep (Page.currentStep p) p)) = Page.formData p).
    { unfold validateStep. cbv zeta.
      repeat match goal with
             | |- context [match ?x with _ => _ end] => destruct x
             end; reflexivity. }
    destruct (validateStep (Page.currentStep p) p) as [ok p1]. cbn [snd] in Hv.
    destruct ok; [destruct (Page.currentStep p <? 5)%nat|]; cbn [setCurrentStep Page.formData];
      rewrite Hv; exact Hp.
  - exists (prevStep p). split; [reflexivity|].
    unfold number_inputs, prevStep. destruct (1 <? Page.currentStep p)%nat; exact Hp.
  - destruct (handleSubmit_returns p w) as [p' [H1 H2]].
    exists p'. split; [exact H1|]. unfold number_inputs. rewrite H2. exact Hp.
Qed.

Lemma run_keeps_number_inputs (events : list Event) :
  forall p w, number_inputs p ->
    exists p', fst (run events p w) = Returned p' /\ number_inputs p'.
Proof.
  induction events as [|e events IH]; intros p w Hp; [exists p; split; trivial|].
  cbn [run]. unfold bind.
  destruct (handle_keeps_number_inputs e p w Hp) as [p1 [H1 H2]].
  destruct (handle e p w) as [r w1]. cbn [fst] in H1. subst r. apply IH. exact H2.
Qed.

(** In every state that the page reaches from its initial one, the
    validation of the step "basic info" follows [basic_info_rules]. *)
Lemma reachable_validateStep (events : list Event) (w : World.t) :
  exists p, fst (run events initialPage w) = Returned p
            /\ validateStep 1 p = outcome (basic_info_rules (Page.formData p)) p.
Proof.
  destruct (run_keeps_number_inputs events initialPage w eq_refl) as [p [H1 H2]].
  exists p. split; [exact H1|].
  apply validateStep_follows_rules. apply number_input_parses. exact H2.
Qed.

(** A target amount that is not a number is outside of the rules: the
    comparison [parseFloat(x) <= 0] is false on NaN, and the step accepts
    the form. *)
Example unparseable_amount_is_accepted :
  let f := assign (targetAmount "abc") maria in
  parseFloat (FormData.targetAmount f) = NaN
  /\ number_input_value (FormData.targetAmount f) = false
  /\ validateStep 1 (page 1 f) = (true, page 1 f).
Proof. repeat split; reflexivity. Qed.


(** A target amount too small for a double reads as 0 and is refused. *)
Example underflowing_amount_is_refused :
  let f := assign (targetAmount "1e-400") maria in
  number_input_value (FormData.targetAmount f) = true
  /\ parseFloat (FormData.targetAmount f) = num 0
  /\ validateStep 1 (page 1 f)
     = (false, setError (Some "Please enter a valid target amount") (page 1 f)).
Proof. repeat split; vm_compute; reflexivity. Qed.


(** ** The API client *)

Lemma request_not_ok (r : Request) (w : World.t) (status : Z) (body : Body json) :
  World.create_backend w (List.length (World.sent w)) r = Responded (NotOk status body) ->
  request r w = (Thrown (failure status body), World.send r w).
Proof.
  intros H. unfold request, bind, fetch_create. rewrite H.
  destruct body as [v|m]; [|reflexivity].
  destruct v as [|b|q t|s|items|properties]; try reflexivity.
  unfold failure, error_detail. cbn.
  destruct (assoc "detail" properties) as [v|]; [|reflexivity].
  destruct (json_truthy v); reflexivity.
Qed.

Lemma request_returned (r : Request) (w w' : World.t) (res : CreateResponse.t) :
  request r w = (Returned res, w') ->
  World.create_backend w (List.length (World.sent w)) r = Responded (Ok (Parsed res))
  /\ w' = World.send r w.
Proof.
  unfold request, bind, fetch_create.
  destruct (World.create_backend w (List.length (World.sent w)) r) as [m|[body|status body]].
  - discriminate.
  - destruct body as [v|m]; cbn; [|discriminate].
    intros H. injection H as -> <-. split; reflexivity.
  - intros H. exfalso. revert H.
    destruct body as [v|m]; cbn; [|discriminate].
    destruct v as [|b|q t|s|items|properties]; cbn; try discriminate.
Qed.

Lemma request_world (r : Request) (w : World.t) : snd (request r w) = World.send r w.
Proof.
  unfold request, bind, fetch_create.
  destruct (World.create_backend w (List.length (World.sent w)) r) as [m|[body|status body]];
    [reflexivity|destruct body; reflexivity|].
  destruct body as [v|m]; [|reflexivity].
  destruct v as [|b|q t|s|items|properties]; reflexivity.
Qed.

Lemma request_thrown (r : Request) (w w' : World.t) (e : exn) :
  request r w = (Thrown e, w') -> w' = World.send r w.
Proof. intros H. rewrite <- (request_world r w), H. reflexivity. Qed.

Lemma saveToLocalIndex_window (c : MockCampaign.t) (w : World.t) :
  World.window w = true ->
  saveToLocalIndex c w
  = (Returned tt, World.setItem (JSON_roundtrip c :: map JSON_roundtrip (read_index w)) w).
Proof. intros H. unfold saveToLocalIndex. rewrite H. reflexivity. Qed.

Lemma saveToLocalIndex_no_window (c : MockCampaign.t) (w : World.t) :
  World.window w = false -> saveToLocalIndex c w = (Returned tt, w).
Proof. intros H. unfold saveToLocalIndex. rewrite H. reflexivity. Qed.

Lemma JSON_number_idempotent (v : number) : JSON_number (JSON_number v) = JSON_number v.
Proof. destruct v; reflexivity. Qed.

Lemma JSON_roundtrip_idempotent (c : MockCampaign.t) :
  JSON_roundtrip (JSON_roundtrip c) = JSON_roundtrip c.
Proof.
  unfold JSON_roundtrip. cbn. rewrite !JSON_number_idempotent.
  destruct (MockCampaign.documents_count c); cbn;
    rewrite ?JSON_number_idempotent; reflexivity.
Qed.

Lemma map_JSON_value (l : list MockCampaign.t) :
  Forall JSON_value l -> map JSON_roundtrip l = l.
Proof.
  induction 1 as [|c l Hc _ IH]; [reflexivity|]. cbn. rewrite Hc, IH. reflexivity.
Qed.

(** The index stays well formed when a campaign is saved. *)
Lemma saveToLocalIndex_well_formed (c : MockCampaign.t) (w : World.t) :
  well_formed w -> well_formed (snd (saveToLocalIndex c w)).
Proof.
  intros Hw. unfold saveToLocalIndex. destruct (World.window w); [|exact Hw].
  unfold well_formed. cbn. constructor.
  - apply JSON_roundtrip_idempotent.
  - rewrite (map_JSON_value _ Hw). exact Hw.
Qed.

(** The two creation operations, unfolded along their single path. *)
Lemma createIndividualCampaign_run (data : IndividualCampaignCreateRequest.t) (w : World.t) :
  createIndividualCampaign data w
  = match request (POST_campaigns_individual data) w with
    | (Returned res, w1) =>
        (Returned res, snd (saveToLocalIndex (individual_record data res (World.now w1)) w1))
    | (Thrown e, w1) => (Thrown e, w1)
    end.
Proof.
  unfold createIndividualCampaign, bind.
  destruct (request (POST_campaigns_individual data) w) as [[res|e] w1]; [|reflexivity].
  unfold Date_now_toISOString, saveToLocalIndex, ret.
  destruct (World.window w1); reflexivity.
Qed.

Lemma createCharityCampaign_run (data : CharityCampaignCreateRequest.t) (w : World.t) :
  createCharityCampaign data w
  = match request (POST_campaigns_charity data) w with
    | (Returned res, w1) =>
        (Returned res, snd (saveToLocalIndex (charity_record data res (World.now w1)) w1))
    | (Thrown e, w1) => (Thrown e, w1)
    end.
Proof.
  unfold createCharityCampaign, bind.
  destruct (request (POST_campaigns_charity data) w) as [[res|e] w1]; [|reflexivity].
  unfold Date_now_toISOString, saveToLocalIndex, ret.
  destruct (World.window w1); reflexivity.
Qed.

(** What a creation that returns has done: the backend accepted the
    request, and the record of the campaign went through
    [saveToLocalIndex]. *)
Lemma creation_returned (r : Request) (record : CreateResponse.t -> string -> MockCampaign.t)
    (w w' : World.t) (res : CreateResponse.t) :
  match request r w with
  | (Returned res, w1) => (Returned res, snd (saveToLocalIndex (record res (World.now w1)) w1))
  | (Thrown e, w1) => (Thrown e, w1)
  end = (Returned res, w') ->
  World.create_backend w (List.length (World.sent w)) r = Responded (Ok (Parsed res))
  /\ w' = snd (saveToLocalIndex (record res (World.now w)) (World.send r w)).
Proof.
  destruct (request r w) as [[res1|e] w1] eqn:Hr; [|discriminate].
  intros H. injection H as -> <-.
  destruct (request_returned _ _ _ _ Hr) as [Hb ->]. split; [exact Hb|reflexivity].
Qed.

Lemma stored_by_creation (r : Request) (c : MockCampaign.t) (w : World.t) :
  let w' := snd (saveToLocalIndex c (World.send r w)) in
  (World.window w = true ->
     read_index w' = JSON_roundtrip c :: map JSON_roundtrip (read_index w)
     /\ (well_formed w -> read_index w' = JSON_roundtrip c :: read_index w))
  /\ (World.window w = false -> World.localStorage w' = World.localStorage w).
Proof.
  cbv zeta. split; intros Hw.
  - rewrite saveToLocalIndex_window by exact Hw.
    change (read_index (World.send r w)) with (read_index w).
    split; [reflexivity|]. intros Hwf.
    rewrite (map_JSON_value _ Hwf). reflexivity.
  - rewrite saveToLocalIndex_no_window by exact Hw. reflexivity.
Qed.

(** C2 (as amended).  When a creation of either variant returns, in a
    browser ([window] is defined) the index read afterwards is the one read
    before with one record put in front; that record has a raised amount of
    0, the status "active", the clock reading of the creation as
    [created_at], and the [cid] of the backend's answer as [id].  Without a
    [window] the creation returns all the same and the storage is left as
    it was. *)
Theorem successful_creation_is_indexed (w w' : World.t) (res : CreateResponse.t) :
  (forall data,
     createIndividualCampaign data w = (Returned res, w') ->
     (World.window w = true ->
        exists c,
          read_index w' = c :: map JSON_roundtrip (read_index w)
          /\ (well_formed w -> read_index w' = c :: read_index w)
          /\ c = JSON_roundtrip (individual_record data res (World.now w))
          /\ newly_stored c w res individual)
     /\ (World.window w = false -> World.localStorage w' = World.localStorage w))
  /\
  (forall data,
     createCharityCampaign data w = (Returned res, w') ->
     (World.window w = true ->
        exists c,
          read_index w' = c :: map JSON_roundtrip (read_index w)
          /\ (well_formed w -> read_index w' = c :: read_index w)
          /\ c = JSON_roundtrip (charity_record data res (World.now w))
          /\ newly_stored c w res charity)
     /\ (World.window w = false -> World.localStorage w' = World.localStorage w)).
Proof.
  split; intros data H.
  - rewrite createIndividualCampaign_run in H.
    apply (creation_returned _ (individual_record data)) in H. destruct H as [_ ->].
    destruct (stored_by_creation (POST_campaigns_individual data)
                (individual_record data res (World.now w)) w) as [Hin Hout].
    split; [|exact Hout]. intros Hw. destruct (Hin Hw) as [H1 H2].
    eexists. split; [exact H1|]. split; [exact H2|]. split; [reflexivity|].
    repeat split.
  - rewrite createCharityCampaign_run in H.
    apply (creation_returned _ (charity_record data)) in H. destruct H as [_ ->].
    destruct (stored_by_creation (POST_campaigns_charity data)
                (charity_record data res (World.now w)) w) as [Hin Hout].
    split; [|exact Hout]. intros Hw. destruct (Hin Hw) as [H1 H2].
    eexists. split; [exact H1|]. split; [exact H2|]. split; [reflexivity|].
    repeat split.
Qed.

(** The scenario of the specification: Maria's campaign, once created, is
    in the list narrowed to the category "Medical", with the fields of the
    form, nothing raised and the status "active". *)
Example maria_is_listed :
  let w' := snd (createIndividualCampaign maria_request browser) in
  exists c,
    fst (getCampaigns (Some {| Params.campaign_type := None;
                               Params.category := Some "Medical";
                               Params.limit := None |}) w') = Returned [c]
    /\ MockCampaign.title c = "Help Maria"
    /\ MockCampaign.target_amount c = num 1000
    /\ MockCampaign.duration_days c = num 30
    /\ MockCampaign.category c = "Medical"
    /\ MockCampaign.raised_amount c = num 0
    /\ MockCampaign.status c = active.
Proof. eexists. repeat split. Qed.


(** ** Reading the index *)

Lemma save_all_window (cs : list MockCampaign.t) (w : World.t) :
  World.window (snd (save_all cs w)) = World.window w.
Proof.
  revert w. induction cs as [|c cs IH]; intros w; [reflexivity|].
  cbn [save_all]. unfold bind, saveToLocalIndex.
  destruct (World.window w) eqn:Hw; rewrite IH; exact Hw.
Qed.

Lemma map_JSON_roundtrip_idempotent (l : list MockCampaign.t) :
  map JSON_roundtrip (map JSON_roundtrip l) = map JSON_roundtrip l.
Proof.
  rewrite map_map. apply map_ext. intros c. apply JSON_roundtrip_idempotent.
Qed.

(** The index after a run of saves: the saved campaigns, last saved first,
    in front of what was there. *)
Lemma save_all_index (c : MockCampaign.t) (cs : list MockCampaign.t) (w : World.t) :
  World.window w = true ->
  read_index (snd (save_all (c :: cs) w))
  = map JSON_roundtrip (rev cs ++ c :: read_index w).
Proof.
  revert c w. induction cs as [|c' cs IH]; intros c w Hw.
  - cbn [save_all]. unfold bind. rewrite saveToLocalIndex_window by exact Hw. reflexivity.
  - change (save_all (c :: c' :: cs) w)
      with (bind (saveToLocalIndex c) (fun _ => save_all (c' :: cs)) w).
    unfold bind. rewrite saveToLocalIndex_window by exact Hw.
    rewrite IH by exact Hw.
    change (read_index (World.setItem ?l w)) with l.
    cbn [rev]. rewrite <- app_assoc. cbn [app].
    rewrite !map_app. cbn [map].
    rewrite JSON_roundtrip_idempotent, map_JSON_roundtrip_idempotent. reflexivity.
Qed.

Lemma find_skips {A} (f : A -> bool) (l1 l2 : list A) :
  Forall (fun x => f x = false) l1 -> find f (l1 ++ l2) = find f l2.
Proof.
  induction 1 as [|x l1 Hx _ IH]; [reflexivity|]. cbn. rewrite Hx. exact IH.
Qed.

Lemma find_up_to {A} (f : A -> bool) (l1 l2 : list A) (x : A) :
  f x = true -> find f (l1 ++ x :: l2) = find f (l1 ++ [x]).
Proof.
  intros Hx. induction l1 as [|y l1 IH]; cbn; [rewrite Hx; reflexivity|].
  destruct (f y); [reflexivity|exact IH].
Qed.

Lemma find_last_resort {A} (f : A -> bool) (l : list A) (x : A) :
  f x = true -> exists y, find f (l ++ [x]) = Some y.
Proof.
  intros Hx. induction l as [|z l IH]; cbn; [rewrite Hx; eauto|].
  destruct (f z); eauto.
Qed.

Lemma find_JSON_roundtrip (id : string) (l : list MockCampaign.t) :
  find (fun c => String.eqb (MockCampaign.id c) id) (map JSON_roundtrip l)
  = option_map JSON_roundtrip (find (fun c => String.eqb (MockCampaign.id c) id) l).
Proof.
  induction l as [|c l IH]; [reflexivity|]. cbn [map find].
  change (MockCampaign.id (JSON_roundtrip c)) with (MockCampaign.id c).
  destruct (String.eqb (MockCampaign.id c) id); [reflexivity|exact IH].
Qed.

Lemma getCampaign_window (id : string) (w : World.t) :
  World.window w = true ->
  getCampaign id w
  = (Returned (find (fun c => String.eqb (MockCampaign.id c) id) (read_index w)), w).
Proof. intros H. unfold getCampaign. rewrite H. reflexivity. Qed.

(** C6 (as amended).  In a browser, after a campaign [c] is saved and then
    any campaigns [later]: the get operation on the id of [c] returns the
    most recently saved of these campaigns that has this id, as written to
    the storage; this is [c] itself when no campaign saved later has the
    same id.  An id that no record of the index has yields nothing, and so
    does any id once the storage is cleared. *)
Theorem saved_campaign_is_found (w : World.t) (c : MockCampaign.t)
    (later : list MockCampaign.t) :
  World.window w = true ->
  let w' := snd (save_all (c :: later) w) in
  (exists c',
     find (fun x => String.eqb (MockCampaign.id x) (MockCampaign.id c)) (rev later ++ [c])
     = Some c'
     /\ getCampaign (MockCampaign.id c) w' = (Returned (Some (JSON_roundtrip c')), w'))
  /\ (Forall (fun c' => MockCampaign.id c' <> MockCampaign.id c) later ->
      getCampaign (MockCampaign.id c) w' = (Returned (Some (JSON_roundtrip c)), w'))
  /\ (forall id, Forall (fun c' => MockCampaign.id c' <> id) (read_index w') ->
      getCampaign id w' = (Returned None, w'))
  /\ (forall id, getCampaign id (World.clear w') = (Returned None, World.clear w')).
Proof.
  intros Hw w'.
  assert (Hw' : World.window w' = true) by (unfold w'; rewrite save_all_window; exact Hw).
  assert (Hidx : read_index w' = map JSON_roundtrip (rev later ++ c :: read_index w))
    by (apply save_all_index; exact Hw).
  assert (Hc : String.eqb (MockCampaign.id c) (MockCampaign.id c) = true)
    by apply String.eqb_refl.
  repeat split.
  - destruct (find_last_resort
                (fun x => String.eqb (MockCampaign.id x) (MockCampaign.id c)) (rev later) c Hc)
      as [c' Hc'].
    exists c'. split; [exact Hc'|].
    rewrite (getCampaign_window _ _ Hw'), Hidx, find_JSON_roundtrip.
    rewrite (find_up_to (fun x => String.eqb (MockCampaign.id x) (MockCampaign.id c))
               (rev later) (read_index w) c Hc), Hc'.
    reflexivity.
  - intros Hlater. rewrite (getCampaign_window _ _ Hw'), Hidx, map_app.
    rewrite find_skips.
    + cbn. rewrite String.eqb_refl. reflexivity.
    + apply Forall_map, Forall_rev. revert Hlater. apply Forall_impl.
      intros c' Hc'. apply String.eqb_neq. exact Hc'.
  - intros id Hid. rewrite (getCampaign_window _ _ Hw').
    destruct (find _ (read_index w')) as [y|] eqn:Hf; [|reflexivity].
    destruct (find_some _ _ Hf) as [Hin Hy]. rewrite Forall_forall in Hid.
    apply String.eqb_eq in Hy. destruct (Hid y Hin Hy).
  - intros id. unfold getCampaign.
    change (World.window (World.clear w')) with (World.window w').
    rewrite Hw'. reflexivity.
Qed.

(** ** Identity fields *)

Lemma individual_request_keys (data : IndividualCampaignCreateRequest.t) :
  fully_populated individual_group (IndividualCampaignCreateRequest.keys data) = true
  /\ populated charity_group (IndividualCampaignCreateRequest.keys data) = false.
Proof.
  unfold IndividualCampaignCreateRequest.keys.
  destruct (IndividualCampaignCreateRequest.priority data),
           (IndividualCampaignCreateRequest.image_url data),
           (IndividualCampaignCreateRequest.verification_notes data),
           (IndividualCampaignCreateRequest.documents data); split; reflexivity.
Qed.

Lemma charity_request_keys (data : CharityCampaignCreateRequest.t) :
  fully_populated charity_group (CharityCampaignCreateRequest.keys data) = true
  /\ populated individual_group (CharityCampaignCreateRequest.keys data) = false.
Proof.
  unfold CharityCampaignCreateRequest.keys.
  destruct (CharityCampaignCreateRequest.priority data),
           (CharityCampaignCreateRequest.image_url data),
           (CharityCampaignCreateRequest.verification_notes data),
           (CharityCampaignCreateRequest.documents data); split; reflexivity.
Qed.

Lemma campaign_types_kept (l : list MockCampaign.t) :
  map MockCampaign.campaign_type (map JSON_roundtrip l) = map MockCampaign.campaign_type l.
Proof. rewrite map_map. reflexivity. Qed.

(** C9 (as amended).  The request that a creation sends carries all the
    identity fields of its own variant and none of the other.  The record
    that a creation stores has the campaign type of the operation; for an
    individual it has no identity field at all, for a charity it has the
    organization name of the request and no other identity field.  The
    campaign types of the records that were in the index are as they
    were. *)
Theorem identity_fields_follow_variant (w w' : World.t) (res : CreateResponse.t) :
  (forall data,
     createIndividualCampaign data w = (Returned res, w') ->
     World.sent w' = (World.sent w ++ [POST_campaigns_individual data])%list
     /\ fully_populated individual_group (IndividualCampaignCreateRequest.keys data) = true
     /\ populated charity_group (IndividualCampaignCreateRequest.keys data) = false
     /\ (World.window w = true ->
         exists c,
           read_index w' = c :: map JSON_roundtrip (read_index w)
           /\ MockCampaign.campaign_type c = individual
           /\ populated individual_group (MockCampaign.keys c) = false
           /\ populated charity_group (MockCampaign.keys c) = false
           /\ map MockCampaign.campaign_type (read_index w')
              = individual :: map MockCampaign.campaign_type (read_index w)))
  /\
  (forall data,
     createCharityCampaign data w = (Returned res, w') ->
     World.sent w' = (World.sent w ++ [POST_campaigns_charity data])%list
     /\ fully_populated charity_group (CharityCampaignCreateRequest.keys data) = true
     /\ populated individual_group (CharityCampaignCreateRequest.keys data) = false
     /\ (World.window w = true ->
         exists c,
           read_index w' = c :: map JSON_roundtrip (read_index w)
           /\ MockCampaign.campaign_type c = charity
           /\ MockCampaign.organization_name c
              = Some (CharityCampaignCreateRequest.organization_name data)
           /\ filter (has_key (individual_group ++ charity_group)%list) (MockCampaign.keys c)
              = ["organization_name"]
           /\ map MockCampaign.campaign_type (read_index w')
              = charity :: map MockCampaign.campaign_type (read_index w))).
Proof.
  split; intros data H.
  - rewrite createIndividualCampaign_run in H.
    apply (creation_returned _ (individual_record data)) in H. destruct H as [_ ->].
    split; [unfold saveToLocalIndex; cbn; destruct (World.window w); reflexivity|].
    destruct (individual_request_keys data) as [K1 K2].
    split; [exact K1|]. split; [exact K2|]. intros Hw.
    destruct (stored_by_creation (POST_campaigns_individual data)
                (individual_record data res (World.now w)) w) as [Hin _].
    destruct (Hin Hw) as [H1 _]. eexists. split; [exact H1|].
    rewrite H1. cbn [map]. rewrite campaign_types_kept. repeat split.
  - rewrite createCharityCampaign_run in H.
    apply (creation_returned _ (charity_record data)) in H. destruct H as [_ ->].
    split; [unfold saveToLocalIndex; cbn; destruct (World.window w); reflexivity|].
    destruct (charity_request_keys data) as [K1 K2].
    split; [exact K1|]. split; [exact K2|]. intros Hw.
    destruct (stored_by_creation (POST_campaigns_charity data)
                (charity_record data res (World.now w)) w) as [Hin _].
    destruct (Hin Hw) as [H1 _]. eexists. split; [exact H1|].
    rewrite H1. cbn [map]. rewrite campaign_types_kept. repeat split.
Qed.


(** ** Submission *)

Lemma after_sending_cons (r : Request) (rs : list Request) (w : World.t) :
  after_sending (r :: rs) w = after_sending rs (World.send r w).
Proof. reflexivity. Qed.

Lemma after_sending_sent (rs : list Request) (w : World.t) :
  World.sent (after_sending rs w) = (World.sent w ++ rs)%list.
Proof.
  revert w. induction rs as [|r rs IH]; intros w.
  - cbn. rewrite app_nil_r. reflexivity.
  - rewrite after_sending_cons, IH. cbn. rewrite <- app_assoc. reflexivity.
Qed.

Lemma after_sending_storage (rs : list Request) (w : World.t) :
  World.localStorage (after_sending rs w) = World.localStorage w
  /\ World.window (after_sending rs w) = World.window w
  /\ World.now (after_sending rs w) = World.now w.
Proof.
  revert w. induction rs as [|r rs IH]; intros w; [repeat split|].
  rewrite after_sending_cons. destruct (IH (World.send r w)) as (H1 & H2 & H3).
  rewrite H1, H2, H3. repeat split.
Qed.

Lemma uploadDocument_succeeds (file : File.t) (ty : DocumentType) (w : World.t)
    (d : CampaignDocument.t) :
  uploaded (World.upload_backend w (List.length (World.sent w))
              (POST_documents_upload file ty)) = Some d ->
  uploadDocument file ty w = (Returned d, World.send (POST_documents_upload file ty) w).
Proof.
  unfold uploadDocument, bind, fetch_upload.
  destruct (World.upload_backend w _ _) as [m|[[d'|m]|status body]]; cbn; try discriminate.
  intros H. injection H as ->. reflexivity.
Qed.

Lemma uploadDocument_fails (file : File.t) (ty : DocumentType) (w : World.t) :
  uploaded (World.upload_backend w (List.length (World.sent w))
              (POST_documents_upload file ty)) = None ->
  exists e, uploadDocument file ty w
            = (Thrown e, World.send (POST_documents_upload file ty) w).
Proof.
  unfold uploadDocument, bind, fetch_upload.
  destruct (World.upload_backend w _ _) as [m|[[d'|m]|status body]]; cbn;
    try discriminate; intros _; eexists; reflexivity.
Qed.

(** The loop stops at the first upload that fails: the uploads before it
    and that one have been sent, nothing else. *)
Lemma upload_from_first_failure (documentTypes : list DocumentType) (rest : list File.t) :
  forall (i : nat) (acc : list CampaignDocument.t) (w : World.t) (k : nat) (file : File.t),
    nth_error rest k = Some file ->
    (forall j fj, (j < k)%nat -> nth_error rest j = Some fj ->
       uploaded (World.upload_backend w (List.length (World.sent w) + j)
                   (POST_documents_upload fj (nth (i + j) documentTypes other))) <> None) ->
    uploaded (World.upload_backend w (List.length (World.sent w) + k)
                (POST_documents_upload file (nth (i + k) documentTypes other))) = None ->
    upload_from i rest documentTypes acc w
    = (Thrown (Error ("Failed to upload document: " ++ File.name file)),
       after_sending (firstn (S k) (upload_requests documentTypes i rest)) w).
Proof.
  induction rest as [|file0 rest IH]; intros i acc w k file Hk Hbefore Hfail.
  - destruct k; discriminate.
  - cbn [upload_from upload_requests]. unfold bind, try_catch. destruct k as [|k].
    + injection Hk as ->. rewrite !Nat.add_0_r in Hfail.
      destruct (uploadDocument_fails _ _ _ Hfail) as [e ->]. reflexivity.
    + assert (H0 := Hbefore 0%nat file0 (Nat.lt_0_succ k) eq_refl).
      rewrite !Nat.add_0_r in H0.
      destruct (uploaded _) as [d|] eqn:Hd in H0; [|congruence].
      rewrite (uploadDocument_succeeds _ _ _ _ Hd).
      rewrite (IH (S i) _ _ k file Hk).
      * reflexivity.
      * intros j fj Hj Hfj. cbn [World.sent World.send World.upload_backend].
        rewrite length_app. cbn [List.length].
        replace (List.length (World.sent w) + 1 + j)%nat
          with (List.length (World.sent w) + S j)%nat by lia.
        replace (S i + j)%nat with (i + S j)%nat by lia.
        apply Hbefore; [lia|exact Hfj].
      * cbn [World.sent World.send World.upload_backend].
        rewrite length_app. cbn [List.length].
        replace (List.length (World.sent w) + 1 + k)%nat
          with (List.length (World.sent w) + S k)%nat by lia.
        replace (S i + k)%nat with (i + S k)%nat by lia.
        exact Hfail.
Qed.

(** Whatever the backend does, the loop only sends uploads. *)
Lemma upload_from_sends_uploads (documentTypes : list DocumentType) (rest : list File.t) :
  forall (i : nat) (acc : list CampaignDocument.t) (w : World.t),
    exists rs, snd (upload_from i rest documentTypes acc w) = after_sending rs w
               /\ Forall is_upload rs.
Proof.
  induction rest as [|file0 rest IH]; intros i acc w.
  - exists []. split; [reflexivity|constructor].
  - cbn [upload_from]. unfold bind, try_catch.
    destruct (uploaded (World.upload_backend w (List.length (World.sent w))
                (POST_documents_upload file0 (nth i documentTypes other)))) as [d|] eqn:Hd.
    + rewrite (uploadDocument_succeeds _ _ _ _ Hd).
      destruct (IH (S i) (acc ++ [d])%list
                  (World.send (POST_documents_upload file0 (nth i documentTypes other)) w))
        as [rs [H1 H2]].
      exists (POST_documents_upload file0 (nth i documentTypes other) :: rs).
      split; [rewrite H1; reflexivity|]. constructor; [exact I|exact H2].
    + destruct (uploadDocument_fails _ _ _ Hd) as [e ->].
      exists [POST_documents_upload file0 (nth i documentTypes other)].
      split; [reflexivity|]. constructor; [exact I|constructor].
Qed.

(** C3.  When the upload of the document at index [k] is the first one to
    fail, the submission has sent the uploads of the documents 0 to [k], in
    that order, and nothing else: no later upload and no campaign creation.
    The storage is as it was, the page shows the failure of that document
    and is no longer submitting, and no campaign id or route is set. *)
Theorem first_upload_failure_aborts (p : Page.t) (w : World.t) (k : nat) (file : File.t) :
  let documents := FormData.documents (Page.formData p) in
  let documentTypes := FormData.documentTypes (Page.formData p) in
  nth_error documents k = Some file ->
  (forall j fj, (j < k)%nat -> nth_error documents j = Some fj ->
     uploaded (World.upload_backend w (List.length (World.sent w) + j)
                 (POST_documents_upload fj (nth j documentTypes other))) <> None) ->
  uploaded (World.upload_backend w (List.length (World.sent w) + k)
              (POST_documents_upload file (nth k documentTypes other))) = None ->
  exists p' w',
    handleSubmit p w = (Returned p', w')
    /\ World.sent w'
       = (World.sent w ++ firstn (S k) (upload_requests documentTypes 0 documents))%list
    /\ (forall r, In r (World.sent w') -> In r (World.sent w) \/ is_upload r)
    /\ World.localStorage w' = World.localStorage w
    /\ Page.error p' = Some ("Failed to upload document: " ++ File.name file)
    /\ Page.isSubmitting p' = false
    /\ Page.createdCampaignId p' = Page.createdCampaignId p
    /\ Page.pushed p' = Page.pushed p.
Proof.
  intros documents documentTypes Hk Hbefore Hfail.
  unfold handleSubmit, bind, try_catch, submit.
  cbn [Page.formData setError setIsSubmitting]. unfold bind.
  fold documents documentTypes.
  rewrite (upload_from_first_failure documentTypes documents 0 [] w k file Hk Hbefore Hfail).
  do 2 eexists. split; [reflexivity|].
  rewrite after_sending_sent.
  destruct (after_sending_storage
              (firstn (S k) (upload_requests documentTypes 0 documents)) w) as (H1 & _ & _).
  split; [reflexivity|]. split.
  - intros r Hr. apply in_app_or in Hr. destruct Hr as [Hr|Hr]; [left; exact Hr|right].
    destruct (upload_from_sends_uploads documentTypes documents 0 [] w) as [rs [E Hrs]].
    rewrite (upload_from_first_failure documentTypes documents 0 [] w k file Hk Hbefore Hfail) in E.
    cbn [snd] in E. apply (f_equal World.sent) in E. rewrite !after_sending_sent in E.
    apply app_inv_head in E. rewrite E in Hr. rewrite Forall_forall in Hrs. exact (Hrs r Hr).
  - split; [exact H1|]. repeat split.
Qed.

(** ** Priority of the campaigns that the wizard creates *)

Lemma uploads_ask_nothing (rs : list Request) :
  Forall is_upload rs -> Forall asks_normal_priority rs.
Proof.
  apply Forall_impl. intros r. destruct r; cbn; [contradiction|contradiction|trivial].
Qed.

Lemma creation_effect (r : Request) (record : CreateResponse.t -> string -> MockCampaign.t)
    (w : World.t) :
  (forall res t, MockCampaign.priority (record res t) = normal) ->
  let w' := snd (match request r w with
                 | (Returned res, w1) =>
                     (Returned res, snd (saveToLocalIndex (record res (World.now w1)) w1))
                 | (Thrown e, w1) => (Thrown e, w1)
                 end) in
  World.sent w' = (World.sent w ++ [r])%list /\ index_grows_normal w w'.
Proof.
  intros Hrecord. cbv zeta.
  destruct (request r w) as [[res|e] w1] eqn:Hr.
  - destruct (request_returned _ _ _ _ Hr) as [_ ->]. cbn [snd].
    unfold saveToLocalIndex. cbn [World.window World.send].
    destruct (World.window w) eqn:Hw.
    + split; [reflexivity|]. right. eexists. split; [reflexivity|]. apply Hrecord.
    + split; [reflexivity|]. left. reflexivity.
  - rewrite (request_thrown _ _ _ _ Hr). split; [reflexivity|left; reflexivity].
Qed.

Lemma index_grows_normal_after (rs : list Request) (w w' : World.t) :
  index_grows_normal (after_sending rs w) w' -> index_grows_normal w w'.
Proof.
  destruct (after_sending_storage rs w) as (H1 & _ & _).
  unfold index_grows_normal, read_index. rewrite H1. trivial.
Qed.

Lemma snd_bind_ret {A B} (m : M A) (f : A -> B) (w : World.t) :
  snd (bind m (fun a => ret (f a)) w) = snd (m w).
Proof. unfold bind. destruct (m w) as [[a|e] w1]; reflexivity. Qed.

Lemma snd_try_catch_ret {A} (m : M A) (h : exn -> A) (w : World.t) :
  snd (try_catch m (fun e => ret (h e)) w) = snd (m w).
Proof. unfold try_catch. destruct (m w) as [[a|e] w1]; reflexivity. Qed.

(** The world after a submission: the uploads, then the creation if they
    all succeeded. *)
Lemma handleSubmit_world (p : Page.t) (w : World.t) :
  let f := Page.formData p in
  snd (handleSubmit p w)
  = match upload_from 0 (FormData.documents f) (FormData.documentTypes f) [] w with
    | (Returned docs, w1) =>
        let fullDescription :=
          if truthy (FormData.impactPlan f)
          then FormData.description f ++ LF ++ LF ++ "---" ++ LF ++ LF
               ++ "**How Funds Will Be Used:**" ++ LF ++ FormData.impactPlan f
          else FormData.description f in
        match FormData.campaignType f with
        | Some individual =>
            snd (createIndividualCampaign (individual_payload f fullDescription docs) w1)
        | _ => snd (createCharityCampaign (charity_payload f fullDescription docs) w1)
        end
    | (Thrown e, w1) => w1
    end.
Proof.
  cbv zeta. unfold handleSubmit. rewrite snd_bind_ret, snd_try_catch_ret.
  unfold submit. cbn [Page.formData setError setIsSubmitting]. unfold bind at 1.
  destruct (upload_from 0 _ _ [] w) as [[docs|e] w1]; [|reflexivity].
  rewrite snd_bind_ret. destruct (FormData.campaignType (Page.formData p)) as [[|]|]; reflexivity.
Qed.

(** Whatever the page holds and whatever the backend answers, a submission
    only sends uploads and at most one creation request, which asks for the
    priority "normal"; the record it may add to the index has that
    priority. *)
Lemma handleSubmit_effect (p : Page.t) (w : World.t) :
  let w' := snd (handleSubmit p w) in
  (exists rs, World.sent w' = (World.sent w ++ rs)%list /\ Forall asks_normal_priority rs)
  /\ index_grows_normal w w'.
Proof.
  cbv zeta. rewrite handleSubmit_world. cbv zeta.
  set (f := Page.formData p).
  destruct (upload_from_sends_uploads (FormData.documentTypes f) (FormData.documents f)
              0 [] w) as [rs [Hw1 Hrs]].
  destruct (upload_from 0 (FormData.documents f) (FormData.documentTypes f) [] w)
    as [[docs|e] w1]; cbn [snd] in Hw1; subst w1.
  - set (fullDescription := if truthy (FormData.impactPlan f) then _ else _).
    assert (Hcharity :
      let w' := snd (createCharityCampaign (charity_payload f fullDescription docs)
                       (after_sending rs w)) in
      (exists rs0, World.sent w' = (World.sent w ++ rs0)%list
                   /\ Forall asks_normal_priority rs0)
      /\ index_grows_normal w w').
    { cbv zeta. rewrite createCharityCampaign_run.
      destruct (creation_effect
                  (POST_campaigns_charity (charity_payload f fullDescription docs))
                  (charity_record (charity_payload f fullDescription docs))
                  (after_sending rs w) (fun _ _ => eq_refl)) as [Hs Hi].
      cbv zeta in Hs, Hi.
      split; [|apply (index_grows_normal_after rs); exact Hi].
      exists (rs ++ [POST_campaigns_charity (charity_payload f fullDescription docs)])%list.
      rewrite Hs, after_sending_sent, <- app_assoc. split; [reflexivity|].
      apply Forall_app. split; [apply uploads_ask_nothing; exact Hrs|].
      constructor; [reflexivity|constructor]. }
    destruct (FormData.campaignType f) as [[|]|]; [|exact Hcharity|exact Hcharity].
    rewrite createIndividualCampaign_run.
    destruct (creation_effect
                (POST_campaigns_individual (individual_payload f fullDescription docs))
                (individual_record (individual_payload f fullDescription docs))
                (after_sending rs w) (fun _ _ => eq_refl)) as [Hs Hi].
    cbv zeta in Hs, Hi.
    split; [|apply (index_grows_normal_after rs); exact Hi].
    exists (rs ++ [POST_campaigns_individual (individual_payload f fullDescription docs)])%list.
    rewrite Hs, after_sending_sent, <- app_assoc. split; [reflexivity|].
    apply Forall_app. split; [apply uploads_ask_nothing; exact Hrs|].
    constructor; [reflexivity|constructor].
  - cbn [snd]. split.
    + exists rs. rewrite after_sending_sent. split; [reflexivity|].
      apply uploads_ask_nothing. exact Hrs.
    + apply (index_grows_normal_after rs). left. reflexivity.
Qed.


(** ** Comparing numbers *)

Lemma Qcompare_Lt_true (p q : Q) :
  match (p ?= q)%Q with Lt => true | _ => false end = true <-> (p < q)%Q.
Proof. rewrite Qlt_alt. destruct (p ?= q)%Q; split; congruence. Qed.

Lemma Qcompare_not_Gt_true (p q : Q) :
  match (p ?= q)%Q with Gt => false | _ => true end = true <-> (p <= q)%Q.
Proof. rewrite Qle_alt. destruct (p ?= q)%Q; split; congruence. Qed.

Lemma js_lt_Num (p q : Q) : lt (Num p) (Num q) = true <-> (p < q)%Q.
Proof. apply Qcompare_Lt_true. Qed.

Lemma js_le_Num (p q : Q) : le (Num p) (Num q) = true <-> (p <= q)%Q.
Proof. apply Qcompare_not_Gt_true. Qed.

Lemma js_lt_ToNumber (a b : number) : lt a b = lt (ToNumber a) (ToNumber b).
Proof. destruct a, b; reflexivity. Qed.

Lemma js_le_ToNumber (a b : number) : le a b = le (ToNumber a) (ToNumber b).
Proof. destruct a, b; reflexivity. Qed.

Lemma ToNumber_cases (a : number) :
  ToNumber a = NaN \/ (exists n, ToNumber a = Inf n) \/ (exists q, ToNumber a = Num q).
Proof. destruct a; cbn; eauto. Qed.

Ltac number_cases a :=
  let n := fresh "n" in let q := fresh "q" in
  destruct (ToNumber_cases a) as [->|[[n ->]|[q ->]]].

Lemma js_lt_le (a b : number) : lt a b = true -> le a b = true.
Proof.
  rewrite js_lt_ToNumber, js_le_ToNumber. number_cases a; number_cases b;
    try discriminate;
    try (cbn; repeat match goal with x : bool |- _ => destruct x end; cbn; congruence).
  rewrite js_lt_Num, js_le_Num. apply Qlt_le_weak.
Qed.

Lemma js_le_of_not_lt (a b : number) :
  finite a -> finite b -> lt a b = false -> le b a = true.
Proof.
  intros [p Hp] [q Hq]. rewrite js_lt_ToNumber, js_le_ToNumber, Hp, Hq. intros H.
  apply js_le_Num. apply Qnot_lt_le. intros Hlt. apply js_lt_Num in Hlt. congruence.
Qed.

Lemma js_le_trans (a b c : number) : le a b = true -> le b c = true -> le a c = true.
Proof.
  rewrite (js_le_ToNumber a b), (js_le_ToNumber b c), (js_le_ToNumber a c).
  number_cases a; number_cases b; number_cases c; try discriminate;
    try (cbn; repeat match goal with x : bool |- _ => destruct x end; cbn; congruence).
  rewrite !js_le_Num. apply Qle_trans.
Qed.

Lemma sub_finite (a b : number) (p q : Q) :
  ToNumber a = Num p -> ToNumber b = Num q -> sub a b = Num (Qred (p + Qred (- q))).
Proof. intros Ha Hb. unfold sub, add, neg. rewrite Ha, Hb. reflexivity. Qed.

(** The sign test that a sort makes on a difference of finite numbers. *)
Lemma positive_difference (a b : number) :
  finite a -> finite b -> lt (num 0) (sub a b) = lt b a.
Proof.
  intros [p Hp] [q Hq]. rewrite (sub_finite a b p q Hp Hq), (js_lt_ToNumber b a), Hp, Hq.
  apply eq_true_iff_eq. unfold num. rewrite !js_lt_Num, !Qred_correct.
  change (inject_Z 0) with 0%Q. split; intros H; lra.
Qed.

Lemma js_lt_num (x y : Z) : lt (num x) (num y) = (x <? y).
Proof.
  apply eq_true_iff_eq. unfold num. rewrite js_lt_Num, <- Zlt_Qlt. symmetry. apply Z.ltb_lt.
Qed.

Lemma finite_num (z : Z) : finite (num z).
Proof. exists (inject_Z z). reflexivity. Qed.

(** ** Sorting *)

Section SortFacts.
Context {A : Type}.
Variable comparefn : A -> A -> number.

Lemma insert_permutation (x : A) (l : list A) : Permutation (x :: l) (insert comparefn x l).
Proof.
  induction l as [|y l IH]; [reflexivity|]. cbn [insert].
  destruct (gt (SortCompare comparefn x y) (num 0)); [|reflexivity].
  rewrite perm_swap. apply perm_skip. exact IH.
Qed.

Lemma sort_permutation (l : list A) : Permutation l (sort comparefn l).
Proof.
  induction l as [|x l IH]; [reflexivity|]. cbn [sort fold_right].
  rewrite <- insert_permutation. apply perm_skip. exact IH.
Qed.

(** A comparator that follows the order [R] on the elements that [P]
    holds of: [x] is put after [y] only if [R y x], and left before it only
    if [R x y]. *)
Variable P : A -> Prop.
Variable R : A -> A -> Prop.
Hypothesis R_transitive : forall x y z, R x y -> R y z -> R x z.
Hypothesis put_after :
  forall x y, P x -> P y -> gt (SortCompare comparefn x y) (num 0) = true -> R y x.
Hypothesis left_before :
  forall x y, P x -> P y -> gt (SortCompare comparefn x y) (num 0) = false -> R x y.

Lemma insert_sorted (x : A) (l : list A) :
  P x -> Forall P l -> StronglySorted R l -> StronglySorted R (insert comparefn x l).
Proof.
  intros Hx HP Hs. induction Hs as [|y l Hs IH Hy]; cbn [insert].
  - constructor; constructor.
  - apply Forall_cons_iff in HP. destruct HP as [Py Pl].
    destruct (gt (SortCompare comparefn x y) (num 0)) eqn:E.
    + constructor; [exact (IH Pl)|].
      apply (Permutation_Forall (insert_permutation x l)).
      constructor; [exact (put_after x y Hx Py E)|exact Hy].
    + constructor; [constructor; assumption|].
      constructor; [exact (left_before x y Hx Py E)|].
      revert Hy. apply Forall_impl. intros z. apply R_transitive.
      exact (left_before x y Hx Py E).
Qed.

Lemma sort_sorted (l : list A) : Forall P l -> StronglySorted R (sort comparefn l).
Proof.
  induction 1 as [|x l Hx Hl IH]; [constructor|]. cbn [sort fold_right].
  apply insert_sorted; [exact Hx| |exact IH].
  apply (Permutation_Forall (sort_permutation l)). exact Hl.
Qed.
End SortFacts.

(** The result of a comparator that is a difference of finite keys: the
    first argument goes after the second exactly when the subtrahend is the
    smaller key. *)
Lemma after_difference (a b : number) :
  finite a -> finite b ->
  gt (match ToNumber (sub a b) with NaN => num 0 | v => v end) (num 0) = lt b a.
Proof.
  intros Ha Hb. rewrite <- (positive_difference a b Ha Hb).
  destruct Ha as [p Hp], Hb as [q Hq]. rewrite (sub_finite a b p q Hp Hq). reflexivity.
Qed.

Section Orderings.
Variable Date_parse : string -> number.

Lemma after_newest (x y : Campaign.t) :
  finite (created Date_parse x) -> finite (created Date_parse y) ->
  gt (SortCompare (compare_newest Date_parse) x y) (num 0)
  = lt (created Date_parse x) (created Date_parse y).
Proof. intros Hx Hy. apply (after_difference _ _ Hy Hx). Qed.

Lemma after_funded (x y : Campaign.t) :
  finite (Campaign.raised x) -> finite (Campaign.raised y) ->
  gt (SortCompare compare_funded x y) (num 0) = lt (Campaign.raised x) (Campaign.raised y).
Proof. intros Hx Hy. apply (after_difference _ _ Hy Hx). Qed.

Lemma after_ending (x y : Campaign.t) :
  finite (Campaign.daysLeft x) -> finite (Campaign.daysLeft y) ->
  gt (SortCompare compare_ending x y) (num 0)
  = lt (Campaign.daysLeft y) (Campaign.daysLeft x).
Proof. intros Hx Hy. apply (after_difference _ _ Hx Hy). Qed.

Lemma after_priority (x y : Campaign.t) :
  finite (Campaign.daysLeft x) -> finite (Campaign.daysLeft y) ->
  gt (SortCompare compare_priority x y) (num 0)
  = if Bool.eqb (Campaign.isHighPriority x) (Campaign.isHighPriority y)
    then lt (Campaign.daysLeft y) (Campaign.daysLeft x)
    else negb (Campaign.isHighPriority x).
Proof.
  intros Hx Hy. unfold SortCompare, compare_priority.
  destruct (Bool.eqb _ _); cbn [negb].
  - apply (after_difference _ _ Hx Hy).
  - destruct (Campaign.isHighPriority x); reflexivity.
Qed.

Lemma newest_sorted (l : list Campaign.t) :
  Forall (fun c => finite (created Date_parse c)) l ->
  StronglySorted (newest_first Date_parse) (sort (compare_newest Date_parse) l).
Proof.
  apply sort_sorted.
  - intros x y z Hxy Hyz. exact (js_le_trans _ _ _ Hyz Hxy).
  - intros x y Hx Hy. rewrite (after_newest x y Hx Hy). apply js_lt_le.
  - intros x y Hx Hy. rewrite (after_newest x y Hx Hy). apply (js_le_of_not_lt _ _ Hx Hy).
Qed.

Lemma funded_sorted (l : list Campaign.t) :
  Forall (fun c => finite (Campaign.raised c)) l ->
  StronglySorted most_funded_first (sort compare_funded l).
Proof.
  apply sort_sorted.
  - intros x y z Hxy Hyz. exact (js_le_trans _ _ _ Hyz Hxy).
  - intros x y Hx Hy. rewrite (after_funded x y Hx Hy). apply js_lt_le.
  - intros x y Hx Hy. rewrite (after_funded x y Hx Hy). apply (js_le_of_not_lt _ _ Hx Hy).
Qed.

Lemma ending_sorted (l : list Campaign.t) :
  Forall (fun c => finite (Campaign.daysLeft c)) l ->
  StronglySorted ending_first (sort compare_ending l).
Proof.
  apply sort_sorted.
  - intros x y z. apply js_le_trans.
  - intros x y Hx Hy. rewrite (after_ending x y Hx Hy). apply js_lt_le.
  - intros x y Hx Hy. rewrite (after_ending x y Hx Hy). apply (js_le_of_not_lt _ _ Hy Hx).
Qed.

Lemma priority_first_transitive (x y z : Campaign.t) :
  priority_first x y -> priority_first y z -> priority_first x z.
Proof.
  unfold priority_first, ending_first.
  intros [[H1 H2]|[H1 H2]] [[H3 H4]|[H3 H4]].
  - congruence.
  - left. split; congruence.
  - left. split; congruence.
  - right. split; [congruence|exact (js_le_trans _ _ _ H2 H4)].
Qed.

Lemma priority_sorted (l : list Campaign.t) :
  Forall (fun c => finite (Campaign.daysLeft c)) l ->
  StronglySorted priority_first (sort compare_priority l).
Proof.
  apply sort_sorted.
  - exact priority_first_transitive.
  - intros x y Hx Hy. rewrite (after_priority x y Hx Hy). unfold priority_first, ending_first.
    destruct (Campaign.isHighPriority x), (Campaign.isHighPriority y); cbn; intros H;
      try discriminate; auto using js_lt_le.
  - intros x y Hx Hy. rewrite (after_priority x y Hx Hy). unfold priority_first, ending_first.
    destruct (Campaign.isHighPriority x), (Campaign.isHighPriority y); cbn; intros H;
      try discriminate; auto using js_le_of_not_lt.
Qed.
End Orderings.

(** The amounts of the campaigns loaded from a stored index are finite:
    the "funded" ordering applies to every such collection. *)
Lemma loaded_amounts_are_finite (Date_parse : string -> number) (now : Z)
    (index : list MockCampaign.t) :
  Forall JSON_value index ->
  Forall (fun c => finite (Campaign.raised c))
    (map (apiToFrontendCampaign Date_parse now) index).
Proof.
  intros H. apply Forall_map. revert H. apply Forall_impl. intros c Hc.
  cbn [apiToFrontendCampaign Campaign.raised]. rewrite <- Hc. cbn.
  destruct (MockCampaign.raised_amount c); eexists; reflexivity.
Qed.

(** C4 (as amended).  The ordering step, on campaigns whose sort keys are
    finite numbers (valid dates, amounts, days), gives a rearrangement of its
    input that is in order: by [created_at] descending for "newest", by
    [raised_amount] descending for "funded", and for "priority" with the
    high-priority entries before the normal ones and by days remaining
    ascending within each tier.  In particular campaigns created at
    t1 < t2 < t3 come out as t3, t2, t1; raised amounts 10, 50, 5 come out
    as 50, 10, 5; and of one high-priority and two normal campaigns with the
    same days left, in any order, the high-priority one comes out first. *)
Theorem sorting_orders (Date_parse : string -> number) :
  (forall result,
     Forall (fun c => finite (created Date_parse c)) result ->
     Permutation result (sorting Date_parse newest result)
     /\ StronglySorted (newest_first Date_parse) (sorting Date_parse newest result))
  /\ (forall result,
     Forall (fun c => finite (Campaign.raised c)) result ->
     Permutation result (sorting Date_parse funded result)
     /\ StronglySorted most_funded_first (sorting Date_parse funded result))
  /\ (forall result,
     Forall (fun c => finite (Campaign.daysLeft c)) result ->
     Permutation result (sorting Date_parse priority result)
     /\ StronglySorted priority_first (sorting Date_parse priority result))
  /\ (forall c1 c2 c3 t1 t2 t3,
     created Date_parse c1 = num t1 -> created Date_parse c2 = num t2 ->
     created Date_parse c3 = num t3 -> t1 < t2 < t3 ->
     sorting Date_parse newest [c1; c2; c3] = [c3; c2; c1])
  /\ (forall c1 c2 c3,
     Campaign.raised c1 = num 10 -> Campaign.raised c2 = num 50 ->
     Campaign.raised c3 = num 5 ->
     sorting Date_parse funded [c1; c2; c3] = [c2; c1; c3])
  /\ (forall h n1 n2 d result,
     Campaign.isHighPriority h = true -> Campaign.isHighPriority n1 = false ->
     Campaign.isHighPriority n2 = false ->
     Campaign.daysLeft h = num d -> Campaign.daysLeft n1 = num d ->
     Campaign.daysLeft n2 = num d ->
     Permutation result [h; n1; n2] ->
     exists rest, sorting Date_parse priority result = h :: rest).
Proof.
  repeat split.
  - apply sort_permutation.
  - apply newest_sorted. assumption.
  - apply sort_permutation.
  - apply funded_sorted. assumption.
  - apply sort_permutation.
  - apply priority_sorted. assumption.
  - intros c1 c2 c3 t1 t2 t3 H1 H2 H3 Ht.
    assert (F1 : finite (created Date_parse c1)) by (rewrite H1; apply finite_num).
    assert (F2 : finite (created Date_parse c2)) by (rewrite H2; apply finite_num).
    assert (F3 : finite (created Date_parse c3)) by (rewrite H3; apply finite_num).
    unfold sorting, sort. cbn [fold_right insert].
    rewrite (after_newest _ c2 c3 F2 F3), H2, H3, js_lt_num.
    replace (t2 <? t3) with true by (symmetry; apply Z.ltb_lt; lia).
    cbn [insert].
    rewrite (after_newest _ c1 c3 F1 F3), H1, H3, js_lt_num.
    replace (t1 <? t3) with true by (symmetry; apply Z.ltb_lt; lia).
    rewrite (after_newest _ c1 c2 F1 F2), H1, H2, js_lt_num.
    replace (t1 <? t2) with true by (symmetry; apply Z.ltb_lt; lia).
    reflexivity.
  - intros c1 c2 c3 H1 H2 H3.
    assert (F1 : finite (Campaign.raised c1)) by (rewrite H1; apply finite_num).
    assert (F2 : finite (Campaign.raised c2)) by (rewrite H2; apply finite_num).
    assert (F3 : finite (Campaign.raised c3)) by (rewrite H3; apply finite_num).
    unfold sorting, sort. cbn [fold_right insert].
    rewrite (after_funded c2 c3 F2 F3), H2, H3, js_lt_num.
    change (50 <? 5) with false. cbn [insert].
    rewrite (after_funded c1 c2 F1 F2), H1, H2, js_lt_num.
    change (10 <? 50) with true. cbn [insert].
    rewrite (after_funded c1 c3 F1 F3), H1, H3, js_lt_num. reflexivity.
  - intros h n1 n2 d result Hh Hn1 Hn2 Dh D1 D2 Hperm.
    assert (Hfin : Forall (fun c => finite (Campaign.daysLeft c)) result).
    { apply (Permutation_Forall (Permutation_sym Hperm)).
      repeat constructor; [rewrite Dh|rewrite D1|rewrite D2]; apply finite_num. }
    assert (Hs := priority_sorted result Hfin).
    assert (Hp : Permutation [h; n1; n2] (sorting Date_parse priority result)).
    { rewrite <- Hperm. apply sort_permutation. }
    unfold sorting in *. destruct (sort compare_priority result) as [|x rest].
    + apply Permutation_length in Hp. discriminate.
    + exists rest. f_equal.
      assert (Hx : In x [h; n1; n2])
        by (apply (Permutation_in _ (Permutation_sym Hp)); left; reflexivity).
      assert (Hin : In h (x :: rest))
        by (apply (Permutation_in _ Hp); left; reflexivity).
      destruct Hin as [E|Hin]; [exact E|].
      apply StronglySorted_inv in Hs. destruct Hs as [_ Hall].
      rewrite Forall_forall in Hall. specialize (Hall h Hin).
      destruct Hx as [E|[E|[E|[]]]]; [exact (eq_sym E)| |]; subst x;
        destruct Hall as [[Ha _]|[Ha _]]; congruence.
Qed.

(** ** Days remaining *)

Lemma Qzero_b_false (q : Q) : ~ (q == 0)%Q -> Qzero_b q = false.
Proof.
  intros H. unfold Qzero_b. destruct (q ?= 0)%Q eqn:E; try reflexivity.
  apply Qeq_alt in E. contradiction.
Qed.

(** A whole number of milliseconds within the range of a Date is its own
    time value. *)
Lemma TimeClip_integer (q : Q) (z : Z) :
  (q == inject_Z z)%Q -> Z.abs z <= 8640000000000000 -> TimeClip (Num q) = num z.
Proof.
  intros Hq Hz. unfold TimeClip. cbn [ToNumber].
  assert (Hle : Qle_bool (Qabs q) (inject_Z 8640000000000000) = true).
  { apply Qle_bool_iff. rewrite Hq. apply Qabs_Qle_condition.
    rewrite <- inject_Z_opp, <- !Zle_Qle. lia. }
  rewrite Hle, (Qceiling_comp _ _ Hq), (Qfloor_comp _ _ Hq), Qceiling_Z, Qfloor_Z.
  destruct (Qneg_b q); reflexivity.
Qed.

(** The days left computed from an end time that is a whole number. *)
Lemma daysLeft_of_end_time (e now : Z) :
  Math.max (num 0) (Math.ceil (div (sub (num e) (num now)) (num (1000 * 60 * 60 * 24))))
  = num (days_remaining e now).
Proof.
  rewrite (sub_finite (num e) (num now) _ _ eq_refl eq_refl).
  unfold div. cbn [ToNumber num].
  rewrite Qzero_b_false by discriminate.
  unfold Math.ceil. cbn [ToNumber]. unfold Math.max. cbn [ToNumber num].
  assert (E : Qceiling (Qred (Qred (inject_Z e + Qred (- inject_Z now))
                              / inject_Z (1000 * 60 * 60 * 24)))
              = Qceiling (inject_Z (e - now) / inject_Z one_day)).
  { apply Qceiling_comp. rewrite !Qred_correct.
    unfold Z.sub. rewrite inject_Z_plus, inject_Z_opp. reflexivity. }
  rewrite E. unfold days_remaining.
  change (Num (inject_Z 0)) with (num 0).
  fold (num (Qceiling (inject_Z (e - now) / inject_Z one_day))).
  rewrite js_lt_num. destruct (Z.ltb_spec 0 (Qceiling (inject_Z (e - now) / inject_Z one_day))).
  - rewrite Z.max_r by lia. reflexivity.
  - rewrite Z.max_l by lia. reflexivity.
Qed.

Lemma end_of_duration (t d : Z) (v : number) :
  ToNumber v = num d ->
  Z.abs (t + d * one_day) <= 8640000000000000 ->
  TimeClip (add (num t) (mul v (num 86400000))) = num (t + d * one_day).
Proof.
  intros Hv H. unfold mul, add. rewrite Hv. cbn [ToNumber num].
  apply TimeClip_integer; [|exact H].
  rewrite !Qred_correct, inject_Z_plus, inject_Z_mult. reflexivity.
Qed.

(** C5 (as amended).  For a clock that reads a time from 1970 on, the days
    remaining of a campaign record are the ceiling of (end date - now) /
    one day, floored at 0, when the record gives a valid end.  The end date
    is the explicit one when the record has one (a non-empty text that is a
    valid date); otherwise it is [created_at] plus [duration_days] days,
    [created_at] being a valid date, [duration_days] a whole number (a
    missing one, [null], counting as 0) and the sum within the range of a
    Date. *)
Theorem days_left (Date_parse : string -> number) (now : Z) (c : MockCampaign.t) :
  0 <= now ->
  (forall s e,
     MockCampaign.end_date c = Some s -> s <> "" ->
     getTime_of_string Date_parse s = num e ->
     Campaign.daysLeft (apiToFrontendCampaign Date_parse now c) = num (days_remaining e now))
  /\
  (forall t d,
     MockCampaign.end_date c = None \/ MockCampaign.end_date c = Some "" ->
     getTime_of_string Date_parse (MockCampaign.created_at c) = num t ->
     ToNumber (MockCampaign.duration_days c) = num d ->
     Z.abs (t + d * one_day) <= 8640000000000000 ->
     Campaign.daysLeft (apiToFrontendCampaign Date_parse now c)
     = num (days_remaining (t + d * one_day) now)).
Proof.
  intros _. split.
  - intros s e Hs Hne He. unfold apiToFrontendCampaign. cbn [Campaign.daysLeft].
    rewrite Hs. destruct s as [|ch s]; [congruence|]. rewrite He.
    apply daysLeft_of_end_time.
  - intros t d Hs Ht Hd Hrange. unfold apiToFrontendCampaign. cbn [Campaign.daysLeft].
    assert (E : match MockCampaign.end_date c with
                | Some (String _ _ as end_date) => getTime_of_string Date_parse end_date
                | _ => TimeClip (add (getTime_of_string Date_parse (MockCampaign.created_at c))
                                     (mul (MockCampaign.duration_days c) (num 86400000)))
                end = num (t + d * one_day)).
    { destruct Hs as [-> | ->]; rewrite Ht; apply end_of_duration; assumption. }
    rewrite E. apply daysLeft_of_end_time.
Qed.

(** ** Priority of the campaigns that the wizard creates, on the browse page *)

Lemma StronglySorted_suffix {A} (R : A -> A -> Prop) (l1 l2 : list A) :
  StronglySorted R (l1 ++ l2) -> StronglySorted R l2.
Proof.
  induction l1 as [|x l1 IH]; [trivial|]. cbn. intros H.
  apply StronglySorted_inv in H. apply IH. apply H.
Qed.

Lemma sorting_permutation (Date_parse : string -> number) (sortBy : SortOption)
    (result : list Campaign.t) :
  Permutation result (sorting Date_parse sortBy result).
Proof. destruct sortBy; apply sort_permutation. Qed.

(** The high-priority-only filter keeps high-priority campaigns only. *)
Lemma priorityOnly_keeps_high (Date_parse : string -> number) (campaigns : list Campaign.t)
    (searchQuery categoryFilter : string) (sortBy : SortOption) (x : Campaign.t) :
  In x (filteredCampaigns Date_parse campaigns searchQuery categoryFilter sortBy true) ->
  Campaign.isHighPriority x = true.
Proof.
  unfold filteredCampaigns. intros H.
  apply (Permutation_in _ (Permutation_sym (sorting_permutation _ _ _))) in H.
  apply filter_In in H. apply H.
Qed.

(** C10.  Whatever the page holds and whatever the backend answers, a
    submission of the wizard sends, besides uploads, at most one creation
    request, and that request asks for the priority "normal"; the record
    that it may put in front of the index has the priority "normal".  The
    creation operations store "normal" for a request without a priority.
    A record of priority "normal" is shown as not high-priority: the
    high-priority-only filter never retains it, and in the "priority"
    ordering no high-priority campaign comes after it. *)
Theorem wizard_campaigns_are_normal (p : Page.t) (w : World.t) :
  let w' := snd (handleSubmit p w) in
  (exists rs, World.sent w' = (World.sent w ++ rs)%list /\ Forall asks_normal_priority rs)
  /\ index_grows_normal w w'
  /\ (forall data res t,
        IndividualCampaignCreateRequest.priority data = None ->
        MockCampaign.priority (individual_record data res t) = normal)
  /\ (forall data res t,
        CharityCampaignCreateRequest.priority data = None ->
        MockCampaign.priority (charity_record data res t) = normal)
  /\ (forall Date_parse now c,
        MockCampaign.priority c = normal ->
        let x := apiToFrontendCampaign Date_parse now c in
        Campaign.isHighPriority x = false
        /\ (forall campaigns searchQuery categoryFilter sortBy,
              ~ In x (filteredCampaigns Date_parse campaigns searchQuery categoryFilter
                        sortBy true))
        /\ (forall result before after,
              Forall (fun y => finite (Campaign.daysLeft y)) result ->
              sorting Date_parse priority result = (before ++ x :: after)%list ->
              Forall (fun y => Campaign.isHighPriority y = false) after)).
Proof.
  cbv zeta. destruct (handleSubmit_effect p w) as [H1 H2].
  split; [exact H1|]. split; [exact H2|].
  split; [intros data res t H; cbn; rewrite H; reflexivity|].
  split; [intros data res t H; cbn; rewrite H; reflexivity|].
  intros Date_parse now c Hc.
  assert (Hx : Campaign.isHighPriority (apiToFrontendCampaign Date_parse now c) = false)
    by (cbn; rewrite Hc; reflexivity).
  split; [exact Hx|]. split.
  - intros campaigns searchQuery categoryFilter sortBy Hin.
    apply priorityOnly_keeps_high in Hin. congruence.
  - intros result before after Hfin Hsorted.
    assert (Hs := priority_sorted result Hfin).
    unfold sorting in Hsorted. rewrite Hsorted in Hs.
    apply StronglySorted_suffix, StronglySorted_inv in Hs. destruct Hs as [_ Hall].
    revert Hall. apply Forall_impl. intros y [[Ha _]|[Ha _]]; congruence.
Qed.


(** ** The properties on the sample data *)

(** The form of Maria has a target amount that parses, and passes the step
    "basic info". *)
Lemma validateStep_basic_info_maria :
  (FormData.targetAmount (Page.formData (page 1 maria)) = ""
   \/ parseFloat (FormData.targetAmount (Page.formData (page 1 maria))) <> NaN)
  /\ validateStep 1 (page 1 maria) = (true, page 1 maria)
  /\ Page.currentStep (nextStep (page 1 maria)) = 2%nat.
Proof.
  assert (H : FormData.targetAmount (Page.formData (page 1 maria)) = ""
              \/ parseFloat (FormData.targetAmount (Page.formData (page 1 maria))) <> NaN)
    by (right; vm_compute; discriminate).
  split; [exact H|].
  destruct (validateStep_basic_info (page 1 maria) H) as [Hv Hn].
  split; [exact Hv|]. apply Hn; reflexivity.
Defined.

(** C1, as stated, fails on a title of three spaces: every rule in the
    words of the specification holds of the form, and the code refuses it
    with the message of the title rule. *)
Lemma blank_title_is_refused :
  first_violation (basic_info_rules_as_stated blank_title) = None
  /\ outcome (basic_info_rules_as_stated blank_title) (page 1 blank_title)
     = (true, page 1 blank_title)
  /\ validateStep 1 (page 1 blank_title)
     = (false, setError (Some "Title must be at least 3 characters") (page 1 blank_title)).
Proof. repeat split; reflexivity. Qed.

(** In the browser, the creation of Maria's campaign returns and its
    record is at the head of the index. *)
Lemma successful_creation_is_indexed_maria :
  let w' := snd (createIndividualCampaign maria_request browser) in
  createIndividualCampaign maria_request browser = (Returned receipt, w')
  /\ World.window browser = true
  /\ exists c,
       read_index w' = c :: map JSON_roundtrip (read_index browser)
       /\ (well_formed browser -> read_index w' = c :: read_index browser)
       /\ c = JSON_roundtrip (individual_record maria_request receipt (World.now browser))
       /\ newly_stored c browser receipt individual.
Proof.
  cbv zeta.
  assert (H : createIndividualCampaign maria_request browser
              = (Returned receipt, snd (createIndividualCampaign maria_request browser)))
    by reflexivity.
  split; [exact H|]. split; [reflexivity|].
  destruct (successful_creation_is_indexed browser
              (snd (createIndividualCampaign maria_request browser)) receipt) as [Hind _].
  destruct (Hind maria_request H) as [Hwin _]. apply Hwin. reflexivity.
Defined.

(** C2, as stated, fails without a [window]: the creation returns and no
    record is put in the index. *)
Lemma creation_without_window_stores_nothing :
  exists w',
    createIndividualCampaign maria_request no_window = (Returned receipt, w')
    /\ read_index w' = [].
Proof. eexists. split; reflexivity. Qed.

(** The second of three uploads fails: two uploads are sent, no creation,
    and the storage stays empty. *)
Lemma first_upload_failure_aborts_second_of_three :
  let p := page 5 three_documents in
  let w := second_upload_fails in
  nth_error (FormData.documents (Page.formData p)) 1 = Some letter
  /\ exists p' w',
      handleSubmit p w = (Returned p', w')
      /\ World.sent w' = [POST_documents_upload bill medical_bill;
                          POST_documents_upload letter hospital_letter]
      /\ World.localStorage w' = None
      /\ Page.error p' = Some "Failed to upload document: letter.pdf".
Proof.
  cbv zeta. split; [reflexivity|].
  destruct (first_upload_failure_aborts (page 5 three_documents) second_upload_fails
              1 letter) as (p' & w' & H1 & H2 & _ & H3 & H4 & _).
  - reflexivity.
  - intros j fj Hj Hfj. assert (j = 0%nat) by lia. subst j.
    injection Hfj as <-. discriminate.
  - reflexivity.
  - exists p', w'. repeat split; assumption.
Defined.

(** Three campaigns created on three successive days, the dates read by
    [Date_parse_ISO], in each of the three orderings. *)
Lemma sorting_orders_three_days :
  let c1 := campaign "a" "2026-11-03T00:00:00.000Z" 10 7 false in
  let c2 := campaign "b" "2026-11-04T00:00:00.000Z" 50 7 true in
  let c3 := campaign "c" "2026-11-05T00:00:00.000Z" 5 7 false in
  (created Date_parse_ISO c1 = num day0 /\ created Date_parse_ISO c2 = num day1
   /\ created Date_parse_ISO c3 = num day2 /\ day0 < day1 < day2)
  /\ sorting Date_parse_ISO newest [c1; c2; c3] = [c3; c2; c1]
  /\ sorting Date_parse_ISO funded [c1; c2; c3] = [c2; c1; c3]
  /\ (exists rest, sorting Date_parse_ISO priority [c1; c2; c3] = c2 :: rest)
  /\ StronglySorted (newest_first Date_parse_ISO) (sorting Date_parse_ISO newest [c1; c2; c3]).
Proof.
  cbv zeta.
  destruct (sorting_orders Date_parse_ISO) as (Hnewest & _ & _ & Hex1 & Hex2 & Hex3).
  assert (Ht : day0 < day1 < day2) by (unfold day0, day1, day2; lia).
  split; [repeat split; try reflexivity; apply Ht|].
  split; [apply (Hex1 _ _ _ day0 day1 day2); try reflexivity; exact Ht|].
  split; [apply Hex2; reflexivity|].
  split.
  - apply (Hex3 _ (campaign "a" "2026-11-03T00:00:00.000Z" 10 7 false)
                  (campaign "c" "2026-11-05T00:00:00.000Z" 5 7 false) 7);
      try reflexivity.
    apply perm_swap.
  - apply Hnewest. repeat constructor; eexists; reflexivity.
Defined.

(** In a sorted list, two entries are the same or one may come before the
    other. *)
Lemma StronglySorted_related {A} (R : A -> A -> Prop) (l : list A) (x y : A) :
  StronglySorted R l -> In x l -> In y l -> x = y \/ R x y \/ R y x.
Proof.
  induction 1 as [|a l Hl IH Ha]; intros Hx Hy; [contradiction|].
  rewrite Forall_forall in Ha.
  destruct Hx as [<-|Hx], Hy as [<-|Hy]; auto.
Qed.

(** C4, as stated, fails on a collection with a campaign whose days
    remaining are not a number.  The index holds three campaigns of normal
    priority created the same day, for 5 days, for 10^20 days (what the
    wizard stores for a duration of 21 digits) and for 3 days; the second
    one loads with NaN for its days remaining.  The ordering "priority"
    leaves the list as it is, the campaign with 5 days left before the one
    with 3; and no arrangement of these campaigns is sorted by priority and
    days remaining. *)
Lemma priority_order_needs_days_left :
  let loaded := map (apiToFrontendCampaign Date_parse_ISO day0) three_durations in
  fst (fetchCampaigns Date_parse_ISO day0 (World.setItem three_durations browser))
  = Returned loaded
  /\ map Campaign.daysLeft loaded = [num 5; NaN; num 3]
  /\ map Campaign.isHighPriority loaded = [false; false; false]
  /\ map Campaign.id (sorting Date_parse_ISO priority loaded) = ["a"; "b"; "c"]
  /\ ~ StronglySorted priority_first (sorting Date_parse_ISO priority loaded)
  /\ (forall l, Permutation l loaded -> ~ StronglySorted priority_first l).
Proof.
  cbv zeta.
  assert (Hnone : forall l,
            Permutation l (map (apiToFrontendCampaign Date_parse_ISO day0) three_durations) ->
            ~ StronglySorted priority_first l).
  { intros l Hl Hsorted.
    destruct (StronglySorted_related _ l
                (apiToFrontendCampaign Date_parse_ISO day0
                   (stored "a" "2026-11-03T00:00:00.000Z" 5 normal))
                (apiToFrontendCampaign Date_parse_ISO day0
                   (stored "b" "2026-11-03T00:00:00.000Z" (10 ^ 20) normal)) Hsorted)
      as [H|[H|H]].
    - apply (Permutation_in _ (Permutation_sym Hl)). left. reflexivity.
    - apply (Permutation_in _ (Permutation_sym Hl)). right. left. reflexivity.
    - apply (f_equal Campaign.id) in H. discriminate H.
    - destruct H as [[H _]|[_ H]]; [discriminate H|].
      unfold ending_first in H. vm_compute in H. discriminate H.
    - destruct H as [[H _]|[_ H]]; [discriminate H|].
      unfold ending_first in H. vm_compute in H. discriminate H. }
  split; [reflexivity|]. split; [vm_compute; reflexivity|].
  split; [reflexivity|]. split; [vm_compute; reflexivity|].
  split; [|exact Hnone].
  apply Hnone. apply Permutation_sym, sorting_permutation.
Qed.

(** A campaign of 30 days created at [day0], seen a day and a half later,
    has 29 days left. *)
Lemma days_left_thirty_days :
  let c := stored "QmMaria" "2026-11-03T00:00:00.000Z" 30 normal in
  let now := day1 + 43200000 in
  0 <= now
  /\ (MockCampaign.end_date c = None \/ MockCampaign.end_date c = Some "")
  /\ getTime_of_string Date_parse_ISO (MockCampaign.created_at c) = num day0
  /\ ToNumber (MockCampaign.duration_days c) = num 30
  /\ Z.abs (day0 + 30 * one_day) <= 8640000000000000
  /\ Campaign.daysLeft (apiToFrontendCampaign Date_parse_ISO now c) = num 29.
Proof.
  cbv zeta.
  assert (H0 : 0 <= day1 + 43200000) by (unfold day1; lia).
  assert (H1 : MockCampaign.end_date (stored "QmMaria" "2026-11-03T00:00:00.000Z" 30 normal)
               = None
               \/ MockCampaign.end_date (stored "QmMaria" "2026-11-03T00:00:00.000Z" 30 normal)
                  = Some "") by (left; reflexivity).
  assert (H4 : Z.abs (day0 + 30 * one_day) <= 8640000000000000)
    by (unfold day0, one_day; lia).
  split; [exact H0|]. split; [exact H1|]. split; [reflexivity|]. split; [reflexivity|].
  split; [exact H4|].
  destruct (days_left Date_parse_ISO (day1 + 43200000)
              (stored "QmMaria" "2026-11-03T00:00:00.000Z" 30 normal) H0) as [_ H].
  rewrite (H day0 30 H1 eq_refl eq_refl H4). reflexivity.
Defined.

(** C5, as stated, fails on a record whose duration takes the end out of
    the range of a Date: the wizard stores a duration of 21 digits as it
    is typed, and the record, of a valid creation date and a whole
    duration, loads with NaN for its days remaining. *)
Lemma huge_duration_has_no_days_left :
  exists c,
    read_index (snd (run forever initialPage browser)) = [c]
    /\ MockCampaign.end_date c = None
    /\ getTime_of_string Date_parse_ISO (MockCampaign.created_at c) = num day0
    /\ MockCampaign.duration_days c = num (10 ^ 20)
    /\ Campaign.daysLeft (apiToFrontendCampaign Date_parse_ISO day1 c) = NaN.
Proof.
  eexists. split; [vm_compute; reflexivity|]. repeat split; vm_compute; reflexivity.
Qed.

(** The campaign is found after another one with another id is saved, and
    an id that was never saved is not found. *)
Lemma saved_campaign_is_found_after_another :
  let c := stored "QmMaria" "2026-11-03T00:00:00.000Z" 30 normal in
  let later := [stored "QmOther" "2026-11-04T00:00:00.000Z" 60 normal] in
  let w' := snd (save_all (c :: later) browser) in
  World.window browser = true
  /\ Forall (fun c' => MockCampaign.id c' <> MockCampaign.id c) later
  /\ getCampaign "QmMaria" w' = (Returned (Some (JSON_roundtrip c)), w')
  /\ getCampaign "QmNone" w' = (Returned None, w').
Proof.
  cbv zeta.
  assert (Hl : Forall (fun c' => MockCampaign.id c'
                                 <> MockCampaign.id (stored "QmMaria" "2026-11-03T00:00:00.000Z"
                                                       30 normal))
                 [stored "QmOther" "2026-11-04T00:00:00.000Z" 60 normal])
    by (repeat constructor; discriminate).
  split; [reflexivity|]. split; [exact Hl|].
  destruct (saved_campaign_is_found browser
              (stored "QmMaria" "2026-11-03T00:00:00.000Z" 30 normal)
              [stored "QmOther" "2026-11-04T00:00:00.000Z" 60 normal] eq_refl)
    as (_ & Hfound & Hnone & _).
  split; [exact (Hfound Hl)|].
  apply Hnone. repeat constructor; discriminate.
Defined.

(** C6, as stated, fails when two campaigns get the same content address:
    after Maria's campaign is created on two successive days, with the same
    [cid] from the backend, the record of the first day is in the index and
    the get operation on its id returns the record of the second day. *)
Lemma first_of_two_same_ids_is_not_found :
  let w1 := snd (createIndividualCampaign maria_request browser) in
  let w2 := snd (createIndividualCampaign maria_request
                   (World.at_time "2026-11-04T00:00:00.000Z" w1)) in
  let first := individual_record maria_request receipt "2026-11-03T00:00:00.000Z" in
  let second := individual_record maria_request receipt "2026-11-04T00:00:00.000Z" in
  read_index w1 = [first]
  /\ read_index w2 = [second; first]
  /\ MockCampaign.id first = "QmMaria"
  /\ getCampaign "QmMaria" w2 = (Returned (Some second), w2)
  /\ second <> first.
Proof.
  cbv zeta. repeat split; try reflexivity.
  intros H. apply (f_equal MockCampaign.created_at) in H. discriminate H.
Qed.



(** C8: the code at the session [thousand_days].  Every step of the wizard
    accepts the form, the submission goes through, and the campaign that is
    stored has a duration of 1000 days. *)
Theorem thousand_days_are_stored :
  let r := run thousand_days initialPage browser in
  (exists p', fst r = Returned p'
              /\ Page.currentStep p' = 5%nat
              /\ Page.error p' = None
              /\ Page.createdCampaignId p' = Some "QmMaria")
  /\ map MockCampaign.duration_days (read_index (snd r)) = [num 1000]
  /\ World.sent (snd r)
     = [POST_campaigns_individual
          (individual_payload (assign (durationDays "1000") maria)
             "Maria needs surgery." [])].
Proof.
  cbv zeta. split; [|split; vm_compute; reflexivity].
  eexists. split; [vm_compute; reflexivity|]. repeat split.
Qed.

(** The record stored for a charity has the campaign type "charity" and
    the organization name of the request. *)
Lemma identity_fields_follow_variant_charity :
  let w' := snd (createCharityCampaign helping_hands_request browser) in
  createCharityCampaign helping_hands_request browser = (Returned receipt, w')
  /\ World.window browser = true
  /\ exists c,
       read_index w' = c :: map JSON_roundtrip (read_index browser)
       /\ MockCampaign.campaign_type c = charity
       /\ MockCampaign.organization_name c = Some "Helping Hands".
Proof.
  cbv zeta.
  destruct (identity_fields_follow_variant browser
              (snd (createCharityCampaign helping_hands_request browser)) receipt)
    as [_ Hcharity].
  split; [reflexivity|]. split; [reflexivity|].
  destruct (Hcharity helping_hands_request eq_refl) as (_ & _ & _ & H).
  destruct (H eq_refl) as (c & H1 & H2 & H3 & _).
  exists c. repeat split; assumption.
Defined.

(** C9, as stated, fails on the record stored for an individual: it has
    no field of either identity group. *)
Lemma individual_record_has_no_identity_field :
  let w' := snd (createIndividualCampaign maria_request browser) in
  map (fun c => (MockCampaign.campaign_type c,
                 populated individual_group (MockCampaign.keys c),
                 populated charity_group (MockCampaign.keys c),
                 exactly_one_group (MockCampaign.keys c))) (read_index w')
  = [(individual, false, false, false)].
Proof. reflexivity. Qed.

(** The campaign that the submission of Maria's form stores is not shown
    as high-priority. *)
Lemma wizard_campaigns_are_normal_maria :
  let c := individual_record maria_request receipt (World.now browser) in
  MockCampaign.priority c = normal
  /\ Campaign.isHighPriority (apiToFrontendCampaign Date_parse_ISO day1 c) = false
  /\ index_grows_normal browser (snd (handleSubmit (page 5 maria) browser)).
Proof.
  cbv zeta.
  destruct (wizard_campaigns_are_normal (page 5 maria) browser) as (_ & H2 & _ & _ & H5).
  split; [reflexivity|]. split; [|exact H2].
  apply (H5 Date_parse_ISO day1). reflexivity.
Defined.

(* ================================================================== *)
(** * Further properties *)
(* ================================================================== *)

(** ** Strings *)

Lemma string_app_assoc (a b c : string) : (a ++ b) ++ c = a ++ b ++ c.
Proof. induction a as [|x a IH]; [reflexivity|]. cbn. now rewrite IH. Qed.

Lemma string_app_nil (a : string) : a ++ "" = a.
Proof. induction a as [|x a IH]; [reflexivity|]. cbn. now rewrite IH. Qed.

Lemma string_length_app (a b : string) :
  String.length (a ++ b) = (String.length a + String.length b)%nat.
Proof. induction a as [|x a IH]; [reflexivity|]. cbn. now rewrite IH. Qed.

Lemma has_text_app (a b : string) : has_text a = true -> has_text (a ++ b) = true.
Proof.
  induction a as [|c a IH]; [discriminate|].
  cbn [has_text append]. destruct (negb (is_white_space c)); [reflexivity|exact IH].
Qed.

(** ** The wizard *)

Lemma validateStep_formData (step : nat) (p : Page.t) :
  Page.formData (snd (validateStep step p)) = Page.formData p
  /\ Page.currentStep (snd (validateStep step p)) = Page.currentStep p
  /\ (fst (validateStep step p) = true -> snd (validateStep step p) = p).
Proof.
  unfold validateStep. cbv zeta.
  repeat match goal with
         | |- context [match ?x with _ => _ end] => destruct x
         end; repeat split; try reflexivity; discriminate.
Qed.

Lemma validateStep_story_rules (p : Page.t) :
  validateStep 2 p = outcome (story_rules (Page.formData p)) p.
Proof.
  unfold validateStep, outcome, story_rules. cbv zeta. cbn [first_violation].
  rewrite length_check, text_check.
  destruct (has_text (FormData.description (Page.formData p)) && _); reflexivity.
Qed.

Lemma outcome_accepts (rules : list rule) (p : Page.t) :
  fst (outcome rules p) = true <-> first_violation rules = None.
Proof.
  unfold outcome. destruct (first_violation rules); cbn; split; congruence.
Qed.

(** X1.  The step "story" asks for a description that is not blank and has
    10 characters at least, and shows its message otherwise; no other step
    than this one and "basic info" checks anything: it accepts whatever
    the form holds and leaves the page as it is. *)
Theorem validateStep_story (step : nat) (p : Page.t) :
  validateStep 2 p = outcome (story_rules (Page.formData p)) p
  /\ (step <> 1%nat -> step <> 2%nat -> validateStep step p = (true, p)).
Proof.
  split; [apply validateStep_story_rules|].
  intros H1 H2. destruct step as [|[|[|[|[|step]]]]]; try reflexivity; congruence.
Qed.

Lemma length_splice1 {A} (index : nat) (l : list A) :
  List.length (splice1 index l)
  = if (index <? List.length l)%nat then pred (List.length l) else List.length l.
Proof.
  revert index. induction l as [|x l IH]; intros index; [now destruct index|].
  destruct index as [|i]; [reflexivity|].
  cbn [splice1 List.length]. rewrite IH.
  change (S i <? S (List.length l))%nat with (i <? List.length l)%nat.
  destruct (Nat.ltb_spec i (List.length l)); [|reflexivity].
  destruct l; [cbn in *; lia|reflexivity].
Qed.

Lemma length_set_nth (index : nat) (v : DocumentType) (l : list DocumentType) :
  (index < List.length l)%nat -> List.length (set_nth index v l) = List.length l.
Proof.
  revert index. induction l as [|x l IH]; intros index H; [cbn in H; lia|].
  destruct index as [|i]; [reflexivity|].
  cbn [set_nth List.length]. rewrite IH; [reflexivity|cbn in H; lia].
Qed.

(** What a submission leaves of the page: it never throws, and only the
    message, the identifier of the campaign and the routes change. *)
Lemma handleSubmit_page (p : Page.t) (w : World.t) :
  exists p',
    fst (handleSubmit p w) = Returned p'
    /\ Page.isSubmitting p' = false
    /\ Page.formData p' = Page.formData p
    /\ Page.currentStep p' = Page.currentStep p
    /\ match fst (submit (setError None (setIsSubmitting true p)) w) with
       | Returned p1 =>
           Page.error p' = None
           /\ Page.createdCampaignId p' = Page.createdCampaignId p1
           /\ Page.pushed p' = Page.pushed p1
       | Thrown e =>
           Page.error p' = Some (message e)
           /\ Page.createdCampaignId p' = Page.createdCampaignId p
           /\ Page.pushed p' = Page.pushed p
       end.
Proof.
  unfold handleSubmit, bind, try_catch.
  destruct (submit (setError None (setIsSubmitting true p)) w) as [[p1|e] w1] eqn:Hs.
  - eexists. split; [reflexivity|]. cbn [setIsSubmitting Page.formData Page.isSubmitting
      Page.currentStep Page.error Page.createdCampaignId Page.pushed fst].
    revert Hs. unfold submit, bind.
    destruct (upload_from 0 _ _ [] w) as [[docs|e] w2]; [|discriminate].
    match goal with
    | |- context [match ?m with _ => _ end] => destruct m as [[response|e] w3]
    end; [|discriminate].
    intros H. injection H as <- _. repeat split.
  - eexists. split; [reflexivity|]. repeat split.
Qed.

Lemma guarded_same (p p' : Page.t) :
  Page.currentStep p' = Page.currentStep p -> Page.formData p' = Page.formData p ->
  guarded p -> guarded p'.
Proof. unfold guarded. cbv zeta. intros -> ->. trivial. Qed.

Lemma parseable_positive_lt (s : string) :
  parseable_positive s = true -> lt (num 0) (parseFloat s) = true.
Proof. unfold parseable_positive. destruct (parseFloat s); congruence. Qed.

Lemma has_text_full_description (f : FormData.t) :
  has_text (FormData.description f) = true -> has_text (full_description f) = true.
Proof.
  intros H. unfold full_description. destruct (truthy (FormData.impactPlan f)); [|exact H].
  now apply has_text_app.
Qed.

Lemma length_full_description (f : FormData.t) (n : nat) :
  length_at_least n (FormData.description f) = true ->
  length_at_least n (full_description f) = true.
Proof.
  unfold full_description, length_at_least.
  destruct (truthy (FormData.impactPlan f)); [|trivial].
  rewrite string_length_app. intros H. apply Nat.leb_le in H. apply Nat.leb_le. lia.
Qed.

(** The request for a form that passed the steps "basic info" and "story"
    carries what these steps checked. *)
Lemma creation_request_validated (f : FormData.t) (uploadedDocs : list CampaignDocument.t) :
  first_violation (basic_info_rules f) = None ->
  first_violation (story_rules f) = None ->
  validated (creation_request f uploadedDocs) = true.
Proof.
  unfold basic_info_rules, story_rules, creation_request.
  destruct (FormData.campaignType f) as [[|]|]; cbn [app first_violation]; try discriminate.
  - destruct (has_text (FormData.title f)) eqn:E1; [|discriminate].
    destruct (length_at_least 3 (FormData.title f)) eqn:E2; [|discriminate].
    destruct (non_empty (FormData.category f)) eqn:E3; [|discriminate].
    destruct (parseable_positive (FormData.targetAmount f)) eqn:E4; [|discriminate].
    destruct (has_text (FormData.beneficiaryName f)) eqn:E5; [|discriminate].
    destruct (has_text (FormData.phoneNumber f)) eqn:E6; [|discriminate].
    destruct (length_between 10 20 (FormData.phoneNumber f)) eqn:E7; [|discriminate].
    destruct (has_text (FormData.residentialAddress f)) eqn:E8; [|discriminate].
    destruct (length_at_least 5 (FormData.residentialAddress f)) eqn:E9; [|discriminate].
    destruct (has_text (FormData.description f)) eqn:E10; [|discriminate].
    destruct (length_at_least 10 (FormData.description f)) eqn:E11; [|discriminate].
    intros _ _. cbn [validated individual_payload
      IndividualCampaignCreateRequest.title IndividualCampaignCreateRequest.category
      IndividualCampaignCreateRequest.target_amount IndividualCampaignCreateRequest.description
      IndividualCampaignCreateRequest.beneficiary_name
      IndividualCampaignCreateRequest.phone_number
      IndividualCampaignCreateRequest.residential_address].
    rewrite E1, E2, E3, E5, E6, E7, E8, E9, (parseable_positive_lt _ E4),
      (has_text_full_description _ E10), (length_full_description _ _ E11). reflexivity.
  - destruct (has_text (FormData.title f)) eqn:E1; [|discriminate].
    destruct (length_at_least 3 (FormData.title f)) eqn:E2; [|discriminate].
    destruct (non_empty (FormData.category f)) eqn:E3; [|discriminate].
    destruct (parseable_positive (FormData.targetAmount f)) eqn:E4; [|discriminate].
    destruct (has_text (FormData.organizationName f)) eqn:E5; [|discriminate].
    destruct (has_text (FormData.contactPersonName f)) eqn:E5'; [|discriminate].
    destruct (has_text (FormData.contactPhoneNumber f)) eqn:E6; [|discriminate].
    destruct (length_between 10 20 (FormData.contactPhoneNumber f)) eqn:E7; [|discriminate].
    destruct (has_text (FormData.officialAddress f)) eqn:E8; [|discriminate].
    destruct (length_at_least 5 (FormData.officialAddress f)) eqn:E9; [|discriminate].
    destruct (has_text (FormData.description f)) eqn:E10; [|discriminate].
    destruct (length_at_least 10 (FormData.description f)) eqn:E11; [|discriminate].
    intros _ _. cbn [validated charity_payload
      CharityCampaignCreateRequest.title CharityCampaignCreateRequest.category
      CharityCampaignCreateRequest.target_amount CharityCampaignCreateRequest.description
      CharityCampaignCreateRequest.organization_name
      CharityCampaignCreateRequest.contact_person_name
      CharityCampaignCreateRequest.contact_phone_number
      CharityCampaignCreateRequest.official_address].
    rewrite E1, E2, E3, E5, E5', E6, E7, E8, E9, (parseable_positive_lt _ E4),
      (has_text_full_description _ E10), (length_full_description _ _ E11). reflexivity.
Qed.

(** The requests of a submission: the uploads, then the creation request
    of the form if they all succeeded. *)
Lemma handleSubmit_sends (p : Page.t) (w : World.t) :
  exists rs,
    World.sent (snd (handleSubmit p w)) = (World.sent w ++ rs)%list
    /\ Forall (fun r => is_upload r \/ exists docs, r = creation_request (Page.formData p) docs)
         rs.
Proof.
  rewrite handleSubmit_world. cbv zeta.
  set (f := Page.formData p).
  destruct (upload_from_sends_uploads (FormData.documentTypes f) (FormData.documents f)
              0 [] w) as [rs [Hw1 Hrs]].
  destruct (upload_from 0 (FormData.documents f) (FormData.documentTypes f) [] w)
    as [[docs|e] w1]; cbn [snd] in Hw1; subst w1.
  - exists (rs ++ [creation_request f docs])%list. split.
    + unfold creation_request, full_description.
      destruct (FormData.campaignType f) as [[|]|];
        rewrite ?createIndividualCampaign_run, ?createCharityCampaign_run;
        match goal with
        | |- context [request ?r ?w0] =>
            pose proof (request_world r w0) as Hr; destruct (request r w0) as [[res|e] w2];
              cbn [snd] in Hr; subst w2
        end; cbn [snd]; unfold saveToLocalIndex;
        try match goal with
            | |- context [if ?b then _ else _] => destruct b
            end; cbn [snd World.sent World.send World.setItem];
        rewrite after_sending_sent, <- app_assoc; reflexivity.
    + apply Forall_app. split.
      * revert Hrs. apply Forall_impl. intros r Hr. now left.
      * constructor; [|constructor]. right. now exists docs.
  - exists rs. split; [now rewrite after_sending_sent|].
    revert Hrs. apply Forall_impl. intros r Hr. now left.
Qed.

(** Every control keeps the page guarded, and only sends requests that
    carry what the steps checked. *)
Lemma handle_guarded (e : Event) (p : Page.t) (w : World.t) :
  guarded p ->
  exists p' rs,
    fst (handle e p w) = Returned p' /\ guarded p'
    /\ World.sent (snd (handle e p w)) = (World.sent w ++ rs)%list
    /\ Forall (fun r => validated r = true) rs.
Proof.
  intros Hp. unfold handle. destruct (enabled e p) eqn:He;
    [|exists p, []; cbn; rewrite app_nil_r;
     split; [reflexivity|split; [exact Hp|split; [reflexivity|constructor]]]].
  assert (Hpure : forall p', guarded p' ->
            exists p'' rs, fst (ret p' w) = Returned p'' /\ guarded p''
              /\ World.sent (snd (ret p' w)) = (World.sent w ++ rs)%list
              /\ Forall (fun r => validated r = true) rs).
  { intros p' Hp'. exists p', []. cbn. rewrite app_nil_r.
    split; [reflexivity|split; [exact Hp'|split; [reflexivity|constructor]]]. }
  assert (Hp0 := Hp). destruct Hp as (Hstep & Hlen & Hnum & Hbasic & Hstory).
  destruct e as [u|files|index|index type| | |].
  - (* a field *)
    apply Hpure.
    destruct u; cbn [enabled] in He; try discriminate;
      repeat match type of He with
             | (_ && _)%bool = true => apply andb_prop in He; destruct He as [He ?]
             end;
      apply Nat.eqb_eq in He;
      unfold guarded; cbn; rewrite ?He in *;
      (split; [lia|]); (split; [exact Hlen|]);
      (split; [first [exact Hnum
                     |match goal with H : number_input_value _ = true |- _ => exact H end]|]);
      (split; [intros H2|intros H3]); try lia;
      try (apply Hbasic; lia); try (apply Hstory; lia).
  - (* files added *)
    apply Hpure. destruct files as [fileArray|]; [|exact Hp0].
    unfold guarded. cbn. rewrite !length_app, length_map, Hlen.
    repeat split; try lia; match goal with H : _ |- _ => exact H end.
  - (* a document removed *)
    apply Hpure. unfold guarded. cbn. rewrite !length_splice1, Hlen.
    repeat split; try lia; match goal with H : _ |- _ => exact H end.
  - (* a type chosen *)
    apply Hpure. cbn [enabled] in He.
    apply andb_prop in He. destruct He as [He _].
    apply andb_prop in He. destruct He as [_ He]. apply Nat.ltb_lt in He.
    unfold guarded. cbn. rewrite length_set_nth by lia.
    repeat split; try lia; match goal with H : _ |- _ => exact H end.
  - (* Continue *)
    apply Hpure. cbn [enabled] in He. apply Nat.ltb_lt in He.
    unfold nextStep.
    destruct (validateStep_formData (Page.currentStep p) p) as (Hf & Hs & Hsame).
    assert (Hpassed : fst (validateStep (Page.currentStep p) p) = true ->
              ((2 <= Page.currentStep p + 1)%nat ->
                 first_violation (basic_info_rules (Page.formData p)) = None)
              /\ ((3 <= Page.currentStep p + 1)%nat ->
                    first_violation (story_rules (Page.formData p)) = None)).
    { intros Hok. destruct (Nat.eq_dec (Page.currentStep p) 1) as [E1|N1].
      - rewrite E1 in Hok.
        rewrite validateStep_follows_rules in Hok by (now apply number_input_parses).
        apply outcome_accepts in Hok. split; [trivial|lia].
      - split; [intros _; apply Hbasic; lia|].
        destruct (Nat.eq_dec (Page.currentStep p) 2) as [E2|N2].
        + rewrite E2 in Hok. rewrite validateStep_story_rules in Hok.
          apply outcome_accepts in Hok. trivial.
        + intros _. apply Hstory. lia. }
    destruct (validateStep (Page.currentStep p) p) as [ok p1].
    cbn [fst snd] in Hf, Hs, Hsame, Hpassed.
    destruct ok.
    + destruct (Nat.ltb_spec (Page.currentStep p) 5); [|lia].
      destruct (Hpassed eq_refl) as [Hb Hst].
      unfold guarded. cbn [setCurrentStep Page.formData Page.currentStep]. cbv zeta.
      rewrite Hf. repeat split; try lia; match goal with H : _ |- _ => exact H end.
    + apply (guarded_same p); [exact Hs|exact Hf|]. exact Hp0.
  - (* Back *)
    apply Hpure. cbn [enabled] in He. apply negb_true_iff, Nat.eqb_neq in He.
    unfold prevStep. destruct (Nat.ltb_spec 1 (Page.currentStep p)); [|lia].
    unfold guarded. cbn [setError setCurrentStep Page.formData Page.currentStep]. cbv zeta.
    repeat split; try assumption; try lia.
    + intros H2. apply Hbasic. lia.
    + intros H3. apply Hstory. lia.
  - (* Create Campaign *)
    cbn [enabled] in He. apply andb_prop in He. destruct He as [He _].
    apply negb_true_iff, Nat.ltb_ge in He.
    destruct (handleSubmit_page p w) as (p' & Hret & _ & Hf & Hs & _).
    destruct (handleSubmit_sends p w) as (rs & Hsent & Hrs).
    exists p', rs. split; [exact Hret|]. split; [|split; [exact Hsent|]].
    + apply (guarded_same p); [exact Hs|exact Hf|]. exact Hp0.
    + revert Hrs. apply Forall_impl. intros r [Hr|[docs ->]].
      * destruct r; cbn in Hr; try contradiction. reflexivity.
      * apply creation_request_validated; [apply Hbasic|apply Hstory]; lia.
Qed.

(** No control of the page throws. *)
Lemma handle_returns (e : Event) (p : Page.t) (w : World.t) :
  exists p', fst (handle e p w) = Returned p'.
Proof.
  unfold handle. destruct (enabled e p); [destruct e|]; try (eexists; reflexivity).
  destruct (handleSubmit_page p w) as (p' & H & _). now exists p'.
Qed.

Lemma run_guarded (events : list Event) :
  forall p w, guarded p ->
    exists p' rs,
      fst (run events p w) = Returned p' /\ guarded p'
      /\ World.sent (snd (run events p w)) = (World.sent w ++ rs)%list
      /\ Forall (fun r => validated r = true) rs.
Proof.
  induction events as [|e events IH]; intros p w Hp.
  - exists p, []. cbn. rewrite app_nil_r.
    split; [reflexivity|split; [exact Hp|split; [reflexivity|constructor]]].
  - cbn [run]. unfold bind.
    destruct (handle_guarded e p w Hp) as (p1 & rs1 & H1 & Hg1 & Hs1 & Hv1).
    destruct (handle e p w) as [r w1]. cbn [fst snd] in H1, Hs1. subst r.
    destruct (IH p1 w1 Hg1) as (p2 & rs2 & H2 & Hg2 & Hs2 & Hv2).
    exists p2, (rs1 ++ rs2)%list. split; [exact H2|]. split; [exact Hg2|].
    split; [rewrite Hs2, Hs1, app_assoc; reflexivity|].
    apply Forall_app. now split.
Qed.

Lemma guarded_initialPage : guarded initialPage.
Proof. unfold guarded. cbn. repeat split; try lia; reflexivity. Qed.

(** X2.  Whatever the user does, the page stays at one of the steps 1 to 5,
    every document of the form has its type, and the steps before the
    current one have been passed: from step 2 on the rules of "basic info"
    hold of the form, from step 3 on the rule of "story". *)
Theorem wizard_is_guarded (events : list Event) (w : World.t) :
  exists p, fst (run events initialPage w) = Returned p /\ guarded p.
Proof.
  destruct (run_guarded events initialPage w guarded_initialPage) as (p & rs & H & Hg & _).
  now exists p.
Qed.


Lemma submit_run (p : Page.t) (w : World.t) :
  let f := Page.formData p in
  submit p w
  = match upload_from 0 (FormData.documents f) (FormData.documentTypes f) [] w with
    | (Returned docs, w1) =>
        match match FormData.campaignType f with
              | Some individual =>
                  createIndividualCampaign (individual_payload f (full_description f) docs) w1
              | _ => createCharityCampaign (charity_payload f (full_description f) docs) w1
              end with
        | (Returned res, w2) =>
            (Returned (router_push (created_route res)
                         (setCreatedCampaignId (Some (CreateResponse.cid res)) p)), w2)
        | (Thrown e, w2) => (Thrown e, w2)
        end
    | (Thrown e, w1) => (Thrown e, w1)
    end.
Proof.
  cbv zeta. unfold submit, bind.
  destruct (upload_from 0 _ _ [] w) as [[docs|e] w1]; [|reflexivity].
  destruct (FormData.campaignType (Page.formData p)) as [[|]|]; reflexivity.
Qed.

(** What a creation leaves: the backend's answer and, in a browser, the
    index with a record of that identifier in front; or an error and the
    index as it was. *)
Lemma creation_settles (f : FormData.t) (docs : list CampaignDocument.t) (w : World.t) :
  match match FormData.campaignType f with
        | Some individual =>
            createIndividualCampaign (individual_payload f (full_description f) docs) w
        | _ => createCharityCampaign (charity_payload f (full_description f) docs) w
        end with
  | (Returned res, w') =>
      World.window w = true ->
      exists c, read_index w' = c :: map JSON_roundtrip (read_index w)
                /\ MockCampaign.id c = CreateResponse.cid res
  | (Thrown e, w') => World.localStorage w' = World.localStorage w
  end.
Proof.
  destruct (FormData.campaignType f) as [[|]|];
    rewrite ?createIndividualCampaign_run, ?createCharityCampaign_run;
    match goal with
    | |- context [request ?r ?w0] =>
        pose proof (request_world r w0) as Hr; destruct (request r w0) as [[res|e] w2];
          cbn [snd] in Hr; subst w2
    end; try reflexivity;
    intros Hw; rewrite saveToLocalIndex_window by exact Hw;
    eexists; (split; [reflexivity|reflexivity]).
Qed.

Lemma request_throws (r : Request) (w : World.t) (e : exn) :
  creation_error (World.create_backend w (List.length (World.sent w)) r) = Some e ->
  request r w = (Thrown e, World.send r w).
Proof.
  intros H. destruct (World.create_backend w (List.length (World.sent w)) r)
    as [m|[[res|m]|status body]] eqn:Hb; cbn in H; try discriminate; injection H as <-.
  - unfold request, bind, fetch_create. rewrite Hb. reflexivity.
  - unfold request, bind, fetch_create. rewrite Hb. reflexivity.
  - apply request_not_ok. exact Hb.
Qed.

Lemma request_returns (r : Request) (w : World.t) :
  creation_error (World.create_backend w (List.length (World.sent w)) r) = None ->
  exists res,
    World.create_backend w (List.length (World.sent w)) r = Responded (Ok (Parsed res))
    /\ request r w = (Returned res, World.send r w).
Proof.
  intros H. destruct (World.create_backend w (List.length (World.sent w)) r)
    as [m|[[res|m]|status body]] eqn:Hb; cbn in H; try discriminate.
  exists res. split; [reflexivity|].
  unfold request, bind, fetch_create. rewrite Hb. reflexivity.
Qed.

Lemma upload_answers_send (r : Request) (w : World.t) (n : nat) (rs : list Request) :
  upload_answers (World.send r w) n rs = upload_answers w n rs.
Proof. revert n. induction rs as [|r0 rs IH]; intros n; [reflexivity|]. cbn. now rewrite IH. Qed.

Lemma upload_answers_after (rs0 : list Request) (w : World.t) (n : nat) (rs : list Request) :
  upload_answers (after_sending rs0 w) n rs = upload_answers w n rs.
Proof.
  revert w. induction rs0 as [|r0 rs0 IH]; intros w; [reflexivity|].
  rewrite after_sending_cons, IH. apply upload_answers_send.
Qed.

Lemma nth_error_upload_answers (documentTypes : list DocumentType) (w : World.t)
    (rest : list File.t) :
  forall i n j,
    nth_error (upload_answers w n (upload_requests documentTypes i rest)) j
    = match nth_error rest j with
      | Some fj =>
          Some (uploaded (World.upload_backend w (n + j)
                            (POST_documents_upload fj (nth (i + j) documentTypes other))))
      | None => None
      end.
Proof.
  induction rest as [|file rest IH]; intros i n j; [now destruct j|].
  destruct j as [|j]; cbn [upload_requests upload_answers nth_error].
  - now rewrite !Nat.add_0_r.
  - rewrite IH. replace (S n + j)%nat with (n + S j)%nat by lia.
    replace (S i + j)%nat with (i + S j)%nat by lia. reflexivity.
Qed.

Lemma length_upload_requests (documentTypes : list DocumentType) (rest : list File.t)
    (i : nat) :
  List.length (upload_requests documentTypes i rest) = List.length rest.
Proof. revert i. induction rest as [|f rest IH]; intros i; [reflexivity|]. cbn. now rewrite IH. Qed.

(** When the backend accepts every upload, the loop sends them all and
    gathers the documents it returns, in order. *)
Lemma upload_from_all (documentTypes : list DocumentType) (rest : list File.t) :
  forall (i : nat) (acc : list CampaignDocument.t) (w : World.t)
         (docs : list CampaignDocument.t),
    upload_answers w (List.length (World.sent w)) (upload_requests documentTypes i rest)
    = map Some docs ->
    upload_from i rest documentTypes acc w
    = (Returned (acc ++ docs)%list,
       after_sending (upload_requests documentTypes i rest) w).
Proof.
  induction rest as [|file rest IH]; intros i acc w docs H.
  - destruct docs; [|discriminate]. cbn. now rewrite app_nil_r.
  - destruct docs as [|d docs]; [discriminate|].
    cbn [upload_requests upload_answers map] in H. injection H as Hd Hrest.
    cbn [upload_from upload_requests]. unfold bind, try_catch.
    rewrite (uploadDocument_succeeds _ _ _ _ Hd).
    rewrite after_sending_cons, (IH (S i) _ _ docs).
    + now rewrite <- app_assoc.
    + rewrite upload_answers_send. cbn [World.sent World.send].
      rewrite length_app, Nat.add_1_r. exact Hrest.
Qed.

(** A list of answers has no failure, or a first one. *)
Lemma first_failure {A} (l : list (option A)) :
  (exists xs, l = map Some xs)
  \/ (exists k, nth_error l k = Some None
                /\ forall j, (j < k)%nat -> exists x, nth_error l j = Some (Some x)).
Proof.
  induction l as [|[x|] l IH].
  - left. now exists [].
  - destruct IH as [[xs ->]|(k & Hk & Hbefore)].
    + left. now exists (x :: xs).
    + right. exists (S k). split; [exact Hk|].
      intros [|j] Hj; [now exists x|]. apply Hbefore. lia.
  - right. exists 0%nat. split; [reflexivity|]. intros j Hj. lia.
Qed.




(** What the body of the [try] block does, by the answers of the backend:
    with a first upload that fails it throws for that document, having sent
    the uploads up to it; with none it sends all the uploads and the
    creation request, and throws what the creation throws or returns the
    page that shows the campaign. *)
Lemma submit_outcome (p : Page.t) (w : World.t) :
  let f := Page.formData p in
  let uploads := upload_requests (FormData.documentTypes f) 0 (FormData.documents f) in
  let answers := upload_answers w (List.length (World.sent w)) uploads in
  (exists k file,
     nth_error (FormData.documents f) k = Some file
     /\ nth_error answers k = Some None
     /\ (forall j, (j < k)%nat -> exists d, nth_error answers j = Some (Some d))
     /\ submit p w
        = (Thrown (Error ("Failed to upload document: " ++ File.name file)),
           after_sending (firstn (S k) uploads) w))
  \/ (exists docs,
        answers = map Some docs
        /\ let r := creation_request f docs in
           let answer :=
             World.create_backend w (List.length (World.sent w) + List.length uploads) r in
           match creation_error answer with
           | Some e => submit p w = (Thrown e, after_sending (uploads ++ [r]) w)
           | None =>
               exists res,
                 answer = Responded (Ok (Parsed res))
                 /\ fst (submit p w)
                    = Returned (router_push (created_route res)
                                  (setCreatedCampaignId (Some (CreateResponse.cid res)) p))
                 /\ World.sent (snd (submit p w)) = (World.sent w ++ uploads ++ [r])%list
                 /\ (World.window w = true ->
                     exists c,
                       read_index (snd (submit p w))
                       = c :: map JSON_roundtrip (read_index w)
                       /\ MockCampaign.id c = CreateResponse.cid res)
           end).
Proof.
  cbv zeta. set (f := Page.formData p).
  set (uploads := upload_requests (FormData.documentTypes f) 0 (FormData.documents f)).
  destruct (first_failure (upload_answers w (List.length (World.sent w)) uploads))
    as [[docs Hdocs]|(k & Hk & Hbefore)].
  - right. exists docs. split; [exact Hdocs|].
    pose proof (upload_from_all (FormData.documentTypes f) (FormData.documents f) 0 []
                  w docs Hdocs) as Hup. cbn [app] in Hup. fold uploads in Hup.
    destruct (after_sending_storage uploads w) as (Hstorage & Hwindow & _).
    assert (Hlen : List.length (World.sent (after_sending uploads w))
                   = (List.length (World.sent w) + List.length uploads)%nat)
      by (rewrite after_sending_sent; apply length_app).
    assert (Hbackend : World.create_backend (after_sending uploads w)
                       = World.create_backend w).
    { clear. revert w. induction uploads as [|r rs IH]; intros w; [reflexivity|].
      rewrite after_sending_cons, IH. reflexivity. }
    assert (Hsend : forall r, World.send r (after_sending uploads w)
                              = after_sending (uploads ++ [r]) w).
    { intros r. unfold after_sending. now rewrite fold_left_app. }
    set (r := creation_request f docs).
    destruct (creation_error
                (World.create_backend w (List.length (World.sent w) + List.length uploads) r))
      as [e|] eqn:He.
    + rewrite submit_run. cbv zeta. fold f. fold uploads. rewrite Hup.
      assert (Hr : request r (after_sending uploads w)
                   = (Thrown e, World.send r (after_sending uploads w))).
      { apply request_throws. rewrite Hlen, Hbackend. exact He. }
      rewrite Hsend in Hr. unfold r, creation_request in Hr |- *.
      destruct (FormData.campaignType f) as [[|]|];
        rewrite ?createIndividualCampaign_run, ?createCharityCampaign_run, Hr; reflexivity.
    + destruct (request_returns r (after_sending uploads w)) as (res & Hb & Hr).
      { rewrite Hlen, Hbackend. exact He. }
      rewrite Hlen, Hbackend in Hb. exists res. split; [exact Hb|].
      pose proof (creation_settles f docs (after_sending uploads w)) as Hc.
      rewrite submit_run. cbv zeta. fold f. fold uploads. rewrite Hup.
      assert (Hsent : forall c,
                World.sent (snd (saveToLocalIndex c (World.send r (after_sending uploads w))))
                = (World.sent w ++ uploads ++ [r])%list).
      { intros c. unfold saveToLocalIndex.
        destruct (World.window _); cbn [snd World.sent World.setItem World.send];
          now rewrite after_sending_sent, <- app_assoc. }
      unfold r, creation_request in Hr, Hsent |- *.
      destruct (FormData.campaignType f) as [[|]|];
        rewrite ?createIndividualCampaign_run, ?createCharityCampaign_run in Hc |- *;
        rewrite Hr in Hc |- *; cbn [fst snd] in Hc |- *;
        (split; [reflexivity|]); (split; [apply Hsent|]);
        intros Hw; rewrite Hwindow in Hc; destruct (Hc Hw) as (c & Hi & Hid);
        exists c; (split; [|exact Hid]); rewrite Hi; unfold read_index; now rewrite Hstorage.
  - left. subst uploads.
    assert (Hfile : exists file, nth_error (FormData.documents f) k = Some file).
    { rewrite nth_error_upload_answers in Hk.
      destruct (nth_error (FormData.documents f) k) as [file|]; [now exists file|discriminate]. }
    destruct Hfile as [file Hfile]. exists k, file.
    split; [exact Hfile|]. split; [exact Hk|]. split; [exact Hbefore|].
    rewrite submit_run. cbv zeta. fold f.
    rewrite (upload_from_first_failure (FormData.documentTypes f) (FormData.documents f)
               0 [] w k file Hfile).
    + reflexivity.
    + intros j fj Hj Hfj. destruct (Hbefore j Hj) as [d Hd].
      rewrite nth_error_upload_answers, Hfj in Hd. injection Hd as Hd.
      cbn [Nat.add]. rewrite Hd. discriminate.
    + rewrite nth_error_upload_answers, Hfile in Hk. injection Hk as Hk. exact Hk.
Qed.

Lemma handleSubmit_run (p : Page.t) (w : World.t) :
  handleSubmit p w
  = match submit (setError None (setIsSubmitting true p)) w with
    | (Returned p1, w1) => (Returned (setIsSubmitting false p1), w1)
    | (Thrown e, w1) =>
        (Returned (setIsSubmitting false
                     (setError (Some (message e)) (setError None (setIsSubmitting true p)))),
         w1)
    end.
Proof.
  unfold handleSubmit, bind, try_catch.
  destruct (submit (setError None (setIsSubmitting true p)) w) as [[p1|e] w1]; reflexivity.
Qed.


Lemma combine_app_same {A B} (l l' : list A) (m m' : list B) :
  List.length l = List.length m ->
  combine (l ++ l') (m ++ m') = (combine l m ++ combine l' m')%list.
Proof.
  revert m. induction l as [|x l IH]; intros [|y m] H; try discriminate; [reflexivity|].
  cbn. rewrite IH; [reflexivity|]. now injection H.
Qed.

Lemma combine_map_other (files : list File.t) :
  combine files (map (fun _ => other) files) = map (fun file => (file, other)) files.
Proof. induction files as [|x l IH]; [reflexivity|]. cbn. now rewrite IH. Qed.

Lemma combine_splice1 {A B} (index : nat) (l : list A) (m : list B) :
  List.length l = List.length m ->
  combine (splice1 index l) (splice1 index m) = splice1 index (combine l m).
Proof.
  revert index m. induction l as [|x l IH]; intros index [|y m] H; try discriminate.
  - now destruct index.
  - destruct index as [|i]; [reflexivity|]. cbn. rewrite IH; [reflexivity|]. now injection H.
Qed.

Lemma combine_set_nth (index : nat) (type : DocumentType) (l : list File.t)
    (m : list DocumentType) (file : File.t) (old : DocumentType) :
  nth_error (combine l m) index = Some (file, old) ->
  combine l (set_nth index type m)
  = (firstn index (combine l m) ++ (file, type) :: skipn (S index) (combine l m))%list.
Proof.
  revert index m. induction l as [|x l IH]; intros index [|y m] H;
    try (destruct index; discriminate).
  destruct index as [|i].
  - cbn in H. injection H as -> ->. reflexivity.
  - cbn in H. cbn [set_nth combine firstn skipn app]. rewrite (IH i m H). reflexivity.
Qed.

Lemma upload_requests_typed (documentTypes : list DocumentType) (files : list File.t) :
  forall (i : nat),
    List.length files = List.length (skipn i documentTypes) ->
    upload_requests documentTypes i files
    = map (fun d => POST_documents_upload (fst d) (snd d))
        (combine files (skipn i documentTypes)).
Proof.
  induction files as [|file files IH]; intros i H; [reflexivity|].
  cbn [upload_requests].
  destruct (skipn i documentTypes) as [|t rest] eqn:E; [discriminate|].
  assert (Hnth : nth i documentTypes other = t).
  { rewrite <- (firstn_skipn i documentTypes) at 1. rewrite E.
    assert (Hlen : List.length (firstn i documentTypes) = i).
    { apply firstn_length_le.
      destruct (Nat.le_gt_cases i (List.length documentTypes)) as [Hle|Hgt]; [exact Hle|].
      rewrite skipn_all2 in E by lia. discriminate. }
    rewrite app_nth2 by lia. rewrite Hlen, Nat.sub_diag. reflexivity. }
  assert (Hrest : skipn (S i) documentTypes = rest).
  { change (S i) with (1 + i)%nat. rewrite <- skipn_skipn, E. reflexivity. }
  rewrite IH by (rewrite Hrest; cbn in H; lia).
  rewrite Hnth, Hrest. reflexivity.
Qed.

(** X5.  A document keeps its type: files that are added come with the type
    "other" after the documents there are, removing a document removes its
    type with it, choosing a type changes the type of that document only,
    and the uploads that a submission sends are the documents with their
    types, in order: all of them, followed by the creation request, or
    those up to the first one that the backend does not accept. *)
Theorem documents_keep_their_types (p : Page.t) :
  List.length (FormData.documents (Page.formData p))
  = List.length (FormData.documentTypes (Page.formData p)) ->
  (forall files,
     typed_documents (handleFileChange (Some files) p)
     = (typed_documents p ++ map (fun file => (file, other)) files)%list)
  /\ (forall index,
        typed_documents (removeDocument index p) = splice1 index (typed_documents p))
  /\ (forall index type file old,
        nth_error (typed_documents p) index = Some (file, old) ->
        typed_documents (updateDocumentType index type p)
        = (firstn index (typed_documents p)
           ++ (file, type) :: skipn (S index) (typed_documents p))%list)
  /\ (forall w,
        exists k rest,
          World.sent (snd (handleSubmit p w))
          = (World.sent w
             ++ firstn k (map (fun d => POST_documents_upload (fst d) (snd d))
                            (typed_documents p))
             ++ rest)%list
          /\ (rest = []
              \/ k = List.length (typed_documents p)
                 /\ exists docs, rest = [creation_request (Page.formData p) docs])).
Proof.
  intros Hlen. unfold typed_documents. split; [|split; [|split]].
  - intros files. cbn. rewrite combine_app_same by exact Hlen.
    now rewrite combine_map_other.
  - intros index. cbn. now apply combine_splice1.
  - intros index type file old H. cbn. now apply (combine_set_nth _ _ _ _ file old).
  - intros w. rewrite handleSubmit_run.
    pose proof (submit_outcome (setError None (setIsSubmitting true p)) w) as H.
    cbv zeta in H. cbn [Page.formData setError setIsSubmitting] in H.
    rewrite (upload_requests_typed _ _ 0%nat Hlen) in H. cbn [skipn] in H.
    set (uploads := map (fun d => POST_documents_upload (fst d) (snd d))
                      (combine (FormData.documents (Page.formData p))
                         (FormData.documentTypes (Page.formData p)))) in *.
    assert (Hall : List.length
                     (combine (FormData.documents (Page.formData p))
                        (FormData.documentTypes (Page.formData p)))
                   = List.length uploads) by (unfold uploads; now rewrite length_map).
    destruct H as [(k & file & _ & _ & _ & Hs)|(docs & _ & H)].
    + rewrite Hs. cbn [snd]. exists (S k), []. split; [|now left].
      now rewrite after_sending_sent, app_nil_r.
    + exists (List.length uploads), [creation_request (Page.formData p) docs].
      rewrite firstn_all. split; [|right; split; [symmetry; exact Hall|now exists docs]].
      destruct (creation_error _) as [e|].
      * rewrite H. cbn [snd]. now rewrite after_sending_sent.
      * destruct H as (res & _ & _ & Hsent & _).
        destruct (submit (setError None (setIsSubmitting true p)) w) as [[p1|e] w1];
          exact Hsent.
Qed.

(** ** The API client *)

Lemma filter_filter {A} (f g : A -> bool) (l : list A) :
  filter g (filter f l) = filter (fun x => f x && g x) l.
Proof.
  induction l as [|x l IH]; [reflexivity|].
  cbn. destruct (f x); cbn; [destruct (g x)|]; now rewrite IH.
Qed.

Lemma filter_true {A} (l : list A) : filter (fun _ => true) l = l.
Proof. induction l as [|x l IH]; [reflexivity|]. cbn. now rewrite IH. Qed.

Lemma filter_map_same {A} (f : A -> bool) (g : A -> A) (l : list A) :
  (forall x, f (g x) = f x) -> filter f (map g l) = map g (filter f l).
Proof.
  intros H. induction l as [|x l IH]; [reflexivity|].
  cbn. rewrite H. destruct (f x); cbn; now rewrite IH.
Qed.

(** In a browser [getCampaigns] gives the campaigns of the index that pass
    its filters, in the order of the index. *)
Lemma getCampaigns_window (params : option Params.t) (w : World.t) :
  World.window w = true ->
  getCampaigns params w = (Returned (filter (matches params) (read_index w)), w).
Proof.
  intros Hw. unfold getCampaigns. rewrite Hw. f_equal. f_equal.
  assert (Hall : forall (f : MockCampaign.t -> bool) l,
            (forall c, f c = true) -> l = filter f l).
  { intros f l H. rewrite (filter_ext f (fun _ => true)) by exact H.
    symmetry. apply filter_true. }
  destruct params as [[[ty|] [cat|] l]|]; unfold matches;
    cbn [Params.campaign_type Params.category];
    try destruct (truthy cat); rewrite ?filter_filter;
    first [ apply filter_ext; intros c; now rewrite ?andb_true_r
          | apply Hall; intros c; reflexivity ].
Qed.

Lemma matches_JSON_roundtrip (params : option Params.t) (c : MockCampaign.t) :
  matches params (JSON_roundtrip c) = matches params c.
Proof. reflexivity. Qed.



Lemma listing_after_creation (r : Request) (c : MockCampaign.t) (w : World.t)
    (params : option Params.t) :
  World.window w = true ->
  let w' := snd (saveToLocalIndex c (World.send r w)) in
  fst (getCampaigns params w')
  = Returned ((if matches params c then [JSON_roundtrip c] else [])
              ++ map JSON_roundtrip (filter (matches params) (read_index w)))%list.
Proof.
  intros Hw. cbv zeta.
  destruct (stored_by_creation r c w) as [Hstored _]. cbv zeta in Hstored.
  destruct (Hstored Hw) as [Hindex _].
  rewrite getCampaigns_window.
  - cbn [fst]. rewrite Hindex. cbn [filter]. rewrite matches_JSON_roundtrip.
    rewrite filter_map_same by (intros x; apply matches_JSON_roundtrip).
    destruct (matches params c); reflexivity.
  - rewrite saveToLocalIndex_window by exact Hw. exact Hw.
Qed.

(** X8.  Once a campaign is created in a browser, every listing that it
    passes the filters of has its record first, followed by the campaigns
    that were listed before, in their order; a listing that it does not
    pass the filters of is as before. *)
Theorem created_campaign_is_listed (w w' : World.t) (res : CreateResponse.t)
    (params : option Params.t) :
  World.window w = true ->
  (forall data,
     createIndividualCampaign data w = (Returned res, w') ->
     let c := JSON_roundtrip (individual_record data res (World.now w)) in
     fst (getCampaigns params w')
     = Returned ((if matches params c then [c] else [])
                 ++ map JSON_roundtrip (filter (matches params) (read_index w)))%list)
  /\ (forall data,
        createCharityCampaign data w = (Returned res, w') ->
        let c := JSON_roundtrip (charity_record data res (World.now w)) in
        fst (getCampaigns params w')
        = Returned ((if matches params c then [c] else [])
                    ++ map JSON_roundtrip (filter (matches params) (read_index w)))%list).
Proof.
  intros Hw. split; intros data H; cbv zeta.
  - rewrite createIndividualCampaign_run in H.
    apply creation_returned in H. destruct H as [_ ->].
    rewrite matches_JSON_roundtrip.
    apply (listing_after_creation (POST_campaigns_individual data)). exact Hw.
  - rewrite createCharityCampaign_run in H.
    apply creation_returned in H. destruct H as [_ ->].
    rewrite matches_JSON_roundtrip.
    apply (listing_after_creation (POST_campaigns_charity data)). exact Hw.
Qed.

Lemma newly_created_individual (data : IndividualCampaignCreateRequest.t)
    (res : CreateResponse.t) (t : string) :
  IndividualCampaignCreateRequest.priority data = Some normal ->
  newly_created (JSON_roundtrip (individual_record data res t)).
Proof. intros H. unfold newly_created. cbn. rewrite H. repeat split. Qed.

Lemma newly_created_charity (data : CharityCampaignCreateRequest.t)
    (res : CreateResponse.t) (t : string) :
  CharityCampaignCreateRequest.priority data = Some normal ->
  newly_created (JSON_roundtrip (charity_record data res t)).
Proof. intros H. unfold newly_created. cbn. rewrite H. repeat split. Qed.

(** What a creation of the wizard does to an index that was written by
    the client. *)
Lemma creation_grows (r : Request) (record : CreateResponse.t -> string -> MockCampaign.t)
    (w : World.t) :
  (forall res t, newly_created (JSON_roundtrip (record res t))) ->
  well_formed w ->
  let w' := snd (match request r w with
                 | (Returned res, w1) =>
                     (Returned res, snd (saveToLocalIndex (record res (World.now w1)) w1))
                 | (Thrown e, w1) => (Thrown e, w1)
                 end) in
  well_formed w'
  /\ exists cs, read_index w' = (cs ++ read_index w)%list /\ Forall newly_created cs.
Proof.
  intros Hrecord Hwf. cbv zeta.
  pose proof (request_world r w) as Hworld.
  destruct (request r w) as [[res|e] w1]; cbn [snd] in Hworld |- *; subst w1.
  - split; [apply saveToLocalIndex_well_formed; exact Hwf|].
    destruct (stored_by_creation r (record res (World.now (World.send r w))) w)
      as [Hwin Hno]. cbv zeta in Hwin, Hno.
    destruct (World.window w) eqn:Hw.
    + destruct (Hwin eq_refl) as [_ Hindex].
      exists [JSON_roundtrip (record res (World.now (World.send r w)))].
      split; [rewrite (Hindex Hwf); reflexivity|].
      constructor; [apply Hrecord|constructor].
    + exists []. split; [|constructor]. unfold read_index. now rewrite (Hno eq_refl).
  - split; [exact Hwf|]. exists []. split; [reflexivity|constructor].
Qed.

Lemma handleSubmit_grows (p : Page.t) (w : World.t) :
  well_formed w ->
  let w' := snd (handleSubmit p w) in
  well_formed w'
  /\ exists cs, read_index w' = (cs ++ read_index w)%list /\ Forall newly_created cs.
Proof.
  intros Hwf. cbv zeta. rewrite handleSubmit_world. cbv zeta.
  set (f := Page.formData p).
  destruct (upload_from_sends_uploads (FormData.documentTypes f) (FormData.documents f)
              0 [] w) as [rs [Hw1 _]].
  destruct (after_sending_storage rs w) as (Hstorage & _ & _).
  assert (Hread : read_index (after_sending rs w) = read_index w)
    by (unfold read_index; now rewrite Hstorage).
  assert (Hwf1 : well_formed (after_sending rs w))
    by (unfold well_formed; now rewrite Hread).
  destruct (upload_from 0 (FormData.documents f) (FormData.documentTypes f) [] w)
    as [[docs|e] w1]; cbn [snd] in Hw1; subst w1.
  - rewrite <- Hread.
    destruct (FormData.campaignType f) as [[|]|];
      rewrite ?createIndividualCampaign_run, ?createCharityCampaign_run;
      apply creation_grows; try exact Hwf1; intros res t;
      first [now apply newly_created_individual|now apply newly_created_charity].
  - cbn [snd]. split; [exact Hwf1|]. exists []. split; [exact Hread|constructor].
Qed.

Lemma handle_grows (e : Event) (p : Page.t) (w : World.t) :
  well_formed w ->
  let w' := snd (handle e p w) in
  well_formed w'
  /\ exists cs, read_index w' = (cs ++ read_index w)%list /\ Forall newly_created cs.
Proof.
  intros Hwf. cbv zeta. unfold handle.
  destruct (enabled e p); [destruct e|];
    try (cbn [snd ret]; split; [exact Hwf|]; exists []; split; [reflexivity|constructor]).
  now apply handleSubmit_grows.
Qed.

Lemma run_grows (events : list Event) :
  forall (p : Page.t) (w : World.t),
    well_formed w ->
    well_formed (snd (run events p w))
    /\ exists cs, read_index (snd (run events p w)) = (cs ++ read_index w)%list
                  /\ Forall newly_created cs.
Proof.
  induction events as [|e events IH]; intros p w Hwf.
  - cbn. split; [exact Hwf|]. exists []. split; [reflexivity|constructor].
  - cbn [run]. unfold bind.
    destruct (handle_grows e p w Hwf) as (Hwf1 & cs1 & Hi1 & Hc1). cbv zeta in Hwf1, Hi1.
    destruct (handle_returns e p w) as [p1 Hp1].
    destruct (handle e p w) as [r w1]. cbn [fst snd] in Hp1, Hwf1, Hi1. subst r.
    destruct (IH p1 w1 Hwf1) as (Hwf2 & cs2 & Hi2 & Hc2).
    split; [exact Hwf2|]. exists (cs2 ++ cs1)%list.
    split; [rewrite Hi2, Hi1, app_assoc; reflexivity|].
    apply Forall_app. now split.
Qed.

(** X9.  The wizard only ever adds to the index: whatever the user does and
    whatever the backend answers, the campaigns that were in the index are
    still there, unchanged and in their order, behind the ones that were
    added; each of these has nothing raised, is active and of normal
    priority. *)
Theorem index_only_grows (events : list Event) (p : Page.t) (w : World.t) :
  well_formed w ->
  let w' := snd (run events p w) in
  well_formed w'
  /\ exists cs, read_index w' = (cs ++ read_index w)%list /\ Forall newly_created cs.
Proof. intros Hwf. cbv zeta. now apply run_grows. Qed.

(** X10.  An upload sends one request and never touches the index.  It
    returns exactly when the backend answers with a success whose body can
    be read, and it returns that body; a status that is not a success is an
    error "Upload failed" whatever the status and the body, which is not
    read. *)
Theorem uploadDocument_outcome (file : File.t) (documentType : DocumentType) (w : World.t) :
  let r := POST_documents_upload file documentType in
  let out := uploadDocument file documentType w in
  World.sent (snd out) = (World.sent w ++ [r])%list
  /\ World.localStorage (snd out) = World.localStorage w
  /\ (forall d,
        fst out = Returned d
        <-> World.upload_backend w (List.length (World.sent w)) r
            = Responded (Ok (Parsed d)))
  /\ (forall status body,
        World.upload_backend w (List.length (World.sent w)) r
        = Responded (NotOk status body) ->
        fst out = Thrown (Error "Upload failed")).
Proof.
  cbv zeta. unfold uploadDocument, bind, fetch_upload.
  destruct (World.upload_backend w (List.length (World.sent w))
              (POST_documents_upload file documentType)) as [m|[[d|m]|status body]];
    cbn; repeat split; try congruence; try discriminate.
Qed.

(** ** The list of campaigns *)

(** X11.  The list shows the campaigns that pass the search, the category
    filter and the high-priority-only filter, each of them once and no
    other, whatever the ordering asked for. *)
Theorem filteredCampaigns_shows (Date_parse : string -> number)
    (campaigns : list Campaign.t) (searchQuery categoryFilter : string)
    (sortBy : SortOption) (priorityOnly : bool) :
  Permutation
    (filter (shown searchQuery categoryFilter priorityOnly) campaigns)
    (filteredCampaigns Date_parse campaigns searchQuery categoryFilter sortBy priorityOnly)
  /\ forall c,
       In c (filteredCampaigns Date_parse campaigns searchQuery categoryFilter sortBy
               priorityOnly)
       <-> In c campaigns /\ shown searchQuery categoryFilter priorityOnly c = true.
Proof.
  assert (H : Permutation
                (filter (shown searchQuery categoryFilter priorityOnly) campaigns)
                (filteredCampaigns Date_parse campaigns searchQuery categoryFilter sortBy
                   priorityOnly)).
  { unfold filteredCampaigns. cbv zeta.
    eapply Permutation_trans; [|apply sorting_permutation].
    replace (filter (shown searchQuery categoryFilter priorityOnly) campaigns)
      with (filter (fun c => if priorityOnly then Campaign.isHighPriority c else true)
              (filter (fun c => if String.eqb categoryFilter "all" then true
                                else String.eqb (Campaign.category c) categoryFilter)
                 (filter (fun c => if truthy searchQuery
                                   then includes (toLowerCase (Campaign.title c))
                                          (toLowerCase searchQuery)
                                        || includes (toLowerCase (Campaign.description c))
                                             (toLowerCase searchQuery)
                                   else true) campaigns)))
      by (rewrite !filter_filter; apply filter_ext; intros x; unfold shown;
          now rewrite andb_assoc).
    destruct (truthy searchQuery), (String.eqb categoryFilter "all"), priorityOnly;
      cbn [negb]; rewrite ?filter_true; reflexivity. }
  split; [exact H|]. intros c. rewrite <- filter_In. split; intros Hc.
  - exact (Permutation_in _ (Permutation_sym H) Hc).
  - exact (Permutation_in _ H Hc).
Qed.

(** X12.  The ordering "ending soon" keeps every campaign and puts those
    with fewer days left first. *)
Theorem ending_soon_order (Date_parse : string -> number) (result : list Campaign.t) :
  Forall (fun c => finite (Campaign.daysLeft c)) result ->
  Permutation result (sorting Date_parse ending result)
  /\ StronglySorted ending_first (sorting Date_parse ending result).
Proof.
  intros H. split; [apply sorting_permutation|]. now apply ending_sorted.
Qed.

Lemma TimeClip_cases (t : number) : TimeClip t = NaN \/ exists z, TimeClip t = num z.
Proof.
  unfold TimeClip. destruct (ToNumber t); auto.
  destruct (Qle_bool _ _); [right; eexists; reflexivity|auto].
Qed.

(** The days left to an end time: NaN for a time that is not valid, a
    whole number that is not negative otherwise. *)
Lemma daysLeft_cases (endDate : number) (now : Z) :
  endDate = NaN \/ (exists e, endDate = num e) ->
  let daysLeft :=
    Math.max (num 0)
      (Math.ceil (div (sub endDate (num now)) (num (1000 * 60 * 60 * 24)))) in
  daysLeft = NaN \/ exists z, 0 <= z /\ daysLeft = num z.
Proof.
  intros [->|[e ->]]; cbv zeta; [left; reflexivity|right].
  rewrite daysLeft_of_end_time. exists (days_remaining e now).
  split; [unfold days_remaining; lia|reflexivity].
Qed.

Lemma add_zero (a b : number) : a = num 0 -> b = num 0 -> add a b = num 0.
Proof. intros -> ->. reflexivity. Qed.

Lemma total_zero (campaigns : list Campaign.t) (sum : number) :
  sum = num 0 -> Forall (fun c => Campaign.raised c = num 0) campaigns ->
  fold_left (fun sum c => add sum (Campaign.raised c)) campaigns sum = num 0.
Proof.
  revert sum. induction campaigns as [|c l IH]; intros sum Hs H; [exact Hs|].
  inversion H; subst. cbn [fold_left]. apply IH; [|assumption]. now apply add_zero.
Qed.

(** X13.  The figures above the list are those of the list without search
    and category filter: the number of campaigns is the number it shows,
    and the number of urgent ones is the number it shows when only
    high-priority campaigns are asked for, which is never more. *)
Theorem stats_count_the_list (Date_parse : string -> number) (campaigns : list Campaign.t)
    (sortBy : SortOption) :
  Stats.count (stats campaigns)
  = List.length (filteredCampaigns Date_parse campaigns "" "all" sortBy false)
  /\ Stats.urgent (stats campaigns)
     = List.length (filteredCampaigns Date_parse campaigns "" "all" sortBy true)
  /\ (Stats.urgent (stats campaigns) <= Stats.count (stats campaigns))%nat.
Proof.
  split; [|split].
  - unfold filteredCampaigns, stats. cbn.
    apply Permutation_length, sorting_permutation.
  - unfold filteredCampaigns, stats. cbn.
    apply Permutation_length, sorting_permutation.
  - unfold stats. cbn. apply filter_length_le.
Qed.

Lemma untouched_loaded (Date_parse : string -> number) (now : Z) (c : MockCampaign.t) :
  newly_created c -> untouched (apiToFrontendCampaign Date_parse now c).
Proof.
  intros (Hr & Hs & Hp). unfold untouched. cbn. rewrite Hr, Hs, Hp. repeat split.
Qed.

(** The list never fails to load; it loads the whole index, in its
    order. *)
Lemma fetchCampaigns_loads (Date_parse : string -> number) (now : Z) (w : World.t) :
  fetchCampaigns Date_parse now w
  = (Returned (map (apiToFrontendCampaign Date_parse now)
                 (if World.window w then read_index w else [])), w).
Proof.
  unfold fetchCampaigns, bind, getCampaigns. destruct (World.window w); reflexivity.
Qed.

(** X14.  An index that the wizard filled shows in the list as campaigns
    that nobody has given to: whatever the user did with the wizard and
    whatever the backend answered, every campaign of the list has nothing
    raised and no contributor, is shown as verified and not as urgent, and
    the figures above the list are a total of 0 and no urgent campaign. *)
Theorem wizard_campaigns_are_untouched (Date_parse : string -> number) (now : Z)
    (events : list Event) (p : Page.t) (w : World.t) :
  read_index w = [] ->
  exists campaigns,
    fst (fetchCampaigns Date_parse now (snd (run events p w))) = Returned campaigns
    /\ Forall untouched campaigns
    /\ Stats.total (stats campaigns) = num 0
    /\ Stats.urgent (stats campaigns) = 0%nat.
Proof.
  intros Hempty.
  assert (Hwf : well_formed w) by (unfold well_formed; rewrite Hempty; constructor).
  destruct (run_grows events p w Hwf) as (_ & cs & Hi & Hcs).
  rewrite Hempty, app_nil_r in Hi.
  rewrite fetchCampaigns_loads. eexists. split; [reflexivity|].
  assert (Hall : Forall untouched
                   (map (apiToFrontendCampaign Date_parse now)
                      (if World.window (snd (run events p w))
                       then read_index (snd (run events p w)) else []))).
  { destruct (World.window _); [|constructor]. rewrite Hi.
    apply Forall_map. revert Hcs. apply Forall_impl. intros c.
    apply untouched_loaded. }
  split; [exact Hall|]. split.
  - unfold stats. cbn [Stats.total]. apply total_zero; [reflexivity|].
    revert Hall. apply Forall_impl. intros c H. apply H.
  - unfold stats. cbn [Stats.urgent].
    induction Hall as [|c l (_ & _ & _ & Hc) _ IH]; [reflexivity|].
    cbn. rewrite Hc. exact IH.
Qed.

(** ** The page of a campaign *)

(** X15.  On the list as on the page of a campaign, the days left are never
    negative nor a fraction: they are a whole number from 0 up, or NaN
    when the dates of the record give no valid end; the two pages show
    the same days left. *)
Theorem daysLeft_is_whole (Date_parse : string -> number) (now : Z) (c : MockCampaign.t) :
  let days := Campaign.daysLeft (apiToFrontendCampaign Date_parse now c) in
  (days = NaN \/ exists z, 0 <= z /\ days = num z)
  /\ CampaignDetail.Campaign.daysLeft (CampaignDetail.apiToFrontendCampaign Date_parse now c)
     = days.
Proof.
  cbv zeta. split; [|reflexivity].
  cbn [apiToFrontendCampaign Campaign.daysLeft]. apply daysLeft_cases.
  destruct (MockCampaign.end_date c) as [[|ch s]|]; unfold getTime_of_string;
    match goal with
    | |- TimeClip ?t = NaN \/ _ => destruct (TimeClip_cases t) as [H|[z H]]; rewrite H
    end; eauto.
Qed.

Section DetailFacts.
Variable Date_parse : string -> number.
Variable getCampaignById : string -> option CampaignDetail.Campaign.t.

Lemma fetchCampaign_found (now : Z) (id : string) (p : CampaignDetail.Page.t) (w : World.t)
    (c : MockCampaign.t) :
  World.window w = true ->
  find (fun c => String.eqb (MockCampaign.id c) id) (read_index w) = Some c ->
  CampaignDetail.fetchCampaign Date_parse getCampaignById now id p w
  = (Returned
       {| CampaignDetail.Page.campaign :=
            Some (CampaignDetail.apiToFrontendCampaign Date_parse now c);
          CampaignDetail.Page.apiCampaign := Some c;
          CampaignDetail.Page.isLoading := false;
          CampaignDetail.Page.error := None |}, w).
Proof.
  intros Hw Hfind. unfold CampaignDetail.fetchCampaign, bind, try_catch.
  rewrite getCampaign_window by exact Hw. rewrite Hfind. reflexivity.
Qed.

Lemma fetchCampaign_not_found (now : Z) (id : string) (p : CampaignDetail.Page.t)
    (w : World.t) :
  World.window w = false
  \/ find (fun c => String.eqb (MockCampaign.id c) id) (read_index w) = None ->
  CampaignDetail.fetchCampaign Date_parse getCampaignById now id p w
  = (Returned
       match getCampaignById id with
       | Some mockCampaign =>
           {| CampaignDetail.Page.campaign := Some mockCampaign;
              CampaignDetail.Page.apiCampaign := CampaignDetail.Page.apiCampaign p;
              CampaignDetail.Page.isLoading := false;
              CampaignDetail.Page.error := None |}
       | None =>
           {| CampaignDetail.Page.campaign := CampaignDetail.Page.campaign p;
              CampaignDetail.Page.apiCampaign := CampaignDetail.Page.apiCampaign p;
              CampaignDetail.Page.isLoading := false;
              CampaignDetail.Page.error := Some "Campaign not found" |}
       end, w).
Proof.
  intros H. unfold CampaignDetail.fetchCampaign, bind, try_catch, getCampaign.
  destruct (World.window w) eqn:Hw.
  - destruct H as [H|H]; [discriminate|]. rewrite H. cbn.
    destruct (getCampaignById id); reflexivity.
  - cbn. destruct (getCampaignById id); reflexivity.
Qed.

End DetailFacts.

(** X16.  The page of a campaign never fails to load and leaves the index as
    it is.  A campaign of the index with the identifier of the address is
    shown, the first one when there are several; only when there is none
    is the sample campaign of that identifier shown, and only when there is
    none either does the page say that the campaign is not found.  In
    every case the page is no longer loading; a campaign that was shown
    before is not cleared by a failure. *)
Theorem fetchCampaign_settles (Date_parse : string -> number)
    (getCampaignById : string -> option CampaignDetail.Campaign.t) (now : Z) (id : string)
    (p : CampaignDetail.Page.t) (w : World.t) :
  exists p',
    CampaignDetail.fetchCampaign Date_parse getCampaignById now id p w = (Returned p', w)
    /\ CampaignDetail.Page.isLoading p' = false
    /\ match (if World.window w
              then find (fun c => String.eqb (MockCampaign.id c) id) (read_index w)
              else None), getCampaignById id with
       | Some c, _ =>
           CampaignDetail.Page.campaign p'
           = Some (CampaignDetail.apiToFrontendCampaign Date_parse now c)
           /\ CampaignDetail.Page.apiCampaign p' = Some c
           /\ CampaignDetail.Page.error p' = None
       | None, Some mockCampaign =>
           CampaignDetail.Page.campaign p' = Some mockCampaign
           /\ CampaignDetail.Page.apiCampaign p' = CampaignDetail.Page.apiCampaign p
           /\ CampaignDetail.Page.error p' = None
       | None, None =>
           CampaignDetail.Page.campaign p' = CampaignDetail.Page.campaign p
           /\ CampaignDetail.Page.apiCampaign p' = CampaignDetail.Page.apiCampaign p
           /\ CampaignDetail.Page.error p' = Some "Campaign not found"
       end.
Proof.
  destruct (World.window w) eqn:Hw.
  - destruct (find _ (read_index w)) as [c|] eqn:Hfind.
    + rewrite (fetchCampaign_found _ _ _ _ _ _ c Hw Hfind).
      eexists. split; [reflexivity|]. repeat split.
    + rewrite fetchCampaign_not_found by (now right).
      destruct (getCampaignById id); eexists; (split; [reflexivity|]); repeat split.
  - rewrite fetchCampaign_not_found by (now left).
    destruct (getCampaignById id); eexists; (split; [reflexivity|]); repeat split.
Qed.

Lemma found_after_creation (r : Request) (c : MockCampaign.t) (w : World.t) :
  World.window w = true ->
  let w' := snd (saveToLocalIndex c (World.send r w)) in
  World.window w' = true
  /\ find (fun c' => String.eqb (MockCampaign.id c') (MockCampaign.id c)) (read_index w')
     = Some (JSON_roundtrip c).
Proof.
  intros Hw. cbv zeta.
  destruct (stored_by_creation r c w) as [Hstored _]. cbv zeta in Hstored.
  destruct (Hstored Hw) as [Hindex _]. rewrite Hindex.
  split; [rewrite saveToLocalIndex_window by exact Hw; exact Hw|].
  cbn [find JSON_roundtrip MockCampaign.id]. now rewrite String.eqb_refl.
Qed.

(** X17.  The address that a successful creation leads to shows the campaign
    that was created: in a browser, the page of the campaign with the
    identifier that the backend returned loads the record that the
    creation stored, whatever was in the index and in the sample data, and
    shows no error. *)
Theorem created_campaign_has_its_page (Date_parse : string -> number)
    (getCampaignById : string -> option CampaignDetail.Campaign.t) (now : Z)
    (p : CampaignDetail.Page.t) (w w' : World.t) (res : CreateResponse.t) :
  World.window w = true ->
  (forall data,
     createIndividualCampaign data w = (Returned res, w') ->
     let c := JSON_roundtrip (individual_record data res (World.now w)) in
     CampaignDetail.fetchCampaign Date_parse getCampaignById now (CreateResponse.cid res) p w'
     = (Returned
          {| CampaignDetail.Page.campaign :=
               Some (CampaignDetail.apiToFrontendCampaign Date_parse now c);
             CampaignDetail.Page.apiCampaign := Some c;
             CampaignDetail.Page.isLoading := false;
             CampaignDetail.Page.error := None |}, w'))
  /\ (forall data,
        createCharityCampaign data w = (Returned res, w') ->
        let c := JSON_roundtrip (charity_record data res (World.now w)) in
        CampaignDetail.fetchCampaign Date_parse getCampaignById now (CreateResponse.cid res)
          p w'
        = (Returned
             {| CampaignDetail.Page.campaign :=
                  Some (CampaignDetail.apiToFrontendCampaign Date_parse now c);
                CampaignDetail.Page.apiCampaign := Some c;
                CampaignDetail.Page.isLoading := false;
                CampaignDetail.Page.error := None |}, w')).
Proof.
  intros Hw. split; intros data H; cbv zeta.
  - rewrite createIndividualCampaign_run in H.
    apply creation_returned in H. destruct H as [_ ->].
    destruct (found_after_creation (POST_campaigns_individual data)
                (individual_record data res (World.now w)) w Hw) as [Hw' Hfind].
    now apply fetchCampaign_found.
  - rewrite createCharityCampaign_run in H.
    apply creation_returned in H. destruct H as [_ ->].
    destruct (found_after_creation (POST_campaigns_charity data)
                (charity_record data res (World.now w)) w Hw) as [Hw' Hfind].
    now apply fetchCampaign_found.
Qed.

(** X18.  The page of a campaign and the list show the same campaign: of a
    record, both give the same identifier, title, full description, image,
    goal, raised amount, days left, contributors, creator, marks and date;
    the page shortens the description to its first line.  For the
    categories that the wizard offers the page finds the category in its
    table, or falls back to "community" for "Other"; it is the category of
    the list but for "Disaster Relief" and "Other". *)
Theorem page_agrees_with_list (Date_parse : string -> number) (now : Z) (c : MockCampaign.t) :
  let listed := apiToFrontendCampaign Date_parse now c in
  let paged := CampaignDetail.apiToFrontendCampaign Date_parse now c in
  (CampaignDetail.Campaign.id paged = Campaign.id listed
   /\ CampaignDetail.Campaign.title paged = Campaign.title listed
   /\ CampaignDetail.Campaign.fullDescription paged = Campaign.fullDescription listed
   /\ CampaignDetail.Campaign.description paged
      = CampaignDetail.first_line (Campaign.description listed)
   /\ CampaignDetail.Campaign.image paged = Campaign.image listed
   /\ CampaignDetail.Campaign.goal paged = Campaign.goal listed
   /\ CampaignDetail.Campaign.raised paged = Campaign.raised listed
   /\ CampaignDetail.Campaign.daysLeft paged = Campaign.daysLeft listed
   /\ CampaignDetail.Campaign.contributors paged = Campaign.contributors listed
   /\ CampaignDetail.Campaign.creatorName paged = Campaign.creatorName listed
   /\ CampaignDetail.Campaign.creatorAvatar paged = Campaign.creatorAvatar listed
   /\ CampaignDetail.Campaign.isVerified paged = Campaign.isVerified listed
   /\ CampaignDetail.Campaign.isHighPriority paged = Campaign.isHighPriority listed
   /\ CampaignDetail.Campaign.createdAt paged = Campaign.createdAt listed)
  /\ (In (MockCampaign.category c) CATEGORIES ->
      exists category,
        CampaignDetail.Campaign.category paged = CampaignDetail.Own category
        /\ (category = Campaign.category listed
            \/ MockCampaign.category c = "Disaster Relief" /\ category = "disaster"
               /\ Campaign.category listed = "disaster_relief"
            \/ MockCampaign.category c = "Other" /\ category = "community"
               /\ Campaign.category listed = "other")).
Proof.
  cbv zeta. split; [repeat split|].
  intros Hin.
  cbn [apiToFrontendCampaign CampaignDetail.apiToFrontendCampaign Campaign.category
       CampaignDetail.Campaign.category].
  unfold CATEGORIES in Hin. cbn [In] in Hin.
  repeat (destruct Hin as [<-|Hin]; [eexists; split; [reflexivity|]; cbn; auto 6|]).
  contradiction.
Qed.

(* ================================================================== *)
(** * Further properties: the contract *)
(* ================================================================== *)

Section ContractFacts.
Import Contract.

Lemma set_same (id : Z) (c : Campaign.t) (campaigns : Z -> Campaign.t) :
  set id c campaigns id = c.
Proof. unfold set. now rewrite Z.eqb_refl. Qed.

Lemma set_other (id id' : Z) (c : Campaign.t) (campaigns : Z -> Campaign.t) :
  id' <> id -> set id c campaigns id' = campaigns id'.
Proof. intros H. unfold set. now destruct (Z.eqb_spec id' id). Qed.

Lemma after_all_cons (tx : Msg.t * Call) (txs : list (Msg.t * Call)) (s : State.t) :
  after_all (tx :: txs) s = after_all txs (after (fst tx) (snd tx) s).
Proof. reflexivity. Qed.

Lemma after_all_app (txs txs' : list (Msg.t * Call)) (s : State.t) :
  after_all (txs ++ txs') s = after_all txs' (after_all txs s).
Proof. apply fold_left_app. Qed.

(** A property that every transaction keeps holds after any number of
    them. *)
Lemma after_all_keeps (ok : Msg.t -> Prop) (I : State.t -> Prop) :
  (forall msg c s, ok msg -> I s -> I (after msg c s)) ->
  forall txs s, Forall (fun tx => ok (fst tx)) txs -> I s -> I (after_all txs s).
Proof.
  intros Hstep txs. induction txs as [|tx txs IH]; intros s Hok Hs; [exact Hs|].
  rewrite after_all_cons. inversion Hok; subst. apply IH; [assumption|].
  now apply Hstep.
Qed.

End ContractFacts.

(** The conditions of a call, as arithmetic. *)
Ltac conditions :=
  rewrite ?negb_true_iff, ?negb_false_iff in *;
  rewrite ?andb_true_iff, ?andb_false_iff in *;
  rewrite ?Z.ltb_lt, ?Z.ltb_ge, ?Z.leb_le, ?Z.leb_gt, ?Z.eqb_eq, ?Z.eqb_neq in *.

(** The cases of a transaction. *)
Ltac transaction c :=
  unfold Contract.after, Contract.call, Contract.createCampaign, Contract.donate,
    Contract.completeCampaign;
  destruct c;
  repeat match goal with
         | |- context [if ?b then _ else _] => destruct b eqn:?
         end;
  cbn [Contract.State.campaigns Contract.State.campaignCount Contract.State.balance
       Contract.State.events];
  conditions.

Section ContractRuns.
Import Contract.

Lemma raised_up_to_set_above (id : Z) (c : Campaign.t) (campaigns : Z -> Campaign.t) (n : nat) :
  Z.of_nat n < id ->
  raised_up_to (set id c campaigns) n = raised_up_to campaigns n.
Proof.
  induction n as [|n IH]; intros H; [reflexivity|].
  cbn [raised_up_to]. rewrite IH by lia. rewrite set_other by lia. reflexivity.
Qed.

Lemma raised_up_to_set (id : Z) (c : Campaign.t) (campaigns : Z -> Campaign.t) (n : nat) :
  1 <= id <= Z.of_nat n ->
  raised_up_to (set id c campaigns) n
  = raised_up_to campaigns n + Campaign.raised c - Campaign.raised (campaigns id).
Proof.
  induction n as [|n IH]; intros H; [lia|].
  cbn [raised_up_to]. destruct (Z.eq_dec id (Z.of_nat (S n))) as [->|Hne].
  - rewrite set_same. rewrite raised_up_to_set_above by lia. lia.
  - rewrite IH by lia. rewrite set_other by lia. lia.
Qed.

Lemma donated_app (events events' : list Event) :
  donated (events ++ events') = donated events + donated events'.
Proof.
  induction events as [|e events IH]; [reflexivity|].
  destruct e; cbn [donated app]; rewrite IH; lia.
Qed.

Lemma created_ids_app (events events' : list Event) :
  created_ids (events ++ events') = (created_ids events ++ created_ids events')%list.
Proof.
  induction events as [|e events IH]; [reflexivity|].
  destruct e; cbn [created_ids app]; rewrite IH; reflexivity.
Qed.

Lemma accounted_deployed : accounted deployed.
Proof. repeat split; cbn; intros; reflexivity || lia. Qed.

Lemma accounted_after (msg : Msg.t) (c : Call) (s : State.t) :
  accounted s -> accounted (after msg c s).
Proof.
  intros (H0 & Hout & Hbal & Hev). unfold accounted, total_raised.
  transaction c; try (repeat split; assumption).
  - (* createCampaign *)
    repeat split.
    + lia.
    + intros id Hid. rewrite set_other by lia. apply Hout. lia.
    + rewrite Z2Nat.inj_add by lia. change (Z.to_nat 1) with 1%nat.
      rewrite Nat.add_1_r. cbn [raised_up_to].
      rewrite Nat2Z.inj_succ, Z2Nat.id by lia. unfold Z.succ.
      rewrite set_same. cbn. rewrite raised_up_to_set_above by lia.
      unfold total_raised in Hbal. lia.
    + rewrite donated_app. cbn. lia.
  - (* donate *)
    repeat split.
    + lia.
    + intros id Hid. rewrite set_other by lia. now apply Hout.
    + rewrite raised_up_to_set by lia. cbn. unfold total_raised in Hbal. lia.
    + rewrite donated_app. cbn. lia.
  - (* completeCampaign *)
    repeat split.
    + lia.
    + intros id Hid. unfold set. destruct (Z.eqb_spec id _id); [subst; cbn|]; now apply Hout.
    + destruct (Z_lt_le_dec (State.campaignCount s) _id) as [Hlt|Hle].
      * rewrite raised_up_to_set_above by lia. exact Hbal.
      * destruct (Z_lt_le_dec _id 1) as [Hlow|Hup].
        -- assert (forall n f, raised_up_to (set _id
              {| Campaign.creator := Campaign.creator (State.campaigns s _id);
                 Campaign.goal := Campaign.goal (State.campaigns s _id);
                 Campaign.raised := Campaign.raised (State.campaigns s _id);
                 Campaign.completed := true;
                 Campaign.metadataCID := Campaign.metadataCID (State.campaigns s _id) |} f) n
               = raised_up_to f n) as E.
           { induction n as [|n IH]; intros f; [reflexivity|].
             cbn [raised_up_to]. rewrite IH. rewrite set_other by lia. reflexivity. }
           rewrite E. exact Hbal.
        -- rewrite raised_up_to_set by lia. cbn. unfold total_raised in Hbal. lia.
    + rewrite donated_app. cbn. lia.
Qed.

(** X19.  The books of the contract balance: whatever transactions were
    sent to it since its deployment, the ether that they have paid in is
    the sum of what the campaigns have raised, and the sum of the amounts
    of the DonationReceived events; no function pays ether out. *)
Theorem balance_is_total_raised (txs : list (Msg.t * Call)) :
  let s := after_all txs deployed in
  State.balance s = total_raised s /\ State.balance s = donated (State.events s).
Proof.
  assert (accounted (after_all txs deployed)) as (_ & _ & H1 & H2).
  { apply (after_all_keeps (fun _ => True)).
    - intros msg c s _. apply accounted_after.
    - now apply Forall_forall.
    - apply accounted_deployed. }
  now split.
Qed.

Lemma numbered_deployed : numbered deployed.
Proof.
  repeat split; cbn; try lia; unfold existing in *; cbn in *; intros; lia || reflexivity.
Qed.

Lemma numbered_after (msg : Msg.t) (c : Call) (s : State.t) :
  delivered msg -> numbered s -> numbered (after msg c s).
Proof.
  intros (_ & Hsender) (H0 & Hids & Hin & Hout). unfold numbered, existing in *.
  transaction c; try (split; [|split; [|split]]; assumption).
  - (* createCampaign *)
    split; [lia|]. split; [|split].
    + rewrite created_ids_app, Hids. cbn [created_ids].
      rewrite Z2Nat.inj_add by lia. change (Z.to_nat 1) with 1%nat.
      rewrite Nat.add_1_r, seq_S, map_app. cbn [map Nat.add].
      rewrite Nat2Z.inj_succ, Z2Nat.id by lia. reflexivity.
    + intros id Hid. destruct (Z.eq_dec id (State.campaignCount s + 1)) as [->|Hne].
      * rewrite set_same. cbn. split; assumption.
      * rewrite set_other by assumption. apply Hin. lia.
    + intros id Hid. rewrite set_other by lia. apply Hout. lia.
  - (* donate *)
    split; [lia|]. split; [|split].
    + rewrite created_ids_app, Hids. cbn. now rewrite app_nil_r.
    + intros id Hid. destruct (Z.eq_dec id _id) as [->|Hne].
      * rewrite set_same. cbn. now apply Hin.
      * rewrite set_other by assumption. now apply Hin.
    + intros id Hid. rewrite set_other by lia. now apply Hout.
  - (* completeCampaign *)
    assert (1 <= _id <= State.campaignCount s) as Hex.
    { destruct (Z_le_dec 1 _id); [destruct (Z_le_dec _id (State.campaignCount s))|];
        try lia; rewrite Hout in * by lia; cbn in *; congruence. }
    split; [lia|]. split; [|split].
    + rewrite created_ids_app, Hids. cbn. now rewrite app_nil_r.
    + intros id Hid. destruct (Z.eq_dec id _id) as [->|Hne].
      * rewrite set_same. cbn. now apply Hin.
      * rewrite set_other by assumption. now apply Hin.
    + intros id Hid. rewrite set_other by lia. now apply Hout.
Qed.

(** X20.  The campaigns are numbered 1, 2, ... in the order of their creation;
    each has a positive goal and a creator, and the contract never writes a
    slot outside these numbers. *)
Theorem campaigns_are_numbered (txs : list (Msg.t * Call)) :
  Forall (fun tx => delivered (fst tx)) txs ->
  numbered (after_all txs deployed).
Proof.
  intros Htxs. apply (after_all_keeps delivered); try assumption.
  - intros msg c s. apply numbered_after.
  - apply numbered_deployed.
Qed.

Lemma advanced_refl (s : State.t) (id : Z) : advanced s s id.
Proof. unfold advanced. repeat split; try reflexivity; try lia. auto. Qed.

Lemma advanced_trans (s s' s'' : State.t) (id : Z) :
  advanced s s' id -> advanced s' s'' id -> advanced s s'' id.
Proof.
  unfold advanced. intros (A1 & A2 & A3 & A4 & A5) (B1 & B2 & B3 & B4 & B5).
  repeat split; try congruence; try lia. auto.
Qed.

Lemma after_advances (msg : Msg.t) (c : Call) (s : State.t) :
  0 <= Msg.value msg ->
  State.campaignCount s <= State.campaignCount (after msg c s)
  /\ forall id, existing s id -> advanced s (after msg c s) id.
Proof.
  intros Hvalue. unfold existing.
  transaction c; try (split; [lia|intros; apply advanced_refl]).
  - split; [lia|]. intros id Hid. unfold advanced. cbn [State.campaigns].
    rewrite set_other by lia. repeat split; try reflexivity; try lia; try congruence; auto.
  - split; [lia|]. intros id Hid. unfold advanced. cbn [State.campaigns].
    destruct (Z.eq_dec id _id) as [->|Hne].
    + rewrite set_same. cbn. repeat split; try reflexivity; try lia; try congruence; auto.
    + rewrite set_other by assumption. repeat split; try reflexivity; try lia; try congruence; auto.
  - split; [lia|]. intros id Hid. unfold advanced. cbn [State.campaigns].
    destruct (Z.eq_dec id _id) as [->|Hne].
    + rewrite set_same. cbn. repeat split; try reflexivity; try lia; try congruence; auto.
    + rewrite set_other by assumption. repeat split; try reflexivity; try lia; try congruence; auto.
Qed.

(** X21.  A campaign, once created, keeps its creator, its goal and its
    metadata; what it has raised never goes down and a completed campaign
    stays completed; the number of campaigns never goes down. *)
Theorem campaigns_only_advance (txs : list (Msg.t * Call)) (s : State.t) :
  Forall (fun tx => 0 <= Msg.value (fst tx)) txs ->
  State.campaignCount s <= State.campaignCount (after_all txs s)
  /\ forall id, existing s id -> advanced s (after_all txs s) id.
Proof.
  revert s. induction txs as [|[msg c] txs IH]; intros s Htxs.
  - split; [cbn; lia|]. intros. apply advanced_refl.
  - rewrite after_all_cons. cbn [fst snd]. inversion Htxs as [|? ? Hmsg Hrest]; subst.
    cbn [fst] in Hmsg.
    destruct (after_advances msg c s Hmsg) as [Hcount Hadv].
    destruct (IH (after msg c s) Hrest) as [Hcount' Hadv'].
    split; [lia|]. intros id Hid.
    apply advanced_trans with (after msg c s); [now apply Hadv|].
    apply Hadv'. unfold existing in *. lia.
Qed.

Lemma after_keeps_completed (msg : Msg.t) (c : Call) (s : State.t) (id : Z) :
  existing s id -> Campaign.completed (State.campaigns s id) = true ->
  existing (after msg c s) id
  /\ State.campaigns (after msg c s) id = State.campaigns s id.
Proof.
  intros Hid Hdone. unfold existing in *.
  transaction c; try (split; [assumption|reflexivity]).
  - split; [lia|]. rewrite set_other by lia. reflexivity.
  - split; [lia|]. rewrite set_other by congruence. reflexivity.
  - split; [lia|]. destruct (Z.eq_dec id _id) as [->|Hne].
    + rewrite set_same. destruct (State.campaigns s _id). cbn in *. now subst.
    + rewrite set_other by assumption. reflexivity.
Qed.

(** X22.  Completing a campaign is final: whatever is sent to the contract
    afterwards, the campaign stays as it was closed, with the same amount
    raised. *)
Theorem completed_campaign_is_final (txs : list (Msg.t * Call)) (s : State.t) (id : Z) :
  existing s id -> Campaign.completed (State.campaigns s id) = true ->
  State.campaigns (after_all txs s) id = State.campaigns s id.
Proof.
  revert s. induction txs as [|[msg c] txs IH]; intros s Hid Hdone; [reflexivity|].
  rewrite after_all_cons. cbn [fst snd].
  destruct (after_keeps_completed msg c s id Hid Hdone) as [Hid' E].
  rewrite IH; [exact E|exact Hid'|now rewrite E].
Qed.

Lemma after_completes (msg : Msg.t) (c : Call) (s : State.t) (id : Z) :
  existing s id ->
  existing (after msg c s) id
  /\ Campaign.creator (State.campaigns (after msg c s) id)
     = Campaign.creator (State.campaigns s id)
  /\ (Campaign.completed (State.campaigns s id) = false ->
      Campaign.completed (State.campaigns (after msg c s) id) = true ->
      c = call_completeCampaign id
      /\ Msg.sender msg = Campaign.creator (State.campaigns s id)
      /\ Msg.value msg = 0).
Proof.
  intros Hid. unfold existing in *.
  transaction c; try (split; [assumption|split; [reflexivity|congruence]]).
  - split; [lia|]. rewrite set_other by lia. split; [reflexivity|congruence].
  - split; [lia|]. destruct (Z.eq_dec id _id) as [->|Hne].
    + rewrite set_same. cbn. split; [reflexivity|congruence].
    + rewrite set_other by assumption. split; [reflexivity|congruence].
  - split; [lia|]. destruct (Z.eq_dec id _id) as [->|Hne].
    + rewrite set_same. cbn. split; [reflexivity|]. intros _ _. repeat split; assumption.
    + rewrite set_other by assumption. split; [reflexivity|congruence].
Qed.

(** X23.  Nobody but its creator closes a campaign: when a campaign that was
    open is found completed, one of the transactions in between was a
    [completeCampaign] for it, sent without ether by its creator. *)
Theorem only_the_creator_completes (txs : list (Msg.t * Call)) (s : State.t) (id : Z) :
  existing s id ->
  Campaign.completed (State.campaigns s id) = false ->
  Campaign.completed (State.campaigns (after_all txs s) id) = true ->
  exists msg,
    In (msg, call_completeCampaign id) txs
    /\ Msg.sender msg = Campaign.creator (State.campaigns s id)
    /\ Msg.value msg = 0.
Proof.
  revert s. induction txs as [|[msg c] txs IH]; intros s Hid Hopen Hdone.
  - cbn in Hdone. congruence.
  - rewrite after_all_cons in Hdone. cbn [fst snd] in Hdone.
    destruct (after_completes msg c s id Hid) as (Hid' & Hcreator & Hstep).
    destruct (Campaign.completed (State.campaigns (after msg c s) id)) eqn:Hnow.
    + destruct (Hstep Hopen eq_refl) as (-> & Hs & Hv).
      exists msg. split; [now left|]. now split.
    + destruct (IH (after msg c s) Hid' Hnow Hdone) as (msg' & Hin & Hs & Hv).
      exists msg'. split; [now right|]. split; [congruence|assumption].
Qed.

(** X24.  A donation is accepted exactly when the campaign exists, is not
    completed and the amount fits: neither a payment of nothing nor a goal
    already reached is refused. *)
Theorem donate_accepts (_id : Z) (msg : Msg.t) (s : State.t) :
  (exists s', donate _id msg s = Success s')
  <-> existing s _id
      /\ Campaign.completed (State.campaigns s _id) = false
      /\ Campaign.raised (State.campaigns s _id) + Msg.value msg <= MAX.
Proof.
  unfold donate, existing.
  destruct (Z.ltb_spec 0 _id); destruct (Z.leb_spec _id (State.campaignCount s));
    cbn [andb negb];
    try (split; [intros [s' E]; discriminate|intros (? & _); lia]).
  destruct (Campaign.completed (State.campaigns s _id));
    [split; [intros [s' E]; discriminate|intros (_ & ? & _); discriminate]|].
  destruct (Z.ltb_spec MAX (Campaign.raised (State.campaigns s _id) + Msg.value msg)).
  - split; [intros [s' E]; discriminate|intros (_ & _ & ?); lia].
  - split; [intros _; repeat split; lia|intros _; eexists; reflexivity].
Qed.

End ContractRuns.

Section ContractExamples.
Import Contract.

(** The fundraiser leaves one campaign, numbered 1. *)
Lemma campaigns_are_numbered_fundraiser :
  Forall (fun tx => delivered (fst tx)) (fundraiser ++ latecomers)
  /\ numbered (after_all (fundraiser ++ latecomers) deployed)
  /\ State.campaignCount (after_all (fundraiser ++ latecomers) deployed) = 2.
Proof.
  assert (H : Forall (fun tx => delivered (fst tx)) (fundraiser ++ latecomers)).
  { repeat constructor; cbn; try lia; try discriminate. }
  split; [exact H|]. split; [|reflexivity].
  exact (campaigns_are_numbered (fundraiser ++ latecomers) H).
Defined.

(** The campaign of the fundraiser keeps its goal while the latecomers
    arrive. *)
Lemma campaigns_only_advance_latecomers :
  let s := after_all fundraiser deployed in
  Forall (fun tx => 0 <= Msg.value (fst tx)) latecomers
  /\ existing s 1
  /\ State.campaignCount s <= State.campaignCount (after_all latecomers s)
  /\ advanced s (after_all latecomers s) 1.
Proof.
  cbv zeta.
  assert (H : Forall (fun tx => 0 <= Msg.value (fst tx)) latecomers).
  { repeat constructor; cbn; lia. }
  assert (H1 : existing (after_all fundraiser deployed) 1).
  { unfold existing. cbn. lia. }
  split; [exact H|]. split; [exact H1|].
  destruct (campaigns_only_advance latecomers (after_all fundraiser deployed) H)
    as [Hcount Hadv].
  split; [exact Hcount|exact (Hadv 1 H1)].
Defined.

(** The donation of a latecomer does not reach the closed campaign. *)
Lemma completed_campaign_is_final_latecomers :
  let s := after_all fundraiser deployed in
  existing s 1
  /\ Campaign.completed (State.campaigns s 1) = true
  /\ State.campaigns (after_all latecomers s) 1 = State.campaigns s 1
  /\ Campaign.raised (State.campaigns s 1) = 400.
Proof.
  cbv zeta.
  assert (H1 : existing (after_all fundraiser deployed) 1).
  { unfold existing. cbn. lia. }
  split; [exact H1|]. split; [reflexivity|]. split; [|reflexivity].
  exact (completed_campaign_is_final latecomers (after_all fundraiser deployed) 1 H1 eq_refl).
Defined.

(** In the fundraiser the campaign is closed by account 1, its creator. *)
Lemma only_the_creator_completes_fundraiser :
  let s := after_all [(from 1 0, call_createCampaign 1000 "cid123")] deployed in
  let txs := tl fundraiser in
  existing s 1
  /\ Campaign.completed (State.campaigns s 1) = false
  /\ Campaign.completed (State.campaigns (after_all txs s) 1) = true
  /\ exists msg,
       In (msg, call_completeCampaign 1) txs
       /\ Msg.sender msg = Campaign.creator (State.campaigns s 1)
       /\ Msg.value msg = 0.
Proof.
  cbv zeta.
  assert (H1 : existing (after_all [(from 1 0, call_createCampaign 1000 "cid123")] deployed) 1).
  { unfold existing. cbn. lia. }
  split; [exact H1|]. split; [reflexivity|]. split; [reflexivity|].
  exact (only_the_creator_completes (tl fundraiser)
           (after_all [(from 1 0, call_createCampaign 1000 "cid123")] deployed) 1
           H1 eq_refl eq_refl).
Defined.

End ContractExamples.

(* ================================================================== *)
(** * Further properties: the deployment script *)
(* ================================================================== *)

Section DeployFacts.
Import Deploy.

Lemma substring_all (s : string) (m : nat) :
  (String.length s <= m)%nat -> String.substring 0 m s = s.
Proof.
  revert m. induction s as [|c s IH]; intros m H.
  - now destruct m.
  - destruct m as [|m]; [cbn in H; lia|]. cbn. rewrite IH; [reflexivity|cbn in H; lia].
Qed.

Lemma prefix_split (p s : string) (m : nat) :
  String.prefix p s = true -> (String.length s <= m)%nat ->
  s = p ++ String.substring (String.length p) m s.
Proof.
  revert s. induction p as [|a p IH]; intros s Hp Hm.
  - cbn. now rewrite substring_all.
  - destruct s as [|b s]; [discriminate|]. cbn in Hp.
    destruct (ascii_dec a b) as [->|]; [|discriminate].
    cbn. rewrite <- IH; [reflexivity|assumption|cbn in Hm; lia].
Qed.

Lemma prefix_app (p s : string) : String.prefix p (p ++ s) = true.
Proof.
  induction p as [|a p IH]; [now destruct s|].
  cbn. destruct (ascii_dec a a); [assumption|congruence].
Qed.

(** Whether [p] starts a text is settled by as many characters as [p]
    has. *)
Lemma prefix_settled (p u x y : string) :
  (String.length p <= String.length u)%nat ->
  String.prefix p (u ++ x) = String.prefix p (u ++ y).
Proof.
  revert u. induction p as [|a p IH]; intros u H.
  - now destruct (u ++ x), (u ++ y).
  - destruct u as [|b u]; [cbn in H; lia|]. cbn.
    destruct (ascii_dec a b); [apply IH; cbn in H; lia|reflexivity].
Qed.

Lemma prefix_cons (a b : ascii) (p s : string) :
  String.prefix (String a p) (String b s) = if ascii_dec a b then String.prefix p s else false.
Proof. reflexivity. Qed.

(** A text that does not start with [p] does not either when a line
    feed and more are appended, [p] having no line feed. *)
Lemma prefix_line_feed (p u y : string) :
  String.prefix p u = false -> plain p = true ->
  String.prefix p (u ++ LF ++ y) = false.
Proof.
  revert u. induction p as [|a p IH]; intros u Hu Hp; [destruct u; discriminate|].
  cbn in Hp. apply andb_true_iff in Hp. destruct Hp as [Ha Hp].
  apply andb_true_iff in Ha. destruct Ha as [_ Ha]. apply negb_true_iff in Ha.
  destruct u as [|b u].
  - change ("" ++ LF ++ y) with (String (ascii_of_nat 10) y). rewrite prefix_cons.
    destruct (ascii_dec a (ascii_of_nat 10)) as [->|]; [vm_compute in Ha; discriminate|reflexivity].
  - change (String b u ++ LF ++ y) with (String b (u ++ LF ++ y)).
    rewrite prefix_cons in *. destruct (ascii_dec a b); [|reflexivity].
    now apply IH.
Qed.

Lemma rest_of_line_split (s line after : string) :
  rest_of_line s = (line, after) ->
  s = line ++ after /\ rest_of_line after = ("", after).
Proof.
  revert line. induction s as [|c s IH]; intros line E.
  - cbn in E. injection E as <- <-. now split.
  - cbn in E. destruct (is_line_terminator c) eqn:Hc.
    + injection E as <- <-. split; [reflexivity|]. cbn. now rewrite Hc.
    + destruct (rest_of_line s) as [l a] eqn:Es. injection E as <- <-.
      destruct (IH l eq_refl) as [-> Ha]. now split.
Qed.

Lemma rest_of_line_plain (address after : string) :
  plain address = true -> rest_of_line after = ("", after) ->
  rest_of_line (address ++ after) = (address, after).
Proof.
  intros Hp Ha. induction address as [|c address IH]; [exact Ha|].
  cbn in Hp. apply andb_true_iff in Hp. destruct Hp as [Hc Hp].
  apply andb_true_iff in Hc. destruct Hc as [_ Hc]. apply negb_true_iff in Hc.
  cbn. rewrite Hc, IH by assumption. reflexivity.
Qed.

Lemma substitution_plain (replacement matched before after : string) :
  plain replacement = true ->
  substitution replacement matched before after = replacement.
Proof.
  induction replacement as [|d tail IH]; intros Hp; [reflexivity|].
  cbn in Hp. apply andb_true_iff in Hp. destruct Hp as [Hd Hp].
  apply andb_true_iff in Hd. destruct Hd as [Hd _]. apply negb_true_iff in Hd.
  cbn [substitution]. rewrite Hd, IH by assumption. reflexivity.
Qed.

Lemma plain_app (a b : string) : plain a = true -> plain b = true -> plain (a ++ b) = true.
Proof.
  intros Ha Hb. induction a as [|c a IH]; [exact Hb|].
  cbn in *. apply andb_true_iff in Ha. destruct Ha as [Hc Ha].
  rewrite Hc, IH by assumption. reflexivity.
Qed.

Lemma first_match_unfold (s : string) :
  first_match s
  = if String.prefix "CONTRACT_ADDRESS=" s then
      let (line, after) := rest_of_line (String.substring 17 (String.length s) s) in
      Some (EmptyString, "CONTRACT_ADDRESS=" ++ line, after)
    else
      match s with
      | EmptyString => None
      | String c s' =>
          match first_match s' with
          | Some (before, matched, after) => Some (String c before, matched, after)
          | None => None
          end
      end.
Proof. destruct s; reflexivity. Qed.

Lemma first_match_key (x : string) :
  first_match ("CONTRACT_ADDRESS=" ++ x)
  = let (line, after) := rest_of_line x in Some ("", "CONTRACT_ADDRESS=" ++ line, after).
Proof.
  rewrite first_match_unfold, prefix_app.
  replace (String.substring 17 (String.length ("CONTRACT_ADDRESS=" ++ x))
             ("CONTRACT_ADDRESS=" ++ x))
    with x; [reflexivity|].
  cbn. symmetry. apply substring_all. lia.
Qed.

Lemma includes_first_match (s : string) :
  includes s "CONTRACT_ADDRESS=" = match first_match s with Some _ => true | None => false end.
Proof.
  induction s as [|c s IH].
  - reflexivity.
  - rewrite first_match_unfold. cbn [includes].
    destruct (String.prefix "CONTRACT_ADDRESS=" (String c s)).
    + cbn. now destruct (rest_of_line _).
    + cbn [orb]. rewrite IH. now destruct (first_match s) as [[[b m] a]|].
Qed.

(** The first match: where it is, and that it stays the first one
    whatever the line is replaced with. *)
Lemma first_match_found (s before matched after : string) :
  first_match s = Some (before, matched, after) ->
  exists line,
    matched = "CONTRACT_ADDRESS=" ++ line
    /\ s = before ++ "CONTRACT_ADDRESS=" ++ line ++ after
    /\ rest_of_line after = ("", after)
    /\ forall x, first_match (before ++ "CONTRACT_ADDRESS=" ++ x)
                 = let (l, a) := rest_of_line x in Some (before, "CONTRACT_ADDRESS=" ++ l, a).
Proof.
  revert before. induction s as [|c s IH]; intros before E.
  - discriminate.
  - rewrite first_match_unfold in E.
    destruct (String.prefix "CONTRACT_ADDRESS=" (String c s)) eqn:Hp.
    + destruct (rest_of_line (String.substring _ _ _)) as [line a] eqn:Er.
      injection E as <- <- <-.
      apply rest_of_line_split in Er. destruct Er as [Er Ha].
      exists line. split; [reflexivity|]. split; [|split; [exact Ha|]].
      * rewrite <- Er. apply (prefix_split "CONTRACT_ADDRESS="); [exact Hp|lia].
      * intros x. apply first_match_key.
    + destruct (first_match s) as [[[b m] a]|] eqn:Es; [|discriminate].
      injection E as <- <- <-.
      destruct (IH b eq_refl) as (line & Hm & Hs & Ha & Hx).
      exists line. split; [exact Hm|]. split; [now rewrite Hs|]. split; [exact Ha|].
      intros x. rewrite first_match_unfold.
      replace (String.prefix "CONTRACT_ADDRESS=" (String c b ++ "CONTRACT_ADDRESS=" ++ x))
        with false.
      * change (String c b ++ "CONTRACT_ADDRESS=" ++ x)
          with (String c (b ++ "CONTRACT_ADDRESS=" ++ x)).
        cbv iota. rewrite Hx. now destruct (rest_of_line x).
      * symmetry. etransitivity; [|exact Hp]. rewrite Hs.
        change (String c (b ++ "CONTRACT_ADDRESS=" ++ line ++ a))
          with (String c b ++ "CONTRACT_ADDRESS=" ++ line ++ a).
        rewrite <- (string_app_assoc (String c b) "CONTRACT_ADDRESS=" (line ++ a)).
        rewrite <- (string_app_assoc (String c b) "CONTRACT_ADDRESS=" x).
        apply prefix_settled. rewrite string_length_app. cbn. lia.
Qed.

(** Without a match, the line that is appended is the first match. *)
Lemma first_match_appended (s x : string) :
  first_match s = None ->
  first_match (s ++ LF ++ "CONTRACT_ADDRESS=" ++ x)
  = let (l, a) := rest_of_line x in Some (s ++ LF, "CONTRACT_ADDRESS=" ++ l, a).
Proof.
  induction s as [|c s IH]; intros E.
  - change ("" ++ LF ++ "CONTRACT_ADDRESS=" ++ x)
      with (String (ascii_of_nat 10) ("CONTRACT_ADDRESS=" ++ x)).
    rewrite first_match_unfold.
    change (String.prefix "CONTRACT_ADDRESS="
              (String (ascii_of_nat 10) ("CONTRACT_ADDRESS=" ++ x)))
      with false.
    cbv iota. rewrite first_match_key. now destruct (rest_of_line x).
  - rewrite first_match_unfold in E.
    destruct (String.prefix "CONTRACT_ADDRESS=" (String c s)) eqn:Hp;
      [destruct (rest_of_line (String.substring _ _ _)); discriminate|].
    destruct (first_match s) as [[[b m] a]|] eqn:Es; [discriminate|].
    rewrite first_match_unfold.
    replace (String.prefix "CONTRACT_ADDRESS=" (String c s ++ LF ++ "CONTRACT_ADDRESS=" ++ x))
      with false.
    + change (String c s ++ LF ++ "CONTRACT_ADDRESS=" ++ x)
        with (String c (s ++ LF ++ "CONTRACT_ADDRESS=" ++ x)).
      cbv iota. rewrite IH by reflexivity. now destruct (rest_of_line x).
    + symmetry. apply prefix_line_feed; [exact Hp|reflexivity].
Qed.

End DeployFacts.

(** X25.  [updateEnvFile] leaves a file whose first [CONTRACT_ADDRESS=] line
    holds the address; the rest of the file is as it was: either there was
    no such line and one is added at the end, or the first one is replaced
    up to the end of its line. Running it again with the same address
    changes nothing. *)
Theorem updateEnvFile_sets_address (envContent address : string) :
  plain address = true ->
  exists new before after,
    Deploy.updateEnvFile address (Some envContent) = Some new
    /\ new = before ++ "CONTRACT_ADDRESS=" ++ address ++ after
    /\ Deploy.first_match new = Some (before, "CONTRACT_ADDRESS=" ++ address, after)
    /\ (includes envContent "CONTRACT_ADDRESS=" = false
        /\ before = envContent ++ Deploy.LF /\ after = ""
        \/ exists line,
             envContent = before ++ "CONTRACT_ADDRESS=" ++ line ++ after
             /\ Deploy.rest_of_line (line ++ after) = (line, after))
    /\ Deploy.updateEnvFile address (Some new) = Some new.
Proof.
  intros Hplain.
  assert (Hre : forall new before after,
             new = before ++ "CONTRACT_ADDRESS=" ++ address ++ after ->
             Deploy.first_match new = Some (before, "CONTRACT_ADDRESS=" ++ address, after) ->
             Deploy.updateEnvFile address (Some new) = Some new).
  { intros new before after Hnew Hfirst. cbn [Deploy.updateEnvFile]. f_equal.
    unfold Deploy.newContent, Deploy.replace_address.
    rewrite includes_first_match, Hfirst.
    rewrite substitution_plain by (apply (plain_app "CONTRACT_ADDRESS="); [reflexivity|assumption]).
    rewrite Hnew. now rewrite string_app_assoc. }
  cbn [Deploy.updateEnvFile]. unfold Deploy.newContent at 1, Deploy.replace_address.
  rewrite includes_first_match.
  destruct (Deploy.first_match envContent) as [[[before matched] after]|] eqn:E.
  - destruct (first_match_found _ _ _ _ E) as (line & Hm & Hs & Ha & Hx).
    rewrite substitution_plain by (apply (plain_app "CONTRACT_ADDRESS="); [reflexivity|assumption]).
    assert (Hfirst : Deploy.first_match (before ++ "CONTRACT_ADDRESS=" ++ address ++ after)
                     = Some (before, "CONTRACT_ADDRESS=" ++ address, after)).
    { rewrite Hx, rest_of_line_plain by assumption. reflexivity. }
    exists (before ++ "CONTRACT_ADDRESS=" ++ address ++ after), before, after.
    split; [now rewrite string_app_assoc|]. split; [reflexivity|]. split; [exact Hfirst|].
    split.
    + right. exists line. split; [exact Hs|].
      apply rest_of_line_split in Ha as Ha'. 
      assert (Hl : Deploy.rest_of_line (line ++ after) = (line, after)).
      { subst matched. rewrite Hs in E. rewrite Hx in E.
        destruct (Deploy.rest_of_line (line ++ after)) as [l a].
        injection E as E1 E2. subst a. f_equal.
        clear -E1. cbn in E1. congruence. }
      exact Hl.
    + now apply (Hre _ before after).
  - assert (Hfirst : Deploy.first_match (envContent ++ Deploy.LF ++ "CONTRACT_ADDRESS=" ++ address)
                     = Some (envContent ++ Deploy.LF, "CONTRACT_ADDRESS=" ++ address, "")).
    { rewrite <- (string_app_nil address) at 1.
      rewrite first_match_appended by assumption.
      rewrite rest_of_line_plain by (assumption || reflexivity). reflexivity. }
    exists (envContent ++ Deploy.LF ++ "CONTRACT_ADDRESS=" ++ address),
      (envContent ++ Deploy.LF), "".
    assert (Hnew : envContent ++ Deploy.LF ++ "CONTRACT_ADDRESS=" ++ address
                   = (envContent ++ Deploy.LF) ++ "CONTRACT_ADDRESS=" ++ address ++ "").
    { now rewrite string_app_nil, string_app_assoc. }
    split; [reflexivity|]. split; [exact Hnew|]. split; [exact Hfirst|].
    split.
    + left. now repeat split.
    + now apply (Hre _ (envContent ++ Deploy.LF) "").
Qed.

(** The address of a new deployment takes the place of the old one; the
    settings around it stay. *)
Lemma updateEnvFile_sets_address_env_file :
  plain "0x2222" = true
  /\ Deploy.updateEnvFile "0x2222" (Some env_file)
     = Some ("ADMIN_PRIVATE_KEY=0xabc" ++ Deploy.LF ++ "CONTRACT_ADDRESS=0x2222" ++ Deploy.LF
             ++ "RPC_URL=http://localhost:8545" ++ Deploy.LF)
  /\ exists new before after,
       Deploy.updateEnvFile "0x2222" (Some env_file) = Some new
       /\ new = before ++ "CONTRACT_ADDRESS=" ++ "0x2222" ++ after
       /\ Deploy.first_match new = Some (before, "CONTRACT_ADDRESS=" ++ "0x2222", after)
       /\ (includes env_file "CONTRACT_ADDRESS=" = false
           /\ before = env_file ++ Deploy.LF /\ after = ""
           \/ exists line,
                env_file = before ++ "CONTRACT_ADDRESS=" ++ line ++ after
                /\ Deploy.rest_of_line (line ++ after) = (line, after))
       /\ Deploy.updateEnvFile "0x2222" (Some new) = Some new.
Proof.
  split; [reflexivity|]. split; [reflexivity|].
  exact (updateEnvFile_sets_address env_file "0x2222" eq_refl).
Defined.

(** ** The further properties on the sample data *)

(** A description of nine characters is refused at the step "story"; the
    step "documents" accepts the form with the blank title. *)
Lemma validateStep_story_short :
  validateStep 2 (page 2 (assign (description "too short") maria))
  = (false, setError (Some "Description must be at least 10 characters")
              (page 2 (assign (description "too short") maria)))
  /\ validateStep 4 (page 4 blank_title) = (true, page 4 blank_title).
Proof.
  split.
  - destruct (validateStep_story 2 (page 2 (assign (description "too short") maria)))
      as [H _]. rewrite H. reflexivity.
  - destruct (validateStep_story 4 (page 4 blank_title)) as [_ H].
    apply H; discriminate.
Defined.

(** The session of Maria ends guarded, and its one request is validated. *)
Lemma wizard_is_guarded_session :
  exists p, fst (run thousand_days initialPage browser) = Returned p /\ guarded p.
Proof. exact (wizard_is_guarded thousand_days browser). Defined.


(** Removing the letter of the three documents leaves the bill and the
    passport with their types; a submission with a backend that refuses
    the second upload sends the bill and the letter with their types. *)
Lemma documents_keep_their_types_three :
  let p := page 5 three_documents in
  List.length (FormData.documents (Page.formData p))
  = List.length (FormData.documentTypes (Page.formData p))
  /\ typed_documents (removeDocument 1 p) = [(bill, medical_bill); (passport, id_proof)]
  /\ World.sent (snd (handleSubmit p second_upload_fails))
     = [ POST_documents_upload bill medical_bill;
         POST_documents_upload letter hospital_letter ]
  /\ exists k rest,
       World.sent (snd (handleSubmit p second_upload_fails))
       = (World.sent second_upload_fails
          ++ firstn k [ POST_documents_upload bill medical_bill;
                        POST_documents_upload letter hospital_letter;
                        POST_documents_upload passport id_proof ]
          ++ rest)%list
       /\ (rest = []
           \/ k = 3%nat /\ exists docs, rest = [creation_request three_documents docs]).
Proof.
  cbv zeta.
  destruct (documents_keep_their_types (page 5 three_documents) eq_refl)
    as (_ & Hremove & _ & Huploads).
  split; [reflexivity|]. split; [rewrite Hremove; reflexivity|].
  split; [vm_compute; reflexivity|].
  exact (Huploads second_upload_fails).
Defined.


(** The campaign of Maria is first among the medical campaigns of
    individuals, before the older one, and is not among the campaigns of
    charities. *)
Lemma created_campaign_is_listed_maria :
  let w' := snd (createIndividualCampaign maria_request returning) in
  let c := JSON_roundtrip (individual_record maria_request receipt (World.now returning)) in
  World.window returning = true
  /\ createIndividualCampaign maria_request returning = (Returned receipt, w')
  /\ fst (getCampaigns medical_individuals w')
     = Returned [c; stored "QmOld" "2026-10-01T00:00:00.000Z" 60 normal]
  /\ fst (getCampaigns charities w') = Returned [].
Proof.
  cbv zeta. split; [reflexivity|]. split; [reflexivity|]. split.
  - destruct (created_campaign_is_listed returning
                (snd (createIndividualCampaign maria_request returning)) receipt
                medical_individuals eq_refl) as [H _].
    rewrite (H maria_request eq_refl). reflexivity.
  - destruct (created_campaign_is_listed returning
                (snd (createIndividualCampaign maria_request returning)) receipt
                charities eq_refl) as [H _].
    rewrite (H maria_request eq_refl). reflexivity.
Defined.

(** After the session of Maria the older campaign of the visitor is still
    in the index, behind the new one. *)
Lemma index_only_grows_session :
  let w' := snd (run thousand_days initialPage returning) in
  well_formed returning
  /\ List.length (read_index w') = 2%nat
  /\ well_formed w'
  /\ exists cs, read_index w' = (cs ++ read_index returning)%list
                /\ Forall newly_created cs.
Proof.
  cbv zeta.
  assert (H : well_formed returning) by (repeat constructor).
  split; [exact H|]. split; [vm_compute; reflexivity|].
  exact (index_only_grows thousand_days initialPage returning H).
Defined.

(** Three campaigns with 30, 5 and 12 days left, by days left. *)
Lemma ending_soon_order_three :
  let result := [ campaign "a" "2026-11-01T00:00:00.000Z" 0 30 false;
                  campaign "b" "2026-11-02T00:00:00.000Z" 0 5 false;
                  campaign "c" "2026-11-03T00:00:00.000Z" 0 12 true ] in
  Forall (fun c => finite (Campaign.daysLeft c)) result
  /\ map Campaign.id (sorting Date_parse_ISO ending result) = ["b"; "c"; "a"]
  /\ Permutation result (sorting Date_parse_ISO ending result)
  /\ StronglySorted ending_first (sorting Date_parse_ISO ending result).
Proof.
  cbv zeta.
  assert (H : Forall (fun c => finite (Campaign.daysLeft c))
                [ campaign "a" "2026-11-01T00:00:00.000Z" 0 30 false;
                  campaign "b" "2026-11-02T00:00:00.000Z" 0 5 false;
                  campaign "c" "2026-11-03T00:00:00.000Z" 0 12 true ]).
  { repeat constructor; eexists; reflexivity. }
  split; [exact H|]. split; [vm_compute; reflexivity|].
  exact (ending_soon_order Date_parse_ISO _ H).
Defined.

(** After the session of Maria in a browser with an empty index, the list
    has one campaign, which nobody has given to. *)
Lemma wizard_campaigns_are_untouched_session :
  read_index browser = []
  /\ exists campaigns,
       fst (fetchCampaigns Date_parse_ISO day1 (snd (run thousand_days initialPage browser)))
       = Returned campaigns
       /\ Forall untouched campaigns
       /\ Stats.total (stats campaigns) = num 0
       /\ Stats.urgent (stats campaigns) = 0%nat.
Proof.
  split; [reflexivity|].
  exact (wizard_campaigns_are_untouched Date_parse_ISO day1 thousand_days initialPage browser
           eq_refl).
Defined.

(** The page of the campaign of Maria, once created, shows it. *)
Lemma created_campaign_has_its_page_maria :
  let w' := snd (createIndividualCampaign maria_request returning) in
  let c := JSON_roundtrip (individual_record maria_request receipt (World.now returning)) in
  World.window returning = true
  /\ createIndividualCampaign maria_request returning = (Returned receipt, w')
  /\ CampaignDetail.fetchCampaign Date_parse_ISO no_samples day1 "QmMaria"
       CampaignDetail.initialPage w'
     = (Returned
          {| CampaignDetail.Page.campaign :=
               Some (CampaignDetail.apiToFrontendCampaign Date_parse_ISO day1 c);
             CampaignDetail.Page.apiCampaign := Some c;
             CampaignDetail.Page.isLoading := false;
             CampaignDetail.Page.error := None |}, w').
Proof.
  cbv zeta. split; [reflexivity|]. split; [reflexivity|].
  destruct (created_campaign_has_its_page Date_parse_ISO no_samples day1
              CampaignDetail.initialPage returning
              (snd (createIndividualCampaign maria_request returning)) receipt eq_refl)
    as [H _].
  exact (H maria_request eq_refl).
Defined.
